(** * The Ollama chat-completion client: a shallow embedding

    Source: [python/packages/autogen-ext/src/autogen_ext/models/ollama/_ollama_client.py].

    Python values are modelled as follows.
    - [str] is [string]; every [ascii] stands for one character of the
      Python string, so [String.length] is [len] and a character class
      is a predicate on [ascii].
    - [int] is [Z]; [float] is an IEEE 754 binary64 number, modelled by
      the standard library's [spec_float] at precision 53 and maximal
      exponent 1024, with rounding to nearest even.
    - [dict] is an association list kept in insertion order, because
      the source iterates over dictionaries and overwrites keys while
      doing so.
    - A raised exception is the [Raise] alternative of [result]; one
      constructor of [error] per [raise] statement of the source. *)

From Stdlib Require Import ZArith List String Ascii Bool Lia.
From Stdlib Require Import Numbers.DecimalString.
From Stdlib Require Import Floats.SpecFloat.
Import ListNotations.

Open Scope string_scope.
Open Scope list_scope.

Set Warnings "-register-all".

(** ** Exceptions *)

Inductive error : Type :=
| InvalidNameChars (name : string)
    (* ValueError("Invalid name: ... Only letters, numbers, '_' and '-' are allowed.") *)
| InvalidNameLength (name : string)
    (* ValueError("Invalid name: ... Name must be less than 64 characters.") *)
| UnknownContentType
    (* ValueError("Unknown content type: ...") *)
| JSONDecodeError
    (* raised by json.loads *)
| KeyError (key : string)
    (* subscript of a dict by a key it does not hold *)
| ResponseFormatNotModel
    (* ValueError("response_format must be a Pydantic model class, not ...") *)
| JsonOutputUnsupported
    (* ValueError("Model does not support JSON output.") *)
| ResponseFormatJsonOutputConflict
    (* ValueError("response_format and json_output cannot be set to a Pydantic
       model class at the same time. Use json_output instead.") *)
| JsonOutputBadType
    (* ValueError("json_output must be a boolean or a Pydantic model class, got ...") *)
| JsonOutputFormatConflict
    (* ValueError("json_output and format cannot be set at the same time.
       Use json_output instead.") *)
| AssertionError
    (* a failed assert statement *)
| VisionUnsupported
    (* ValueError("Model does not support vision and image was provided") *)
| FunctionCallingUnsupported
    (* ValueError("Model does not support function calling and tools were provided") *)
| NoToolsProvided
    (* ValueError("tool_choice 'required' specified but no tools provided") *)
| ZeroDivisionError
| FloatToIntError
    (* int() or math.ceil() of an infinity or a NaN *)
| SchemaTypeError
    (* TypeError or AttributeError raised while the "anyOf" of a property
       schema is walked: a value that cannot be iterated, or an element
       without a get method *)
| ModelInfoRequired
    (* ValueError("model_info is required when model name is not a valid OpenAI model") *)
| ModelInfoExclusive
    (* ValueError("model_capabilities and model_info are mutually exclusive") *)
| DuplicateKeyword (key : string)
    (* TypeError: chat() got multiple values for keyword argument ... *)
| BackendError (what : string).
    (* anything the backend transport raises, a cancellation included *)

Inductive result (A : Type) : Type :=
| Ok (a : A)
| Raise (e : error).

Arguments Ok {A} a.
Arguments Raise {A} e.

Definition bind {A B : Type} (r : result A) (k : A -> result B) : result B :=
  match r with
  | Ok a => k a
  | Raise e => Raise e
  end.

Notation "'let*' x ':=' r 'in' k" := (bind r (fun x => k))
  (at level 10, x pattern, r at level 100, k at level 200).

Definition is_ok {A : Type} (r : result A) : bool :=
  match r with Ok _ => true | Raise _ => false end.

(** [[f(x) for x in xs]] where [f] may raise: the first exception wins. *)
Fixpoint map_result {A B : Type} (f : A -> result B) (xs : list A) : result (list B) :=
  match xs with
  | [] => Ok []
  | x :: rest =>
      let* y := f x in
      let* ys := map_result f rest in
      Ok (y :: ys)
  end.

(** ** Strings *)

Definition LF : ascii := ascii_of_nat 10.

Fixpoint str_all (p : ascii -> bool) (s : string) : bool :=
  match s with
  | EmptyString => true
  | String c rest => p c && str_all p rest
  end.

Fixpoint str_map (f : ascii -> ascii) (s : string) : string :=
  match s with
  | EmptyString => EmptyString
  | String c rest => String (f c) (str_map f rest)
  end.

(** [s[:n]] *)
Fixpoint str_take (n : nat) (s : string) : string :=
  match n, s with
  | O, _ => EmptyString
  | S _, EmptyString => EmptyString
  | S n', String c rest => String c (str_take n' rest)
  end.

(** [str.lower()] on the characters A-Z.  The source lowers dictionary
    keys and stop reasons only to compare them with ASCII words, and a
    character beyond ASCII never lowers to an ASCII one among those
    modelled here, so the comparisons come out the same. *)
Definition lower_char (c : ascii) : ascii :=
  let n := nat_of_ascii c in
  if (65 <=? n)%nat && (n <=? 90)%nat then ascii_of_nat (n + 32) else c.

Definition str_lower (s : string) : string := str_map lower_char s.

(** [str(n)] for an [int]. *)
Definition str_of_int (n : Z) : string := NilZero.string_of_int (Z.to_int n).

(** ** Name validation: [normalize_name] and [assert_valid_name] *)

Module Names.

Definition in_range (lo hi c : ascii) : bool :=
  (nat_of_ascii lo <=? nat_of_ascii c)%nat && (nat_of_ascii c <=? nat_of_ascii hi)%nat.

(** The character class [[a-zA-Z0-9_-]]. *)
Definition name_char (c : ascii) : bool :=
  in_range "a" "z" c || in_range "A" "Z" c || in_range "0" "9" c
  || Ascii.eqb c "_" || Ascii.eqb c "-".

(** [re.sub(r"[^a-zA-Z0-9_-]", "_", name)]: every character outside
    the class is replaced by an underscore. *)
Definition re_sub_invalid (name : string) : string :=
  str_map (fun c => if name_char c then c else "_"%char) name.

Definition normalize_name (name : string) : string :=
  str_take 64 (re_sub_invalid name).

(** The [$] of Python's [re] without [re.MULTILINE]: it matches at the
    end of the string and also just before a newline that is the last
    character of the string. *)
Definition at_dollar (rest : string) : bool :=
  match rest with
  | EmptyString => true
  | String c EmptyString => Ascii.eqb c LF
  | _ => false
  end.

(** [[a-zA-Z0-9_-]+$] tried at the head of [s]: one character of the
    class, then either more of them (the greedy choice, tried first)
    or the [$]. *)
Fixpoint match_plus_dollar (s : string) : bool :=
  match s with
  | EmptyString => false
  | String c rest => name_char c && (match_plus_dollar rest || at_dollar rest)
  end.

(** [re.match(r"^[a-zA-Z0-9_-]+$", name)] as a truth value; [re.match]
    tries the pattern at position 0 only, where [^] matches. *)
Definition re_match_name (name : string) : bool := match_plus_dollar name.

Definition assert_valid_name (name : string) : result string :=
  if negb (re_match_name name) then Raise (InvalidNameChars name)
  else if (64 <? String.length name)%nat then Raise (InvalidNameLength name)
  else Ok name.

(** The specification's pattern [[A-Za-z0-9_-]{1,64}], written from
    its words: between 1 and 64 characters, all of them in the class. *)
Definition spec_valid_identifier (s : string) : bool :=
  (1 <=? String.length s)%nat && (String.length s <=? 64)%nat && str_all name_char s.

End Names.

(** ** Floating point: Python's [float] is IEEE 754 binary64 *)

Module PyFloat.

Definition prec : Z := 53.
Definition emax : Z := 1024.

Definition float : Type := spec_float.

(** [float(n)], rounded to nearest even when [n] needs more than 53 bits. *)
Definition of_int (n : Z) : float := binary_normalize prec emax n 0 false.

Definition is_zero (x : float) : bool :=
  match x with S754_zero _ => true | _ => false end.

(** [x / y] on floats; Python raises on a zero divisor where IEEE 754
    would give an infinity or a NaN. *)
Definition div (x y : float) : result float :=
  if is_zero y then Raise ZeroDivisionError else Ok (SFdiv prec emax x y).

Definition mul (x y : float) : float := SFmul prec emax x y.

(** [x > y] *)
Definition gtb (x y : float) : bool := SFltb y x.

(** [int(x)]: truncation toward zero. *)
Definition to_int (x : float) : result Z :=
  match x with
  | S754_zero _ => Ok 0%Z
  | S754_finite s m e =>
      let magnitude := Z.shiftl (Zpos m) e in
      Ok (if s then Z.opp magnitude else magnitude)
  | S754_infinity _ | S754_nan => Raise FloatToIntError
  end.

(** [math.ceil(x)]: the least integer not below [x]. *)
Definition ceil (x : float) : result Z :=
  match x with
  | S754_zero _ => Ok 0%Z
  | S754_finite s m e =>
      Ok (if s then Z.opp (Z.shiftl (Zpos m) e)
          else Z.opp (Z.shiftl (Zneg m) e))
  | S754_infinity _ | S754_nan => Raise FloatToIntError
  end.

(** [a / b] on two [int]s: true division.  Python rounds the exact
    quotient once; for operands below 2^53 in magnitude, which every
    image dimension is, that is the binary64 quotient of the two
    conversions. *)
Definition int_truediv (a b : Z) : result float :=
  if (b =? 0)%Z then Raise ZeroDivisionError else div (of_int a) (of_int b).

End PyFloat.

(** ** Images and the vision-token estimate *)

(** [autogen_core.Image]: the size of the wrapped PIL image and the
    base64 text of its content ([to_base64()]). *)
Record Image : Type := mkImage {
  image_width : Z;
  image_height : Z;
  to_base64 : string
}.

Module Vision.
Import PyFloat.
Open Scope Z_scope.

Definition MAX_LONG_EDGE : Z := 2048.
Definition BASE_TOKEN_COUNT : Z := 85.
Definition TOKENS_PER_TILE : Z := 170.
Definition MAX_SHORT_EDGE : Z := 768.
Definition TILE_SIZE : Z := 512.

(** First resizing step: fit within a [MAX_LONG_EDGE] square. *)
Definition fit_long_edge (width height : Z) : result (Z * Z) :=
  if (width >? MAX_LONG_EDGE) || (height >? MAX_LONG_EDGE) then
    let* aspect_ratio := int_truediv width height in
    if gtb aspect_ratio (of_int 1) then
      let* q := div (of_int MAX_LONG_EDGE) aspect_ratio in
      let* height' := to_int q in
      Ok (MAX_LONG_EDGE, height')
    else
      let* width' := to_int (mul (of_int MAX_LONG_EDGE) aspect_ratio) in
      Ok (width', MAX_LONG_EDGE)
  else Ok (width, height).

(** Second resizing step: when both sides exceed [MAX_SHORT_EDGE], the
    shorter one becomes [MAX_SHORT_EDGE]. *)
Definition fit_short_edge (width height : Z) : result (Z * Z) :=
  let* aspect_ratio := int_truediv width height in
  if (width >? MAX_SHORT_EDGE) && (height >? MAX_SHORT_EDGE) then
    if gtb aspect_ratio (of_int 1) then
      let* width' := to_int (mul (of_int MAX_SHORT_EDGE) aspect_ratio) in
      Ok (width', MAX_SHORT_EDGE)
    else
      let* q := div (of_int MAX_SHORT_EDGE) aspect_ratio in
      let* height' := to_int q in
      Ok (MAX_SHORT_EDGE, height')
  else Ok (width, height).

(** [math.ceil(n / TILE_SIZE)] *)
Definition tiles_along (n : Z) : result Z :=
  let* q := int_truediv n TILE_SIZE in ceil q.

Definition calculate_vision_tokens (image : Image) (detail : string) : result Z :=
  if String.eqb detail "low" then Ok BASE_TOKEN_COUNT
  else
    let* (width, height) := fit_long_edge (image_width image) (image_height image) in
    let* (width, height) := fit_short_edge width height in
    let* tiles_width := tiles_along width in
    let* tiles_height := tiles_along height in
    let total_tiles := tiles_width * tiles_height in
    Ok (BASE_TOKEN_COUNT + TOKENS_PER_TILE * total_tiles).

(** The default of the [detail] parameter. *)
Definition default_detail : string := "auto".

End Vision.

(** ** Python values and dictionaries *)

(** A dynamically typed value: the JSON fragment ([None], [bool],
    [int], [str], [list], [dict] with string keys), a class derived
    from [pydantic.BaseModel] together with the items of the
    dictionary that its [model_json_schema()] returns, and any other
    object. *)
Inductive pyvalue : Type :=
| PyNone
| PyBool (b : bool)
| PyInt (n : Z)
| PyStr (s : string)
| PyList (xs : list pyvalue)
| PyDict (items : list (string * pyvalue))
| PyModelClass (schema : list (string * pyvalue))
| PyObject (description : string).

(** A [dict] with string keys, in insertion order, keys unique. *)
Definition dict (V : Type) : Type := list (string * V).

Fixpoint dict_get {V : Type} (k : string) (d : dict V) : option V :=
  match d with
  | [] => None
  | (k', v) :: rest => if String.eqb k k' then Some v else dict_get k rest
  end.

(** [k in d] *)
Definition dict_mem {V : Type} (k : string) (d : dict V) : bool :=
  match dict_get k d with Some _ => true | None => false end.

(** [d[k] = v]: an existing key keeps its place, a new one goes last. *)
Fixpoint dict_set {V : Type} (k : string) (v : V) (d : dict V) : dict V :=
  match d with
  | [] => [(k, v)]
  | (k', v') :: rest =>
      if String.eqb k k' then (k, v) :: rest else (k', v') :: dict_set k v rest
  end.

(** [del d[k]] for a key the dictionary holds. *)
Fixpoint dict_del {V : Type} (k : string) (d : dict V) : dict V :=
  match d with
  | [] => []
  | (k', v') :: rest =>
      if String.eqb k k' then rest else (k', v') :: dict_del k rest
  end.

(** [d.update(other)] *)
Definition dict_update {V : Type} (d other : dict V) : dict V :=
  fold_left (fun acc kv => dict_set (fst kv) (snd kv) acc) other d.

(** [x in xs] for a set or list of strings. *)
Definition str_mem (x : string) (xs : list string) : bool :=
  existsb (String.eqb x) xs.

(** Truth value of an object, as [or], [not] and [if] take it. *)
Definition truthy (v : pyvalue) : bool :=
  match v with
  | PyNone => false
  | PyBool b => b
  | PyInt n => negb (n =? 0)%Z
  | PyStr s => negb (String.eqb s "")
  | PyList xs => match xs with [] => false | _ => true end
  | PyDict items => match items with [] => false | _ => true end
  | PyModelClass _ | PyObject _ => true
  end.

(** ** What the module takes from outside

    [json.loads] and [json.dumps], the field names of
    [ollama._types.ChatRequest] and the capability table of
    [_model_info] are not part of this file of the repository; the
    development is parametric in them. *)

Record ModelInfo : Type := mkModelInfo {
  vision : bool;
  function_calling : bool;
  json_output : bool;
  family : string
}.

Class External : Type := {
  json_loads : string -> option pyvalue;
  json_dumps : pyvalue -> string;
  chat_request_fields : list string;
  get_info : string -> option ModelInfo
}.

(** ** The generic interface: [autogen_core] messages *)

Module FunctionCall.
Record t : Type := mk { id : string; arguments : string; name : string }.
End FunctionCall.

Inductive ContentPart : Type :=
| PartText (text : string)
| PartImage (image : Image)
| PartOther.

Inductive UserContent : Type :=
| UserText (text : string)
| UserParts (parts : list ContentPart).

Inductive AssistantContent : Type :=
| AssistantText (text : string)
| AssistantCalls (calls : list FunctionCall.t).

Module FunctionExecutionResult.
Record t : Type := mk { content : string; name : string; call_id : string; is_error : option bool }.
End FunctionExecutionResult.

Inductive LLMMessage : Type :=
| SystemMessage (content : string)
| UserMessage (content : UserContent) (source : string)
| AssistantMessage (content : AssistantContent) (thought : option string) (source : string)
| FunctionExecutionResultMessage (content : list FunctionExecutionResult.t).

(** ** The backend's wire types: [ollama.Message] and [ollama.Tool] *)

Module OllamaImage.
Record t : Type := mk { value : string }.
End OllamaImage.

Module ToolCall.
(** [Message.ToolCall], with the fields of its [Function]. *)
Record t : Type := mk { name : string; arguments : pyvalue }.
End ToolCall.

Module Message.
Record t : Type := mk {
  role : string;
  content : option string;
  images : option (list OllamaImage.t);
  tool_calls : option (list ToolCall.t)
}.
Definition set_images (imgs : option (list OllamaImage.t)) (m : t) : t :=
  mk (role m) (content m) imgs (tool_calls m).
End Message.

(** ** Message translation *)

Module Translate.
Import Names.

Definition type_to_role (message : LLMMessage) : string :=
  match message with
  | SystemMessage _ => "system"
  | UserMessage _ _ => "user"
  | AssistantMessage _ _ _ => "assistant"
  | FunctionExecutionResultMessage _ => "tool"
  end.

(** [xs[-1]] replaced by [f xs[-1]], for the in-place update of the
    last element of a non-empty list. *)
Fixpoint update_last {A : Type} (f : A -> A) (xs : list A) : list A :=
  match xs with
  | [] => []
  | [x] => [f x]
  | x :: rest => x :: update_last f rest
  end.

(** The image branch of the loop, for a non-empty message list. *)
Definition attach_image (img : OllamaImage.t) (m : Message.t) : Message.t :=
  match Message.images m with
  | None => Message.set_images (Some [img]) m
  | Some imgs => Message.set_images (Some (imgs ++ [img])) m
  end.

(** The [for part in message.content] loop, [ollama_messages] being
    the list built so far. *)
Fixpoint user_parts_loop (parts : list ContentPart) (ollama_messages : list Message.t)
  : result (list Message.t) :=
  match parts with
  | [] => Ok ollama_messages
  | PartText text :: rest =>
      user_parts_loop rest
        (ollama_messages ++ [Message.mk "user" (Some text) None None])
  | PartImage image :: rest =>
      let img := OllamaImage.mk (to_base64 image) in
      match ollama_messages with
      | [] => user_parts_loop rest [Message.mk "user" None (Some [img]) None]
      | _ :: _ => user_parts_loop rest (update_last (attach_image img) ollama_messages)
      end
  | PartOther :: _ => Raise UnknownContentType
  end.

Definition user_message_to_ollama (content : UserContent) (source : string)
  : result (list Message.t) :=
  let* _ := assert_valid_name source in
  match content with
  | UserText text => Ok [Message.mk "user" (Some text) None None]
  | UserParts parts => user_parts_loop parts []
  end.

Definition system_message_to_ollama (content : string) : Message.t :=
  Message.mk "system" (Some content) None None.

Section WithExternal.
Context {ext : External}.

Definition _func_args_to_ollama_args (args : string) : result pyvalue :=
  match json_loads args with
  | Some v => Ok v
  | None => Raise JSONDecodeError
  end.

Definition func_call_to_ollama (message : FunctionCall.t) : result ToolCall.t :=
  let* arguments := _func_args_to_ollama_args (FunctionCall.arguments message) in
  Ok (ToolCall.mk (FunctionCall.name message) arguments).

Definition tool_message_to_ollama (content : list FunctionExecutionResult.t)
  : list Message.t :=
  map (fun x => Message.mk "tool" (Some (FunctionExecutionResult.content x)) None None)
      content.

Definition assistant_message_to_ollama (content : AssistantContent) (source : string)
  : result Message.t :=
  let* _ := assert_valid_name source in
  match content with
  | AssistantCalls calls =>
      let* tool_calls := map_result func_call_to_ollama calls in
      Ok (Message.mk "assistant" None None (Some tool_calls))
  | AssistantText text => Ok (Message.mk "assistant" (Some text) None None)
  end.

Definition to_ollama_type (message : LLMMessage) : result (list Message.t) :=
  match message with
  | SystemMessage content => Ok [system_message_to_ollama content]
  | UserMessage content source => user_message_to_ollama content source
  | AssistantMessage content _ source =>
      let* m := assistant_message_to_ollama content source in Ok [m]
  | FunctionExecutionResultMessage content => Ok (tool_message_to_ollama content)
  end.

End WithExternal.
End Translate.

(** ** Tool schemas and their conversion *)

Module ParametersSchema.
Record t : Type := mk {
  type : string;
  properties : dict (dict pyvalue);
  required : option (list string)
}.
End ParametersSchema.

Module ToolSchema.
Record t : Type := mk {
  name : string;
  description : option string;
  parameters : option ParametersSchema.t
}.
End ToolSchema.

(** [Tool | ToolSchema]: a tool object, whose [schema] property is
    read, or the schema dictionary itself. *)
Inductive ToolInput : Type :=
| IsTool (schema : ToolSchema.t)
| IsSchema (schema : ToolSchema.t).

Module OllamaProperty.
Record t : Type := mk { type : pyvalue; description : option pyvalue }.
End OllamaProperty.

Module OllamaTool.
(** [ollama.Tool], with the fields of its [Function] and of that
    function's [Parameters]. *)
Record t : Type := mk {
  name : string;
  description : string;
  required : option (list string);
  properties : option (dict OllamaProperty.t)
}.
End OllamaTool.

Module Tools.
Import Names.

(** [d.get(k)] *)
Definition get_or_none (k : string) (d : dict pyvalue) : pyvalue :=
  match dict_get k d with Some v => v | None => PyNone end.

Definition is_none (v : pyvalue) : bool :=
  match v with PyNone => true | _ => false end.

Definition is_str (s : string) (v : pyvalue) : bool :=
  match v with PyStr s' => String.eqb s' s | _ => false end.

(** [v is True] *)
Definition is_true (v : pyvalue) : bool :=
  match v with PyBool true => true | _ => false end.

Definition is_bool (v : pyvalue) : bool :=
  match v with PyBool _ => true | _ => false end.

(** [isinstance(v, type) and issubclass(v, BaseModel)] *)
Definition is_model_class (v : pyvalue) : bool :=
  match v with PyModelClass _ => true | _ => false end.

(** What a [for] loop over the value visits: the elements of a list,
    the characters of a string, the keys of a dictionary.  [None], a
    boolean, an integer and a class cannot be iterated ([TypeError]);
    [PyObject] stands for an object without an iteration protocol. *)
Definition iterate (v : pyvalue) : result (list pyvalue) :=
  match v with
  | PyList xs => Ok xs
  | PyStr s => Ok (map (fun c => PyStr (String c EmptyString)) (list_ascii_of_string s))
  | PyDict items => Ok (map (fun kv => PyStr (fst kv)) items)
  | PyNone | PyBool _ | PyInt _ | PyModelClass _ | PyObject _ => Raise SchemaTypeError
  end.

(** [next((opt.get("type") for opt in alternatives
           if opt.get("type") != "null"), None)], the elements taken one
    by one: only a dictionary has the [get] that the loop calls, any
    other element reached is an [AttributeError]. *)
Fixpoint first_non_null_type (alternatives : list pyvalue) : result pyvalue :=
  match alternatives with
  | [] => Ok PyNone
  | PyDict opt :: rest =>
      if negb (is_str "null" (get_or_none "type" opt)) then Ok (get_or_none "type" opt)
      else first_non_null_type rest
  | _ :: _ => Raise SchemaTypeError
  end.

Definition convert_property (prop_schema : dict pyvalue) : result OllamaProperty.t :=
  let prop_type := get_or_none "type" prop_schema in
  let* prop_type :=
    if is_none prop_type && dict_mem "anyOf" prop_schema then
      let* alternatives := iterate (get_or_none "anyOf" prop_schema) in
      first_non_null_type alternatives
    else Ok prop_type in
  let prop_type := if truthy prop_type then prop_type else PyStr "string" in
  Ok (OllamaProperty.mk prop_type (dict_get "description" prop_schema)).

Definition tool_schema_of (tool : ToolInput) : ToolSchema.t :=
  match tool with IsTool schema => schema | IsSchema schema => schema end.

Definition convert_tool (tool : ToolInput) : result OllamaTool.t :=
  let tool_schema := tool_schema_of tool in
  let parameters := ToolSchema.parameters tool_schema in
  let* ollama_properties :=
    match parameters with
    | None => Ok None
    | Some ps =>
        let* props :=
          map_result (fun kv => let* p := convert_property (snd kv) in Ok (fst kv, p))
                     (ParametersSchema.properties ps) in
        Ok (Some props)
    end in
  Ok (OllamaTool.mk
        (ToolSchema.name tool_schema)
        (match ToolSchema.description tool_schema with Some d => d | None => "" end)
        (match parameters with Some ps => ParametersSchema.required ps | None => None end)
        ollama_properties).

Definition convert_tools (tools : list ToolInput) : result (list OllamaTool.t) :=
  let* result := map_result convert_tool tools in
  let* _ := map_result (fun tool_param => assert_valid_name (OllamaTool.name tool_param)) result in
  Ok result.

End Tools.

(** ** Stop reasons, usage and results *)

Inductive FinishReasons : Type :=
| finish_stop | finish_length | finish_function_calls | finish_content_filter | finish_unknown.

Definition KNOWN_STOP_MAPPINGS : dict FinishReasons :=
  [("stop", finish_stop); ("end_turn", finish_stop); ("tool_calls", finish_function_calls)].

Definition normalize_stop_reason (stop_reason : option string) : FinishReasons :=
  match stop_reason with
  | None => finish_unknown
  | Some stop_reason =>
      match dict_get (str_lower stop_reason) KNOWN_STOP_MAPPINGS with
      | Some r => r
      | None => finish_unknown
      end
  end.

Module RequestUsage.
Record t : Type := mk { prompt_tokens : Z; completion_tokens : Z }.
End RequestUsage.

Definition _add_usage (usage1 usage2 : RequestUsage.t) : RequestUsage.t :=
  RequestUsage.mk
    (RequestUsage.prompt_tokens usage1 + RequestUsage.prompt_tokens usage2)
    (RequestUsage.completion_tokens usage1 + RequestUsage.completion_tokens usage2).

Inductive ResultContent : Type :=
| ContentText (text : string)
| ContentCalls (calls : list FunctionCall.t).

Module CreateResult.
Record t : Type := mk {
  finish_reason : FinishReasons;
  content : ResultContent;
  usage : RequestUsage.t;
  cached : bool;
  thought : option string
}.
End CreateResult.

(** ** The backend: requests, responses and chunk streams *)

Module ChatResponse.
Record t : Type := mk {
  model : option string;
  done : option bool;
  done_reason : option string;
  prompt_eval_count : option Z;
  eval_count : option Z;
  message : Message.t
}.
End ChatResponse.

Module ChatCall.
(** The arguments of one [self._client.chat(...)] call. *)
Record t : Type := mk {
  messages : list Message.t;
  tools : option (list OllamaTool.t);
  stream : bool;
  format : pyvalue;
  kwargs : dict pyvalue
}.
End ChatCall.

(** What the backend does with one non-streaming call. *)
Definition Backend : Type := ChatCall.t -> result ChatResponse.t.

(** A chunk stream: the chunks it delivers, then [StopAsyncIteration]
    ([None]) or an exception, which is also how a cancellation of the
    pending read shows. *)
Module ChunkStream.
Record t : Type := mk { chunks : list ChatResponse.t; ending : option error }.
End ChunkStream.

Definition StreamBackend : Type := ChatCall.t -> result ChunkStream.t.

(** ** Request building *)

Definition LLM_CONTROL_PARAMS : list string :=
  ["temperature"; "top_p"; "top_k"; "repeat_penalty"; "frequency_penalty";
   "presence_penalty"; "mirostat"; "mirostat_eta"; "mirostat_tau"; "seed";
   "num_ctx"; "num_predict"; "num_gpu"; "stop"; "tfs_z"; "typical_p"].

Module CreateParams.
Record t : Type := mk {
  messages : list Message.t;
  tools : list OllamaTool.t;
  format : pyvalue;
  create_args : dict pyvalue
}.
End CreateParams.

(** [tool_choice]: a [Tool] object or a string. *)
Inductive ToolChoice : Type :=
| ChoiceTool (tool : ToolSchema.t)
| ChoiceStr (choice : string).

(** The state of a client instance that the calls read or write.
    [_client] is the backend, passed to each call instead. *)
Record Client : Type := mkClient {
  _model_info : ModelInfo;
  _resolved_model : option pyvalue;
  _create_args : dict pyvalue;
  _total_usage : RequestUsage.t;
  _actual_usage : RequestUsage.t;
  _tool_id : Z
}.

Section WithExternal.
Context {ext : External}.
Import Tools Translate.

Definition OLLAMA_VALID_CREATE_KWARGS_KEYS : list string :=
  chat_request_fields ++
  ["model"; "messages"; "tools"; "stream"; "format"; "options"; "keep_alive";
   "response_format"].

(** One round of the [for k, v in config.items()] loop, on the pair
    [(create_args, options_dict)]. *)
Definition _create_args_step (acc : dict pyvalue * dict pyvalue) (kv : string * pyvalue)
  : dict pyvalue * dict pyvalue :=
  let '(create_args, options_dict) := acc in
  let k_lower := str_lower (fst kv) in
  if str_mem k_lower OLLAMA_VALID_CREATE_KWARGS_KEYS then
    (dict_set k_lower (snd kv) create_args, options_dict)
  else if str_mem k_lower LLM_CONTROL_PARAMS then
    (create_args, dict_set k_lower (snd kv) options_dict)
  else (create_args, options_dict).

Definition _create_args_from_config (config : dict pyvalue) : dict pyvalue :=
  let options_dict :=
    match dict_get "options" config with
    | Some (PyDict options_map) => options_map
    | _ => []
    end in
  let '(create_args, options_dict) :=
    fold_left _create_args_step config ([], options_dict) in
  match options_dict with
  | [] => create_args
  | _ :: _ => dict_set "options" (PyDict options_dict) create_args
  end.

(** [BaseOllamaChatCompletionClient.__init__]; [_model_class] is
    stored and never read, so it is left out. *)
Definition __init__ (create_args : dict pyvalue)
    (model_capabilities model_info : option ModelInfo) : result Client :=
  let* model_name :=
    match dict_get "model" create_args with
    | Some m => Ok m
    | None => Raise (KeyError "model")
    end in
  let* info :=
    match model_capabilities, model_info with
    | None, None =>
        match model_name with
        | PyStr m =>
            match get_info m with Some i => Ok i | None => Raise ModelInfoRequired end
        | _ => Raise ModelInfoRequired
        end
    | Some _, Some _ => Raise ModelInfoExclusive
    | Some caps, None =>
        Ok (mkModelInfo (vision caps) (function_calling caps) (json_output caps) "unknown")
    | None, Some i => Ok i
    end in
  let* _ :=
    if negb (json_output info) then
      match dict_get "response_format" create_args with
      | Some (PyDict response_format) =>
          match dict_get "type" response_format with
          | None => Raise (KeyError "type")
          | Some t =>
              if is_str "json_object" t then Raise JsonOutputUnsupported else Ok tt
          end
      | _ => Ok tt
      end
    else Ok tt in
  Ok (mkClient info (Some model_name) create_args
        (RequestUsage.mk 0 0) (RequestUsage.mk 0 0) 0).

(** [any(isinstance(x, Image) for x in message.content)] over a
    message that is a [UserMessage] with list content. *)
Definition has_image (message : LLMMessage) : bool :=
  match message with
  | UserMessage (UserParts parts) _ =>
      existsb (fun x => match x with PartImage _ => true | _ => false end) parts
  | _ => false
  end.

(** The three steps that resolve the response-format directive; each
    takes and returns [(response_format_value, create_args)]. *)
Definition resolve_response_format (create_args : dict pyvalue)
  : result (pyvalue * dict pyvalue) :=
  match dict_get "response_format" create_args with
  | Some (PyModelClass schema) => Ok (PyDict schema, dict_del "response_format" create_args)
  | Some _ => Raise ResponseFormatNotModel
  | None => Ok (PyNone, create_args)
  end.

Definition resolve_json_output (self : Client) (json_output_arg response_format_value : pyvalue)
  : result pyvalue :=
  match json_output_arg with
  | PyNone => Ok response_format_value
  | PyBool true =>
      if negb (json_output (_model_info self)) then Raise JsonOutputUnsupported
      else Ok (PyStr "json")
  | PyBool false => Ok PyNone
  | PyModelClass schema =>
      if negb (is_none response_format_value) then Raise ResponseFormatJsonOutputConflict
      else Ok (PyDict schema)
  | _ => Raise JsonOutputBadType
  end.

Definition resolve_format (json_output_arg response_format_value : pyvalue)
    (create_args : dict pyvalue) : result (pyvalue * dict pyvalue) :=
  match dict_get "format" create_args with
  | Some format =>
      if negb (is_none json_output_arg) then Raise JsonOutputFormatConflict
      else if negb (is_none response_format_value) then Raise AssertionError
      else Ok (format, dict_del "format" create_args)
  | None => Ok (response_format_value, create_args)
  end.

Definition resolve_tool_choice (tools : list ToolInput) (tool_choice : ToolChoice)
  : result (list OllamaTool.t) :=
  match tool_choice with
  | ChoiceTool tool => convert_tools [IsTool tool]
  | ChoiceStr choice =>
      if String.eqb choice "none" then Ok []
      else if String.eqb choice "required" then
        let* converted_tools := convert_tools tools in
        match converted_tools with
        | [] => Raise NoToolsProvided
        | _ :: _ => Ok converted_tools
        end
      else convert_tools tools
  end.

(** The client's [create_args], overwritten by [extra_create_args]
    and sorted again into request fields and options. *)
Definition merged_create_args (self : Client) (extra_create_args : dict pyvalue)
  : dict pyvalue :=
  _create_args_from_config (dict_update (_create_args self) extra_create_args).

(** The directive part of [_process_create_args], lines 526-569. *)
Definition resolve_directive (self : Client) (json_output_arg : pyvalue)
    (create_args : dict pyvalue) : result (pyvalue * dict pyvalue) :=
  let* (response_format_value, create_args) := resolve_response_format create_args in
  let* response_format_value :=
    resolve_json_output self json_output_arg response_format_value in
  resolve_format json_output_arg response_format_value create_args.

(** The capability checks, the message translation and the tool
    choice of [_process_create_args], lines 571-603. *)
Definition translate_and_convert (self : Client) (messages : list LLMMessage)
    (tools : list ToolInput) (tool_choice : ToolChoice) (json_output_arg : pyvalue)
  : result (list Message.t * list OllamaTool.t) :=
  let* _ :=
    if negb (vision (_model_info self)) && existsb has_image messages
    then Raise VisionUnsupported else Ok tt in
  let* _ :=
    if negb (json_output (_model_info self)) && is_true json_output_arg
    then Raise JsonOutputUnsupported else Ok tt in
  let* ollama_messages_nested := map_result to_ollama_type messages in
  let ollama_messages := List.concat ollama_messages_nested in
  let* _ :=
    if negb (function_calling (_model_info self)) && (0 <? List.length tools)%nat
    then Raise FunctionCallingUnsupported else Ok tt in
  let* converted_tools := resolve_tool_choice tools tool_choice in
  Ok (ollama_messages, converted_tools).

Definition _process_create_args (self : Client) (messages : list LLMMessage)
    (tools : list ToolInput) (tool_choice : ToolChoice) (json_output_arg : pyvalue)
    (extra_create_args : dict pyvalue) : result CreateParams.t :=
  let create_args := merged_create_args self extra_create_args in
  let* (response_format_value, create_args) :=
    resolve_directive self json_output_arg create_args in
  let* (ollama_messages, converted_tools) :=
    translate_and_convert self messages tools tool_choice json_output_arg in
  Ok (CreateParams.mk ollama_messages converted_tools response_format_value create_args).

End WithExternal.

(** ** The completion and streaming orchestrators *)

Inductive StreamItem : Type :=
| YieldText (text : string)
| YieldResult (result : CreateResult.t).

(** The local variables of [create_stream] that the chunk loop
    updates. *)
Module Loop.
Record t : Type := mk {
  chunk : option ChatResponse.t;
  stop_reason : option string;
  content_chunks : list string;
  full_tool_calls : list FunctionCall.t
}.
Definition start : t := mk None None [] [].
End Loop.

Section WithExternal.
Context {ext : External}.
Import Names.

(** [self._client.chat(messages=..., tools=..., stream=..., format=...,
    **create_args)]: a key of [create_args] that repeats one of the
    four named arguments is a [TypeError] at the call. *)
Definition chat_call (stream : bool) (create_params : CreateParams.t) : result ChatCall.t :=
  match find (fun k => dict_mem k (CreateParams.create_args create_params))
             ["messages"; "tools"; "stream"; "format"] with
  | Some k => Raise (DuplicateKeyword k)
  | None =>
      Ok (ChatCall.mk
            (CreateParams.messages create_params)
            (match CreateParams.tools create_params with
             | [] => None
             | _ :: _ => Some (CreateParams.tools create_params)
             end)
            stream
            (CreateParams.format create_params)
            (CreateParams.create_args create_params))
  end.

(** [FunctionCall(id=str(self._tool_id), arguments=json.dumps(...),
    name=normalize_name(...))] for each backend tool call. *)
Definition function_calls_of (tool_id : Z) (tool_calls : list ToolCall.t)
  : list FunctionCall.t :=
  map (fun x => FunctionCall.mk (str_of_int tool_id)
                                (json_dumps (ToolCall.arguments x))
                                (normalize_name (ToolCall.name x)))
      tool_calls.

(** [n if n is not None else 0] *)
Definition count_or_zero (n : option Z) : Z :=
  match n with Some n => n | None => 0%Z end.

(** [s or ""] *)
Definition str_or_empty (s : option string) : string :=
  match s with Some s => s | None => "" end.

(** The part of [create] after the backend has answered: the result
    and the new value of [self._tool_id]. *)
Definition translate_response (tool_id : Z) (result : ChatResponse.t)
  : CreateResult.t * Z :=
  let usage :=
    RequestUsage.mk (count_or_zero (ChatResponse.prompt_eval_count result))
                    (count_or_zero (ChatResponse.eval_count result)) in
  let message := ChatResponse.message result in
  match Message.tool_calls message with
  | Some tool_calls =>
      let thought :=
        match Message.content message with
        | Some text => if negb (String.eqb text "") then Some text else None
        | None => None
        end in
      let content := ContentCalls (function_calls_of tool_id tool_calls) in
      (CreateResult.mk (normalize_stop_reason (Some "tool_calls")) content usage false thought,
       (tool_id + 1)%Z)
  | None =>
      let finish_reason := str_or_empty (ChatResponse.done_reason result) in
      let content := ContentText (str_or_empty (Message.content message)) in
      (CreateResult.mk (normalize_stop_reason (Some finish_reason)) content usage false None,
       tool_id)
  end.

(** The first half of [create] and of [create_stream]: the request is
    built, then the backend is called with it and awaited. *)
Definition ask {R : Type} (self : Client) (stream : bool) (backend : ChatCall.t -> result R)
    (messages : list LLMMessage) (tools : list ToolInput) (tool_choice : ToolChoice)
    (json_output_arg : pyvalue) (extra_create_args : dict pyvalue) : result R :=
  let* create_params :=
    _process_create_args self messages tools tool_choice json_output_arg
                         extra_create_args in
  let* call := chat_call stream create_params in
  backend call.

(** [create]: what the caller gets (a result or an exception) and the
    client afterwards. *)
Definition create (self : Client) (backend : Backend) (messages : list LLMMessage)
    (tools : list ToolInput) (tool_choice : ToolChoice) (json_output_arg : pyvalue)
    (extra_create_args : dict pyvalue) : result CreateResult.t * Client :=
  match ask self false backend messages tools tool_choice json_output_arg
            extra_create_args with
  | Raise e => (Raise e, self)
  | Ok result =>
      let '(response, tool_id) := translate_response (_tool_id self) result in
      (Ok response,
       mkClient (_model_info self) (_resolved_model self) (_create_args self)
                (_add_usage (_total_usage self) (CreateResult.usage response))
                (_add_usage (_actual_usage self) (CreateResult.usage response))
                tool_id)
  end.

(** One round of the [while True] loop for a chunk that arrived: the
    updated variables and what the round yields. *)
Definition on_chunk (tool_id : Z) (st : Loop.t) (chunk : ChatResponse.t)
  : Loop.t * list StreamItem :=
  let stop_reason :=
    match ChatResponse.done chunk, Loop.stop_reason st with
    | Some true, None => ChatResponse.done_reason chunk
    | _, _ => Loop.stop_reason st
    end in
  let message := ChatResponse.message chunk in
  let '(content_chunks, yielded) :=
    match Message.content message with
    | Some text =>
        (Loop.content_chunks st ++ [text],
         if (0 <? String.length text)%nat then [YieldText text] else [])
    | None => (Loop.content_chunks st, [])
    end in
  let full_tool_calls :=
    match Message.tool_calls message with
    | Some tool_calls => Loop.full_tool_calls st ++ function_calls_of tool_id tool_calls
    | None => Loop.full_tool_calls st
    end in
  (Loop.mk (Some chunk) stop_reason content_chunks full_tool_calls, yielded).

Fixpoint consume (tool_id : Z) (st : Loop.t) (chunks : list ChatResponse.t)
  : Loop.t * list StreamItem :=
  match chunks with
  | [] => (st, [])
  | chunk :: rest =>
      let '(st1, yielded1) := on_chunk tool_id st chunk in
      let '(st2, yielded2) := consume tool_id st1 rest in
      (st2, yielded1 ++ yielded2)
  end.

(** [n if chunk and n else 0] for a count [n] read off the last chunk. *)
Definition last_count (chunk : option ChatResponse.t)
    (field : ChatResponse.t -> option Z) : Z :=
  match chunk with
  | Some c =>
      match field c with
      | Some n => if negb (n =? 0)%Z then n else 0%Z
      | None => 0%Z
      end
  | None => 0%Z
  end.

(** [create_stream] after the loop has ended with [StopAsyncIteration]. *)
Definition aggregate (st : Loop.t) : CreateResult.t :=
  let chunk := Loop.chunk st in
  let prompt_tokens := last_count chunk ChatResponse.prompt_eval_count in
  let content_chunks := Loop.content_chunks st in
  let full_tool_calls := Loop.full_tool_calls st in
  let '(content, thought, completion_tokens) :=
    if (0 <? List.length content_chunks)%nat && (0 <? List.length full_tool_calls)%nat then
      (ContentCalls full_tool_calls, Some (String.concat "" content_chunks),
       last_count chunk ChatResponse.eval_count)
    else if (1 <? List.length content_chunks)%nat then
      (ContentText (String.concat "" content_chunks), None,
       last_count chunk ChatResponse.eval_count)
    else (ContentCalls full_tool_calls, None, 0%Z) in
  CreateResult.mk (normalize_stop_reason (Loop.stop_reason st)) content
                  (RequestUsage.mk prompt_tokens completion_tokens) false thought.

(** [create_stream], driven by a consumer that takes every item: the
    items yielded, the exception that ended the generator if one did,
    and the client afterwards. *)
Definition create_stream (self : Client) (backend : StreamBackend)
    (messages : list LLMMessage) (tools : list ToolInput) (tool_choice : ToolChoice)
    (json_output_arg : pyvalue) (extra_create_args : dict pyvalue)
  : (list StreamItem * option error) * Client :=
  match ask self true backend messages tools tool_choice json_output_arg
            extra_create_args with
  | Raise e => (([], Some e), self)
  | Ok stream =>
      let '(st, yielded) := consume (_tool_id self) Loop.start (ChunkStream.chunks stream) in
      match ChunkStream.ending stream with
      | Some e => ((yielded, Some e), self)
      | None =>
          let result := aggregate st in
          ((yielded ++ [YieldResult result], None),
           mkClient (_model_info self) (_resolved_model self) (_create_args self)
                    (_add_usage (_total_usage self) (CreateResult.usage result))
                    (_add_usage (_actual_usage self) (CreateResult.usage result))
                    (_tool_id self))
      end
  end.

(** The methods [total_usage] and [actual_usage]. *)
Definition total_usage (self : Client) : RequestUsage.t := _total_usage self.
Definition actual_usage (self : Client) : RequestUsage.t := _actual_usage self.

(** A call on a client instance, with what the backend does when it
    is reached. *)
Inductive Call : Type :=
| CallCreate (backend : Backend) (messages : list LLMMessage) (tools : list ToolInput)
    (tool_choice : ToolChoice) (json_output_arg : pyvalue)
    (extra_create_args : dict pyvalue)
| CallCreateStream (backend : StreamBackend) (messages : list LLMMessage)
    (tools : list ToolInput) (tool_choice : ToolChoice) (json_output_arg : pyvalue)
    (extra_create_args : dict pyvalue).

(** The client after one call. *)
Definition step (self : Client) (c : Call) : Client :=
  match c with
  | CallCreate backend messages tools tool_choice json_output_arg extra =>
      snd (create self backend messages tools tool_choice json_output_arg extra)
  | CallCreateStream backend messages tools tool_choice json_output_arg extra =>
      snd (create_stream self backend messages tools tool_choice json_output_arg extra)
  end.

(** The usage of the result that the call delivered, if it delivered
    one: [create] returned, or [create_stream] ran to its final item. *)
Definition completed_usage (self : Client) (c : Call) : option RequestUsage.t :=
  match c with
  | CallCreate backend messages tools tool_choice json_output_arg extra =>
      match fst (create self backend messages tools tool_choice json_output_arg extra) with
      | Ok response => Some (CreateResult.usage response)
      | Raise _ => None
      end
  | CallCreateStream backend messages tools tool_choice json_output_arg extra =>
      match fst (create_stream self backend messages tools tool_choice
                               json_output_arg extra) with
      | (items, None) =>
          match last items (YieldText "") with
          | YieldResult response => Some (CreateResult.usage response)
          | YieldText _ => None
          end
      | (_, Some _) => None
      end
  end.

(** The client after a sequence of calls, one after the other. *)
Definition run (self : Client) (calls : list Call) : Client :=
  fold_left step calls self.

End WithExternal.

(** ** Where an exception of request building can come from *)

(** The exceptions of the directive part that speak of two directives
    given together. *)
Definition directive_conflict (e : error) : bool :=
  match e with
  | ResponseFormatJsonOutputConflict | JsonOutputFormatConflict | AssertionError => true
  | _ => false
  end.


(** The exceptions of message translation. *)
Definition translation_error (e : error) : bool :=
  match e with
  | InvalidNameChars _ | InvalidNameLength _ | UnknownContentType | JSONDecodeError => true
  | _ => false
  end.

(** The exceptions of tool conversion. *)
Definition conversion_error (e : error) : bool :=
  match e with
  | InvalidNameChars _ | InvalidNameLength _ | SchemaTypeError => true
  | _ => false
  end.

(** The exceptions of the second part of request building, the one
    about missing tools set apart. *)
Definition precondition_error (e : error) : bool :=
  match e with
  | VisionUnsupported | JsonOutputUnsupported | FunctionCallingUnsupported => true
  | _ => translation_error e || conversion_error e
  end.

(** ** The typing that the interface declares for the directives *)

(** [response_format], when given, is a schema-producing type. *)
Definition response_format_typed (create_args : dict pyvalue) : bool :=
  match dict_get "response_format" create_args with
  | Some v => Tools.is_model_class v
  | None => true
  end.

(** [json_output: Optional[bool | type[BaseModel]]] *)
Definition json_output_typed (json_output_arg : pyvalue) : bool :=
  Tools.is_none json_output_arg || Tools.is_bool json_output_arg
  || Tools.is_model_class json_output_arg.

(** ** Reading the loop's accumulators off the chunk sequence *)

Section WithExternal.
Context {ext : External}.

(** The text fragments of the chunks, in order: one per chunk whose
    message has a content, the empty string included. *)
Definition text_fragments (chunks : list ChatResponse.t) : list string :=
  flat_map (fun c => match Message.content (ChatResponse.message c) with
                     | Some text => [text]
                     | None => []
                     end) chunks.

(** The tool-call records of the chunks, in order. *)
Definition tool_fragments (tool_id : Z) (chunks : list ChatResponse.t)
  : list FunctionCall.t :=
  flat_map (fun c => match Message.tool_calls (ChatResponse.message c) with
                     | Some tool_calls => function_calls_of tool_id tool_calls
                     | None => []
                     end) chunks.

(** The last chunk of the sequence, [None] for an empty one. *)
Definition last_chunk (chunks : list ChatResponse.t) : option ChatResponse.t :=
  last (map Some chunks) None.

(** The state in which the loop of a streaming call ends. *)
Definition final_state (self : Client) (stream : ChunkStream.t) : Loop.t :=
  fst (consume (_tool_id self) Loop.start (ChunkStream.chunks stream)).

(** A count as the last chunk reports it: zero when the count is
    absent and when there was no chunk. *)
Definition reported (chunk : option ChatResponse.t)
    (field : ChatResponse.t -> option Z) : Z :=
  match chunk with
  | Some c => count_or_zero (field c)
  | None => 0%Z
  end.

End WithExternal.

(** ** Orderings and well-formedness used by the usage invariant *)

(** Componentwise order on usage. *)
Definition usage_le (u v : RequestUsage.t) : Prop :=
  (RequestUsage.prompt_tokens u <= RequestUsage.prompt_tokens v)%Z /\
  (RequestUsage.completion_tokens u <= RequestUsage.completion_tokens v)%Z.

Section WithExternal.
Context {ext : External}.

(** The counts that a response or chunk reports are token counts:
    not negative. *)
Definition response_counts_nonneg (r : ChatResponse.t) : Prop :=
  (0 <= count_or_zero (ChatResponse.prompt_eval_count r))%Z /\
  (0 <= count_or_zero (ChatResponse.eval_count r))%Z.

(** The backend of the call reports no negative count. *)
Definition counts_nonneg (c : Call) : Prop :=
  match c with
  | CallCreate backend _ _ _ _ _ =>
      forall call r, backend call = Ok r -> response_counts_nonneg r
  | CallCreateStream backend _ _ _ _ _ =>
      forall call s, backend call = Ok s ->
                     Forall response_counts_nonneg (ChunkStream.chunks s)
  end.

End WithExternal.

(** ** A concrete setting for the closed examples

    The field names are those of [ollama._types.ChatRequest]; no
    example carries JSON text, and no example looks a model up, so the
    codec and the capability table are the empty ones. *)

Definition sample_external : External := {|
  json_loads := fun _ => None;
  json_dumps := fun _ => "{}";
  chat_request_fields :=
    ["model"; "stream"; "options"; "format"; "keep_alive"; "messages"; "tools"];
  get_info := fun _ => None
|}.

Definition sample_info : ModelInfo := mkModelInfo true true true "unknown".

(** A client as [__init__] leaves it, for the given [create_args]. *)
Definition sample_client (create_args : dict pyvalue) : Client :=
  mkClient sample_info (Some (PyStr "llama3")) create_args
           (RequestUsage.mk 0 0) (RequestUsage.mk 0 0) 0.

Definition text_chunk (text : string) (is_done : bool) (prompt_count eval_count : option Z)
  : ChatResponse.t :=
  ChatResponse.mk (Some "llama3") (Some is_done)
                  (if is_done then Some "stop" else None)
                  prompt_count eval_count
                  (Message.mk "assistant" (Some text) None None).

(** A response or chunk that carries tool calls and no text. *)
Definition tool_chunk (tool_calls : list ToolCall.t) (prompt_count eval_count : option Z)
  : ChatResponse.t :=
  ChatResponse.mk (Some "llama3") (Some true) (Some "stop") prompt_count eval_count
                  (Message.mk "assistant" None None (Some tool_calls)).

(** A backend that answers every request with the same stream, and
    one that answers every request with the same response. *)
Definition streaming (chunks : list ChatResponse.t) : StreamBackend :=
  fun _ => Ok (ChunkStream.mk chunks None).

Definition answering (response : ChatResponse.t) : Backend :=
  fun _ => Ok response.

Definition sample_messages : list LLMMessage :=
  [UserMessage (UserText "hello") "user"].

(** ** What a list of content parts and a list of messages carry *)

(** The texts of the text parts, in order. *)
Definition part_texts (parts : list ContentPart) : list string :=
  flat_map (fun part => match part with PartText text => [text] | _ => [] end) parts.

(** The images of the image parts, in order, as the backend gets them. *)
Definition part_images (parts : list ContentPart) : list OllamaImage.t :=
  flat_map (fun part => match part with
                        | PartImage image => [OllamaImage.mk (to_base64 image)]
                        | _ => []
                        end) parts.

(** The text contents of the messages, in order. *)
Definition message_texts (messages : list Message.t) : list string :=
  flat_map (fun m => match Message.content m with Some text => [text] | None => [] end)
           messages.

(** The images of the messages, in order. *)
Definition message_images (messages : list Message.t) : list OllamaImage.t :=
  flat_map (fun m => match Message.images m with Some imgs => imgs | None => [] end)
           messages.

(** Whether the first part is an image. *)
Definition starts_with_image (parts : list ContentPart) : bool :=
  match parts with PartImage _ :: _ => true | _ => false end.

(** ** The derived client and the shape of its create arguments *)

Section WithExternal.
Context {ext : External}.

(** Create arguments as [_create_args_from_config] leaves them: no
    key twice, every key in lower case and a recognised request
    field. *)
Definition normalized_args (args : dict pyvalue) : Prop :=
  NoDup (map fst args) /\
  Forall (fun k => str_lower k = k /\
                   str_mem k OLLAMA_VALID_CREATE_KWARGS_KEYS = true) (map fst args).

(** What [OllamaChatCompletionClient.__init__] raises: its own
    [ValueError("model is required for OllamaChatCompletionClient")],
    or what the base constructor raises. *)
Inductive init_error : Type :=
| ModelRequired
| BaseInitError (e : error).

(** [OllamaChatCompletionClient.__init__].  [copied_args] is [kwargs]
    without the two capability entries, which are passed on their
    own; the key "model" is in the one when it is in the other. *)
Definition OllamaChatCompletionClient_init (copied_args : dict pyvalue)
    (model_capabilities model_info : option ModelInfo) : Client + init_error :=
  if negb (dict_mem "model" copied_args) then inr ModelRequired
  else
    match __init__ (_create_args_from_config copied_args) model_capabilities model_info with
    | Ok self => inl self
    | Raise e => inr (BaseInitError e)
    end.

End WithExternal.

(** ** What a streaming call lets its consumer see *)

(** The texts among the yielded items, in order. *)
Definition yielded_texts (items : list StreamItem) : list string :=
  flat_map (fun item => match item with YieldText text => [text] | YieldResult _ => [] end)
           items.

(** The stop reason that the chunk loop ends with: the [done_reason]
    of the first chunk that is done and has one. *)
Fixpoint first_done_reason (chunks : list ChatResponse.t) : option string :=
  match chunks with
  | [] => None
  | c :: rest =>
      match ChatResponse.done c, ChatResponse.done_reason c with
      | Some true, Some reason => Some reason
      | _, _ => first_done_reason rest
      end
  end.

(** * Properties *)

(** ** Names *)

Section NameFacts.
Import Names.

Lemma name_char_underscore : name_char "_" = true.
Proof. reflexivity. Qed.

Lemma name_char_not_newline : name_char LF = false.
Proof. reflexivity. Qed.

Lemma str_take_length (n : nat) (s : string) :
  (String.length (str_take n s) <= n)%nat.
Proof.
  revert s; induction n as [|n IH]; intros [|c s]; simpl; try lia.
  specialize (IH s); lia.
Qed.

Lemma str_take_short (n : nat) (s : string) :
  (String.length s <= n)%nat -> str_take n s = s.
Proof.
  revert s; induction n as [|n IH]; intros [|c s]; simpl; intros H;
    try reflexivity; try lia.
  f_equal; apply IH; lia.
Qed.

Lemma str_take_all (p : ascii -> bool) (n : nat) (s : string) :
  str_all p s = true -> str_all p (str_take n s) = true.
Proof.
  revert s; induction n as [|n IH]; intros [|c s]; simpl; intros H;
    try reflexivity.
  apply andb_true_iff in H as [Hc Hs].
  now rewrite Hc, IH.
Qed.

Lemma str_map_take (f : ascii -> ascii) (n : nat) (s : string) :
  str_map f (str_take n s) = str_take n (str_map f s).
Proof.
  revert s; induction n as [|n IH]; intros [|c s]; simpl; try reflexivity.
  now rewrite IH.
Qed.

Lemma re_sub_invalid_all (s : string) :
  str_all name_char (re_sub_invalid s) = true.
Proof.
  unfold re_sub_invalid.
  induction s as [|c s IH]; cbn [str_map str_all]; [reflexivity|].
  rewrite IH, andb_true_r.
  destruct (name_char c) eqn:Hc; [exact Hc | reflexivity].
Qed.

Lemma re_sub_invalid_fixed (s : string) :
  str_all name_char s = true -> re_sub_invalid s = s.
Proof.
  unfold re_sub_invalid.
  induction s as [|c s IH]; cbn [str_map str_all]; intros H; [reflexivity|].
  apply andb_true_iff in H as [Hc Hs].
  now rewrite Hc, IH.
Qed.

Lemma normalize_name_all (s : string) :
  str_all name_char (normalize_name s) = true.
Proof. apply str_take_all, re_sub_invalid_all. Qed.

Lemma normalize_name_length (s : string) :
  (String.length (normalize_name s) <= 64)%nat.
Proof. apply str_take_length. Qed.

Lemma normalize_name_fixed (s : string) :
  str_all name_char s = true -> (String.length s <= 64)%nat ->
  normalize_name s = s.
Proof.
  intros Hall Hlen; unfold normalize_name.
  rewrite re_sub_invalid_fixed by exact Hall.
  now apply str_take_short.
Qed.

Lemma spec_valid_identifier_iff (s : string) :
  spec_valid_identifier s = true <->
  (1 <= String.length s <= 64)%nat /\ str_all name_char s = true.
Proof.
  unfold spec_valid_identifier.
  rewrite !andb_true_iff, !Nat.leb_le. tauto.
Qed.

(** The matcher accepts exactly a non-empty run of class characters,
    optionally followed by one final newline. *)
Lemma match_plus_dollar_iff (s : string) :
  match_plus_dollar s = true <->
  exists w, w <> EmptyString /\ str_all name_char w = true /\
            (s = w \/ s = (w ++ String LF EmptyString)%string).
Proof.
  induction s as [|c s IH]; simpl.
  - split; [discriminate|].
    intros (w & Hne & _ & [H | H]); destruct w; try congruence; discriminate.
  - rewrite andb_true_iff, orb_true_iff, IH; clear IH. split.
    + intros [Hc [(w & Hne & Hall & Hs) | Hd]].
      * exists (String c w); simpl; rewrite Hc, Hall.
        repeat split; [discriminate|].
        destruct Hs as [-> | ->]; [left | right]; reflexivity.
      * exists (String c EmptyString); simpl; rewrite Hc.
        repeat split; [discriminate|].
        destruct s as [|d [|e s]]; simpl in Hd; try discriminate.
        -- now left.
        -- apply Ascii.eqb_eq in Hd; subst d; now right.
    + intros (w & Hne & Hall & Hs).
      destruct w as [|d w]; [congruence|].
      simpl in Hall; apply andb_true_iff in Hall as [Hd Hall].
      assert (c = d /\ (s = w \/ s = (w ++ String LF EmptyString)%string)) as [-> Hs'].
      { destruct Hs as [H | H]; simpl in H; injection H as -> ->; auto. }
      split; [exact Hd|].
      destruct w as [|e w].
      * right. destruct Hs' as [-> | ->]; reflexivity.
      * left. exists (String e w). repeat split; [discriminate | exact Hall | exact Hs'].
Qed.

Lemma spec_valid_matches (s : string) :
  spec_valid_identifier s = true -> re_match_name s = true.
Proof.
  intros H; apply spec_valid_identifier_iff in H as [[Hlo _] Hall].
  apply match_plus_dollar_iff. exists s; repeat split; auto.
  intros ->; simpl in Hlo; lia.
Qed.

(** Every identifier of the specification's pattern passes and is
    returned as it is. *)
Lemma assert_valid_name_accepts (s : string) :
  spec_valid_identifier s = true -> assert_valid_name s = Ok s.
Proof.
  intros H; unfold assert_valid_name.
  rewrite (spec_valid_matches s H); simpl.
  apply spec_valid_identifier_iff in H as [[_ Hhi] _].
  apply Nat.ltb_ge in Hhi. now rewrite Hhi.
Qed.

(** What passes is returned unchanged. *)
Lemma assert_valid_name_unchanged (s t : string) :
  assert_valid_name s = Ok t -> t = s.
Proof.
  unfold assert_valid_name.
  destruct (negb (re_match_name s)); [discriminate|].
  destruct (64 <? String.length s)%nat; [discriminate|]. congruence.
Qed.

(** What passes is of the pattern, or is of the pattern up to one
    final newline. *)
Lemma assert_valid_name_passes (s : string) :
  is_ok (assert_valid_name s) = true <->
  (String.length s <= 64)%nat /\
  exists w, w <> EmptyString /\ str_all name_char w = true /\
            (s = w \/ s = (w ++ String LF EmptyString)%string).
Proof.
  unfold assert_valid_name.
  rewrite <- match_plus_dollar_iff. fold (re_match_name s).
  destruct (re_match_name s); simpl.
  - destruct (64 <? String.length s)%nat eqn:Hlen; simpl.
    + apply Nat.ltb_lt in Hlen. split; [discriminate | lia].
    + apply Nat.ltb_ge in Hlen. tauto.
  - split; [discriminate | intros [_ H]; discriminate].
Qed.

End NameFacts.

(** C7. [assert_valid_name] is meant to reject every string that is
    not of the pattern [[A-Za-z0-9_-]{1,64}]; the two-character string
    made of the letter a and a newline is not of the pattern, and yet
    it is accepted and returned. *)
Theorem C7_trailing_newline_accepted :
  Names.spec_valid_identifier (String "a" (String LF EmptyString)) = false /\
  Names.assert_valid_name (String "a" (String LF EmptyString))
  = Ok (String "a" (String LF EmptyString)).
Proof. split; reflexivity. Qed.

(** C10. [normalize_name] is idempotent, and it returns unchanged
    every string of the pattern [[A-Za-z0-9_-]{1,64}]. *)
Theorem C10_normalize_idempotent_and_identity_on_valid (s : string) :
  Names.normalize_name (Names.normalize_name s) = Names.normalize_name s /\
  (Names.spec_valid_identifier s = true -> Names.normalize_name s = s).
Proof.
  split.
  - apply normalize_name_fixed;
      [apply normalize_name_all | apply normalize_name_length].
  - intros H; apply spec_valid_identifier_iff in H as [[_ Hhi] Hall].
    now apply normalize_name_fixed.
Qed.

Lemma C10_witness :
  Names.spec_valid_identifier "get_weather-2" = true /\
  Names.normalize_name "get_weather-2" = "get_weather-2".
Proof.
  split; [reflexivity|].
  apply (proj2 (C10_normalize_idempotent_and_identity_on_valid "get_weather-2")).
  reflexivity.
Defined.

(** ** The vision-token estimate *)

Section VisionFacts.
Import Vision.

Lemma fit_long_edge_4096_2048 : fit_long_edge 4096 2048 = Ok (2048, 1024)%Z.
Proof. vm_compute. reflexivity. Qed.

(** Both 2048 and 1024 exceed [MAX_SHORT_EDGE], so the second step
    does resize. *)
Lemma fit_short_edge_2048_1024 : fit_short_edge 2048 1024 = Ok (1536, 768)%Z.
Proof. vm_compute. reflexivity. Qed.

Lemma tiles_along_1536 : tiles_along 1536 = Ok 3%Z.
Proof. vm_compute. reflexivity. Qed.

Lemma tiles_along_768 : tiles_along 768 = Ok 2%Z.
Proof. vm_compute. reflexivity. Qed.

Lemma low_detail_is_flat (image : Image) :
  calculate_vision_tokens image "low" = Ok 85%Z.
Proof. reflexivity. Qed.

End VisionFacts.

(** C3, as stated, fails: the estimate for a 4096 x 2048 image with
    the default detail is not 1445. *)
Lemma C3_counterexample :
  Vision.calculate_vision_tokens (mkImage 4096 2048 "") Vision.default_detail
  <> Ok 1445%Z.
Proof. vm_compute. discriminate. Qed.

(** C3, amended.  For a 4096 x 2048 image with the default detail the
    estimate is 1105: the long-edge step gives 2048 x 1024, both sides
    exceed 768 so the short-edge step gives 1536 x 768, that is 3 x 2
    tiles, and 85 + 170 * 6 = 1105. *)
Theorem C3_vision_tokens_4096_2048 (base64 : string) :
  Vision.fit_long_edge 4096 2048 = Ok (2048, 1024)%Z /\
  Vision.fit_short_edge 2048 1024 = Ok (1536, 768)%Z /\
  Vision.tiles_along 1536 = Ok 3%Z /\
  Vision.tiles_along 768 = Ok 2%Z /\
  Vision.calculate_vision_tokens (mkImage 4096 2048 base64) Vision.default_detail
  = Ok 1105%Z.
Proof. repeat split; vm_compute; reflexivity. Qed.

(** ** Message translation *)

Section TranslateFacts.
Import Names Translate.

Lemma update_last_app {A : Type} (f : A -> A) (xs : list A) (x : A) :
  update_last f (xs ++ [x]) = xs ++ [f x].
Proof.
  induction xs as [|y ys IH]; [reflexivity|].
  cbn [app update_last]. rewrite IH.
  destruct ys; reflexivity.
Qed.

(** A text part always opens a new message. *)
Lemma user_parts_loop_text (text : string) (rest : list ContentPart)
    (acc : list Message.t) :
  user_parts_loop (PartText text :: rest) acc
  = user_parts_loop rest (acc ++ [Message.mk "user" (Some text) None None]).
Proof. reflexivity. Qed.

(** An image part after at least one message goes to the last
    message, whatever that message holds. *)
Lemma user_parts_loop_image (image : Image) (rest : list ContentPart)
    (acc : list Message.t) (m : Message.t) :
  user_parts_loop (PartImage image :: rest) (acc ++ [m])
  = user_parts_loop rest
      (acc ++ [attach_image (OllamaImage.mk (to_base64 image)) m]).
Proof.
  cbn [user_parts_loop]. rewrite update_last_app.
  destruct acc; reflexivity.
Qed.

(** Two leading images share one message without text. *)
Lemma two_images_one_message (a b : Image) (source : string) :
  assert_valid_name source = Ok source ->
  user_message_to_ollama (UserParts [PartImage a; PartImage b]) source
  = Ok [Message.mk "user" None
          (Some [OllamaImage.mk (to_base64 a); OllamaImage.mk (to_base64 b)]) None].
Proof. intros H; unfold user_message_to_ollama; rewrite H; reflexivity. Qed.

End TranslateFacts.

(** C2, as stated, fails: the text part and the image part do not
    give two messages. *)
Lemma C2_counterexample :
  Translate.user_message_to_ollama
    (UserParts [PartText "hello"; PartImage (mkImage 1 1 "QQ==")]) "user"
  <> Ok [Message.mk "user" (Some "hello") None None;
         Message.mk "user" None (Some [OllamaImage.mk "QQ=="]) None].
Proof. vm_compute. discriminate. Qed.

(** C2, amended.  A User message with a valid source whose content is
    the text part "hello" followed by one image part gives exactly one
    backend message: role user, content "hello", and the image in its
    image list; the image is attached to the text message. *)
Theorem C2_text_then_image_one_message (A : Image) (source : string) :
  Names.assert_valid_name source = Ok source ->
  Translate.user_message_to_ollama (UserParts [PartText "hello"; PartImage A]) source
  = Ok [Message.mk "user" (Some "hello") (Some [OllamaImage.mk (to_base64 A)]) None].
Proof.
  intros H; unfold Translate.user_message_to_ollama; rewrite H; reflexivity.
Qed.

Lemma C2_witness :
  Names.assert_valid_name "user" = Ok "user" /\
  Translate.user_message_to_ollama
    (UserParts [PartText "hello"; PartImage (mkImage 1 1 "QQ==")]) "user"
  = Ok [Message.mk "user" (Some "hello") (Some [OllamaImage.mk "QQ=="]) None].
Proof.
  split; [reflexivity|].
  apply (C2_text_then_image_one_message (mkImage 1 1 "QQ==") "user").
  reflexivity.
Defined.

(** ** Request building *)

Section BuilderFacts.
Context {ext : External}.
Import Names Tools Translate.

Lemma dict_get_del_other {V : Type} (k k' : string) (d : dict V) :
  k <> k' -> dict_get k (dict_del k' d) = dict_get k d.
Proof.
  intros Hne; induction d as [|[k0 v0] d IH]; [reflexivity|].
  cbn [dict_del dict_get].
  destruct (String.eqb k' k0) eqn:E1.
  - apply String.eqb_eq in E1; subst k0.
    destruct (String.eqb k k') eqn:E2; [|reflexivity].
    apply String.eqb_eq in E2; congruence.
  - cbn [dict_get]. destruct (String.eqb k k0); [reflexivity | exact IH].
Qed.

Lemma dict_mem_del_other {V : Type} (k k' : string) (d : dict V) :
  k <> k' -> dict_mem k (dict_del k' d) = dict_mem k d.
Proof. intros H; unfold dict_mem; now rewrite dict_get_del_other. Qed.

Lemma map_result_raises {A B : Type} (P : error -> Prop) (f : A -> result B)
    (xs : list A) (e : error) :
  (forall x e', f x = Raise e' -> P e') ->
  map_result f xs = Raise e -> P e.
Proof.
  intros Hf; induction xs as [|x xs IH]; cbn [map_result]; [discriminate|].
  intros H. destruct (f x) eqn:Ex; cbn [bind] in H.
  - destruct (map_result f xs); cbn [bind] in H; [discriminate|].
    apply IH; exact H.
  - injection H as <-. eapply Hf; exact Ex.
Qed.

Lemma assert_valid_name_raises (s : string) (e : error) :
  assert_valid_name s = Raise e -> e = InvalidNameChars s \/ e = InvalidNameLength s.
Proof.
  unfold assert_valid_name.
  destruct (negb (re_match_name s)); [intros [= <-]; now left|].
  destruct (64 <? String.length s)%nat; [intros [= <-]; now right | discriminate].
Qed.

Lemma user_parts_loop_raises (parts : list ContentPart) (acc : list Message.t)
    (e : error) :
  user_parts_loop parts acc = Raise e -> e = UnknownContentType.
Proof.
  revert acc; induction parts as [|part parts IH]; intros acc; cbn [user_parts_loop].
  - discriminate.
  - destruct part; [apply IH | | intros [= <-]; reflexivity].
    destruct acc; apply IH.
Qed.

Lemma to_ollama_type_raises (m : LLMMessage) (e : error) :
  to_ollama_type m = Raise e -> translation_error e = true.
Proof.
  destruct m as [c | c src | c th src | c]; cbn [to_ollama_type]; try discriminate.
  - unfold user_message_to_ollama. intros H.
    destruct (assert_valid_name src) eqn:Es; cbn [bind] in H.
    + destruct c; [discriminate|].
      apply user_parts_loop_raises in H; subst e; reflexivity.
    + injection H as <-.
      apply assert_valid_name_raises in Es as [-> | ->]; reflexivity.
  - unfold assistant_message_to_ollama. intros H.
    destruct (assert_valid_name src) eqn:Es; cbn [bind] in H.
    + destruct c as [text | calls]; cbn [bind] in H; [discriminate|].
      destruct (map_result func_call_to_ollama calls) eqn:Ec; cbn [bind] in H;
        [discriminate|].
      injection H as <-.
      apply (map_result_raises (fun e => translation_error e = true)) in Ec;
        [exact Ec|].
      intros x e' Hx. unfold func_call_to_ollama, _func_args_to_ollama_args in Hx.
      destruct (json_loads (FunctionCall.arguments x)); cbn [bind] in Hx;
        [discriminate|].
      injection Hx as <-; reflexivity.
    + injection H as <-.
      apply assert_valid_name_raises in Es as [-> | ->]; reflexivity.
Qed.

Lemma first_non_null_type_raises (alternatives : list pyvalue) (e : error) :
  first_non_null_type alternatives = Raise e -> e = SchemaTypeError.
Proof.
  induction alternatives as [|opt rest IH]; cbn [first_non_null_type]; [discriminate|].
  destruct opt; try (intros [= <-]; reflexivity).
  destruct (negb (is_str "null" (get_or_none "type" items))); [discriminate | exact IH].
Qed.

Lemma iterate_raises (v : pyvalue) (e : error) :
  iterate v = Raise e -> e = SchemaTypeError.
Proof. destruct v; cbn; try discriminate; now intros [= <-]. Qed.

Lemma convert_property_raises (prop_schema : dict pyvalue) (e : error) :
  convert_property prop_schema = Raise e -> e = SchemaTypeError.
Proof.
  unfold convert_property. intros H.
  destruct (is_none (get_or_none "type" prop_schema) && dict_mem "anyOf" prop_schema);
    cbn [bind] in H; [|discriminate].
  destruct (iterate (get_or_none "anyOf" prop_schema)) as [xs|e1] eqn:Ea;
    cbn [bind] in H.
  - destruct (first_non_null_type xs) eqn:Ef; cbn [bind] in H; [discriminate|].
    injection H as <-. eapply first_non_null_type_raises; exact Ef.
  - injection H as <-. eapply iterate_raises; exact Ea.
Qed.

Lemma convert_tool_raises (tool : ToolInput) (e : error) :
  convert_tool tool = Raise e -> e = SchemaTypeError.
Proof.
  unfold convert_tool. intros H.
  destruct (ToolSchema.parameters (tool_schema_of tool)) as [ps|]; cbn [bind] in H;
    [|discriminate].
  match type of H with
  | bind (bind ?r _) _ = _ => destruct r eqn:Ep; cbn [bind] in H; [discriminate|]
  end.
  injection H as <-.
  apply (map_result_raises (fun e => e = SchemaTypeError)) in Ep; [exact Ep|].
  intros [k v] e' Hx; cbn [fst snd] in Hx.
  destruct (convert_property v) eqn:Ev; cbn [bind] in Hx; [discriminate|].
  injection Hx as <-. eapply convert_property_raises; exact Ev.
Qed.

Lemma convert_tools_raises (tools : list ToolInput) (e : error) :
  convert_tools tools = Raise e -> conversion_error e = true.
Proof.
  unfold convert_tools. intros H.
  destruct (map_result convert_tool tools) eqn:Ec; cbn [bind] in H.
  - match type of H with
    | bind ?r _ = _ => destruct r eqn:Ev; cbn [bind] in H; [discriminate|]
    end.
    injection H as <-.
    apply (map_result_raises (fun e => conversion_error e = true)) in Ev; [exact Ev|].
    intros x e' Hx. apply assert_valid_name_raises in Hx as [-> | ->]; reflexivity.
  - injection H as <-.
    apply (map_result_raises (fun e => e = SchemaTypeError)) in Ec;
      [subst; reflexivity|].
    intros x e'; apply convert_tool_raises.
Qed.

Lemma convert_tools_nil : convert_tools [] = Ok [].
Proof. reflexivity. Qed.

(** The tool choice raises the exception about missing tools only
    under "required". *)
Lemma resolve_tool_choice_raises (tools : list ToolInput) (tool_choice : ToolChoice)
    (e : error) :
  resolve_tool_choice tools tool_choice = Raise e ->
  conversion_error e = true \/
  (e = NoToolsProvided /\ tool_choice = ChoiceStr "required").
Proof.
  destruct tool_choice as [tool | choice]; cbn [resolve_tool_choice].
  - intros H; left; eapply convert_tools_raises; exact H.
  - destruct (String.eqb choice "none"); [discriminate|].
    destruct (String.eqb choice "required") eqn:Er.
    + apply String.eqb_eq in Er; subst choice. intros H.
      destruct (convert_tools tools) as [[|t ts]|e'] eqn:Ec; cbn [bind] in H.
      * injection H as <-; right; split; reflexivity.
      * discriminate.
      * injection H as <-; left; eapply convert_tools_raises; exact Ec.
    + intros H; left; eapply convert_tools_raises; exact H.
Qed.

Lemma translate_and_convert_raises (self : Client) (messages : list LLMMessage)
    (tools : list ToolInput) (tool_choice : ToolChoice) (jo : pyvalue) (e : error) :
  translate_and_convert self messages tools tool_choice jo = Raise e ->
  precondition_error e = true \/
  (e = NoToolsProvided /\ tool_choice = ChoiceStr "required").
Proof.
  unfold translate_and_convert. intros H.
  destruct (negb (vision (_model_info self)) && existsb has_image messages);
    cbn [bind] in H; [injection H as <-; now left|].
  destruct (negb (json_output (_model_info self)) && is_true jo);
    cbn [bind] in H; [injection H as <-; now left|].
  destruct (map_result to_ollama_type messages) eqn:Em; cbn [bind] in H.
  - destruct (negb (function_calling (_model_info self)) && (0 <? List.length tools)%nat);
      cbn [bind] in H; [injection H as <-; now left|].
    destruct (resolve_tool_choice tools tool_choice) eqn:Et; cbn [bind] in H;
      [discriminate|].
    injection H as ->.
    apply resolve_tool_choice_raises in Et as [Hc | Hn]; [left | now right].
    unfold precondition_error. destruct e; try discriminate; reflexivity.
  - injection H as ->. left.
    apply (map_result_raises (fun e => translation_error e = true)) in Em;
      [|apply to_ollama_type_raises].
    unfold precondition_error. destruct e; try discriminate; reflexivity.
Qed.


(** What request building raises comes from one of its two parts. *)
Lemma process_create_args_raises (self : Client) (messages : list LLMMessage)
    (tools : list ToolInput) (tool_choice : ToolChoice) (jo : pyvalue)
    (extra : dict pyvalue) (e : error) :
  _process_create_args self messages tools tool_choice jo extra = Raise e ->
  resolve_directive self jo (merged_create_args self extra) = Raise e \/
  translate_and_convert self messages tools tool_choice jo = Raise e.
Proof.
  unfold _process_create_args. intros H.
  destruct (resolve_directive self jo (merged_create_args self extra)) as [[v a]|e1];
    cbn [bind] in H; [|left; injection H as ->; reflexivity].
  destruct (translate_and_convert self messages tools tool_choice jo) as [[m t]|e2];
    cbn [bind] in H; [discriminate | right; injection H as ->; reflexivity].
Qed.



Lemma resolve_directive_fails_first (self : Client) (messages : list LLMMessage)
    (tools : list ToolInput) (tool_choice : ToolChoice) (jo : pyvalue)
    (extra : dict pyvalue) (e : error) :
  resolve_directive self jo (merged_create_args self extra) = Raise e ->
  _process_create_args self messages tools tool_choice jo extra = Raise e.
Proof. intros H; unfold _process_create_args; now rewrite H. Qed.

Lemma dict_mem_get {V : Type} (k : string) (d : dict V) :
  dict_mem k d = true -> exists v, dict_get k d = Some v.
Proof. unfold dict_mem; destruct (dict_get k d) as [v|]; [eauto | discriminate]. Qed.

Lemma dict_mem_false_get {V : Type} (k : string) (d : dict V) :
  dict_mem k d = false -> dict_get k d = None.
Proof. unfold dict_mem; destruct (dict_get k d); [discriminate | reflexivity]. Qed.

(** [json_output] given together with [format]. *)
Lemma directive_json_output_with_format (self : Client) (jo : pyvalue)
    (args : dict pyvalue) :
  response_format_typed args = true -> json_output_typed jo = true ->
  is_none jo = false -> dict_mem "format" args = true ->
  resolve_directive self jo args = Raise JsonOutputFormatConflict \/
  resolve_directive self jo args = Raise ResponseFormatJsonOutputConflict \/
  (resolve_directive self jo args = Raise JsonOutputUnsupported /\
   jo = PyBool true /\ json_output (_model_info self) = false).
Proof.
  unfold response_format_typed, json_output_typed, resolve_directive,
    resolve_response_format.
  intros Hrf Hjo Hset Hfmt.
  assert (Hdel : dict_get "format" (dict_del "response_format" args)
                 = dict_get "format" args)
    by (apply dict_get_del_other; discriminate).
  apply dict_mem_get in Hfmt as [f Hf].
  destruct (dict_get "response_format" args) as [v|]; [destruct v; try discriminate|];
    cbn [bind]; destruct jo as [| [] | | | | | |]; try discriminate;
    cbn [resolve_json_output is_none negb bind];
    try (destruct (json_output (_model_info self)); cbn [negb bind]);
    unfold resolve_format; rewrite ?Hdel, ?Hf; cbn [is_none negb]; auto.
Qed.

(** [response_format] given together with a schema type as
    [json_output]. *)
Lemma directive_response_format_with_schema (self : Client) (jo : pyvalue)
    (args : dict pyvalue) :
  response_format_typed args = true ->
  dict_mem "response_format" args = true -> is_model_class jo = true ->
  resolve_directive self jo args = Raise ResponseFormatJsonOutputConflict.
Proof.
  unfold response_format_typed, resolve_directive, resolve_response_format.
  intros Hrf Hset Hjo. apply dict_mem_get in Hset as [v Hv]. rewrite Hv in *.
  destruct v; try discriminate. destruct jo; try discriminate. reflexivity.
Qed.

(** [response_format] given together with [format], [json_output]
    left out. *)
Lemma directive_response_format_with_format (self : Client) (args : dict pyvalue) :
  response_format_typed args = true ->
  dict_mem "response_format" args = true -> dict_mem "format" args = true ->
  resolve_directive self PyNone args = Raise AssertionError.
Proof.
  unfold response_format_typed, resolve_directive, resolve_response_format.
  intros Hrf Hset Hfmt. apply dict_mem_get in Hset as [v Hv]. rewrite Hv in *.
  apply dict_mem_get in Hfmt as [f Hf].
  destruct v; try discriminate. cbn [bind resolve_json_output].
  unfold resolve_format.
  rewrite dict_get_del_other by discriminate. rewrite Hf. reflexivity.
Qed.

(** [response_format] given together with a boolean [json_output],
    no [format]: the boolean decides. *)
Lemma directive_response_format_with_bool (self : Client) (b : bool)
    (args : dict pyvalue) :
  response_format_typed args = true ->
  dict_mem "response_format" args = true -> dict_mem "format" args = false ->
  resolve_directive self (PyBool b) args
  = if b && negb (json_output (_model_info self)) then Raise JsonOutputUnsupported
    else Ok (if b then PyStr "json" else PyNone, dict_del "response_format" args).
Proof.
  unfold response_format_typed, resolve_directive, resolve_response_format.
  intros Hrf Hset Hfmt. apply dict_mem_get in Hset as [v Hv]. rewrite Hv in *.
  apply dict_mem_false_get in Hfmt.
  destruct v; try discriminate. cbn [bind resolve_json_output].
  destruct b; cbn [andb];
    [destruct (json_output (_model_info self)); cbn [negb bind]; [|reflexivity]|];
    cbn [bind]; unfold resolve_format;
    rewrite dict_get_del_other by discriminate; rewrite Hfmt; reflexivity.
Qed.

End BuilderFacts.

(** C4, as stated, fails: with [response_format] and [json_output]
    both given, request building succeeds, and the directive is the
    one of [json_output]. *)
Lemma C4_counterexample :
  let self := sample_client [("model", PyStr "llama3");
                             ("response_format", PyModelClass [("type", PyStr "object")])] in
  dict_mem "response_format" (merged_create_args (ext := sample_external) self []) = true /\
  Tools.is_none (PyBool true) = false /\
  _process_create_args (ext := sample_external) self [] [] (ChoiceStr "auto") (PyBool true) []
  = Ok (CreateParams.mk [] [] (PyStr "json") [("model", PyStr "llama3")]).
Proof. vm_compute. repeat split; reflexivity. Qed.

(** C4, amended.  With a schema-producing type as [response_format]
    when it is given and a boolean or a schema-producing type as
    [json_output] when it is given, request building fails, and so
    before any backend call:
    - when [json_output] is given together with [format], with one of
      the two format-conflict errors, or, for [json_output=True] on a
      model without JSON output, with the unsupported-capability
      error that is raised first;
    - when [response_format] is given together with a schema type as
      [json_output], with the format-conflict error;
    - when [response_format] is given together with [format] and no
      [json_output], on the assertion.
    [response_format] together with a boolean [json_output] and no
    [format] is no conflict: request building raises none of these
    errors, and when it succeeds the directive is "json" for [True]
    and none for [False]. *)
Theorem C4_format_directive_conflicts {ext : External} (self : Client)
    (messages : list LLMMessage) (tools : list ToolInput) (tool_choice : ToolChoice)
    (jo : pyvalue) (extra : dict pyvalue) :
  response_format_typed (merged_create_args self extra) = true ->
  json_output_typed jo = true ->
  let args := merged_create_args self extra in
  let outcome := _process_create_args self messages tools tool_choice jo extra in
  (Tools.is_none jo = false -> dict_mem "format" args = true ->
   outcome = Raise JsonOutputFormatConflict \/
   outcome = Raise ResponseFormatJsonOutputConflict \/
   (outcome = Raise JsonOutputUnsupported /\
    jo = PyBool true /\ json_output (_model_info self) = false)) /\
  (dict_mem "response_format" args = true -> Tools.is_model_class jo = true ->
   outcome = Raise ResponseFormatJsonOutputConflict) /\
  (dict_mem "response_format" args = true -> dict_mem "format" args = true ->
   jo = PyNone -> outcome = Raise AssertionError) /\
  (dict_mem "response_format" args = true -> dict_mem "format" args = false ->
   forall b, jo = PyBool b ->
   (forall e, outcome = Raise e -> directive_conflict e = false) /\
   (forall p, outcome = Ok p ->
      CreateParams.format p = if b then PyStr "json" else PyNone)).
Proof.
  intros Hrf Hjo args outcome. subst args outcome. repeat split.
  - intros Hset Hfmt.
    destruct (directive_json_output_with_format self jo _ Hrf Hjo Hset Hfmt)
      as [H | [H | (H & Hb & Hm)]].
    + left. now apply resolve_directive_fails_first.
    + right; left. now apply resolve_directive_fails_first.
    + right; right. split; [now apply resolve_directive_fails_first | auto].
  - intros Hset Hcls. apply resolve_directive_fails_first.
    now apply directive_response_format_with_schema.
  - intros Hset Hfmt ->. apply resolve_directive_fails_first.
    now apply directive_response_format_with_format.
  - intros e He.
    pose proof (directive_response_format_with_bool self b _ Hrf H H0) as Hd.
    subst jo.
    apply process_create_args_raises in He as [He | He].
    + rewrite Hd in He.
      destruct (b && negb (json_output (_model_info self)));
        [injection He as <-; reflexivity | discriminate].
    + apply translate_and_convert_raises in He as [He | [-> _]]; [|reflexivity].
      destruct e; try reflexivity; discriminate.
  - intros p Hp.
    pose proof (directive_response_format_with_bool self b _ Hrf H H0) as Hd.
    subst jo. unfold _process_create_args in Hp. rewrite Hd in Hp.
    destruct (b && negb (json_output (_model_info self))); [discriminate|].
    cbn [bind] in Hp.
    destruct (translate_and_convert self messages tools tool_choice (PyBool b))
      as [[m t]|]; [|discriminate].
    cbn [bind] in Hp. injection Hp as <-. reflexivity.
Qed.

Lemma C4_witness :
  let plain := sample_client [("model", PyStr "llama3")] in
  let legacy := sample_client [("model", PyStr "llama3");
                               ("response_format", PyModelClass [("type", PyStr "object")])] in
  let format_json := [("format", PyStr "json")] in
  let build self jo extra :=
    _process_create_args (ext := sample_external) self [] [] (ChoiceStr "auto") jo extra in
  (build plain (PyBool true) format_json = Raise JsonOutputFormatConflict \/
   build plain (PyBool true) format_json = Raise ResponseFormatJsonOutputConflict \/
   (build plain (PyBool true) format_json = Raise JsonOutputUnsupported /\
    PyBool true = PyBool true /\ json_output (_model_info plain) = false)) /\
  build legacy (PyModelClass []) [] = Raise ResponseFormatJsonOutputConflict /\
  build legacy PyNone format_json = Raise AssertionError /\
  (forall e, build legacy (PyBool false) [] = Raise e -> directive_conflict e = false).
Proof.
  intros plain legacy format_json build. repeat apply conj.
  - apply (proj1 (C4_format_directive_conflicts (ext := sample_external)
                    plain [] [] (ChoiceStr "auto") (PyBool true) format_json
                    eq_refl eq_refl)); reflexivity.
  - apply (proj1 (proj2 (C4_format_directive_conflicts (ext := sample_external)
                    legacy [] [] (ChoiceStr "auto") (PyModelClass []) []
                    eq_refl eq_refl))); reflexivity.
  - apply (proj1 (proj2 (proj2 (C4_format_directive_conflicts (ext := sample_external)
                    legacy [] [] (ChoiceStr "auto") PyNone format_json
                    eq_refl eq_refl)))); reflexivity.
  - apply (proj2 (proj2 (proj2 (C4_format_directive_conflicts (ext := sample_external)
                    legacy [] [] (ChoiceStr "auto") (PyBool false) []
                    eq_refl eq_refl))) eq_refl eq_refl false eq_refl).
Defined.

Section ToolChoiceFacts.
Context {ext : External}.
Import Tools.



End ToolChoiceFacts.



(** ** The streaming loop and its aggregation *)

Section StreamFacts.
Context {ext : External}.

Lemma consume_app (tool_id : Z) (st : Loop.t) (xs ys : list ChatResponse.t) :
  consume tool_id st (xs ++ ys)
  = let '(st1, y1) := consume tool_id st xs in
    let '(st2, y2) := consume tool_id st1 ys in
    (st2, y1 ++ y2).
Proof.
  revert st; induction xs as [|x xs IH]; intros st; cbn [consume app].
  - destruct (consume tool_id st ys); reflexivity.
  - destruct (on_chunk tool_id st x) as [st1 y1].
    rewrite IH.
    destruct (consume tool_id st1 xs) as [st2 y2].
    destruct (consume tool_id st2 ys) as [st3 y3].
    now rewrite app_assoc.
Qed.

Lemma last_cons_default {A : Type} (l : list A) (x d : A) :
  last (x :: l) d = last l x.
Proof.
  revert x d; induction l as [|y l IH]; intros x d; [reflexivity|].
  change (last (x :: y :: l) d) with (last (y :: l) d).
  rewrite !IH. reflexivity.
Qed.

(** The loop variable [chunk] ends as the last chunk read. *)
Lemma consume_chunk (tool_id : Z) (st : Loop.t) (chunks : list ChatResponse.t) :
  Loop.chunk (fst (consume tool_id st chunks))
  = last (map Some chunks) (Loop.chunk st).
Proof.
  revert st; induction chunks as [|c chunks IH]; intros st; [reflexivity|].
  cbn [consume].
  destruct (on_chunk tool_id st c) as [st1 y1] eqn:E1.
  specialize (IH st1).
  destruct (consume tool_id st1 chunks) as [st2 y2]; cbn [fst] in *.
  rewrite IH.
  assert (Loop.chunk st1 = Some c) as ->.
  { unfold on_chunk in E1.
    destruct (Message.content (ChatResponse.message c)); injection E1 as <- _;
      reflexivity. }
  cbn [map]. now rewrite last_cons_default.
Qed.

Lemma consume_content_chunks (tool_id : Z) (st : Loop.t) (chunks : list ChatResponse.t) :
  Loop.content_chunks (fst (consume tool_id st chunks))
  = Loop.content_chunks st ++ text_fragments chunks.
Proof.
  revert st; induction chunks as [|c chunks IH]; intros st.
  - cbn. now rewrite app_nil_r.
  - cbn [consume].
    destruct (on_chunk tool_id st c) as [st1 y1] eqn:E1.
    specialize (IH st1).
    destruct (consume tool_id st1 chunks) as [st2 y2]; cbn [fst] in *.
    rewrite IH. unfold text_fragments; cbn [flat_map].
    unfold on_chunk in E1.
    destruct (Message.content (ChatResponse.message c)); injection E1 as <- _;
      cbn [Loop.content_chunks]; [now rewrite <- app_assoc | reflexivity].
Qed.

Lemma consume_full_tool_calls (tool_id : Z) (st : Loop.t)
    (chunks : list ChatResponse.t) :
  Loop.full_tool_calls (fst (consume tool_id st chunks))
  = Loop.full_tool_calls st ++ tool_fragments tool_id chunks.
Proof.
  revert st; induction chunks as [|c chunks IH]; intros st.
  - cbn. now rewrite app_nil_r.
  - cbn [consume].
    destruct (on_chunk tool_id st c) as [st1 y1] eqn:E1.
    specialize (IH st1).
    destruct (consume tool_id st1 chunks) as [st2 y2]; cbn [fst] in *.
    rewrite IH. unfold tool_fragments; cbn [flat_map].
    unfold on_chunk in E1.
    destruct (Message.content (ChatResponse.message c));
      injection E1 as <- _; cbn [Loop.full_tool_calls];
      destruct (Message.tool_calls (ChatResponse.message c));
      cbn [app]; now rewrite <- ?app_assoc.
Qed.

(** What the loop yields: every non-empty text fragment, in order. *)
Lemma consume_yields (tool_id : Z) (st : Loop.t) (chunks : list ChatResponse.t) :
  snd (consume tool_id st chunks)
  = map YieldText
        (filter (fun text => (0 <? String.length text)%nat) (text_fragments chunks)).
Proof.
  revert st; induction chunks as [|c chunks IH]; intros st; [reflexivity|].
  cbn [consume].
  destruct (on_chunk tool_id st c) as [st1 y1] eqn:E1.
  specialize (IH st1).
  destruct (consume tool_id st1 chunks) as [st2 y2]; cbn [snd] in *.
  rewrite IH. unfold text_fragments; cbn [flat_map].
  unfold on_chunk in E1.
  destruct (Message.content (ChatResponse.message c)) as [text|];
    injection E1 as _ <-; [|reflexivity].
  cbn [app filter]. destruct (0 <? String.length text)%nat; reflexivity.
Qed.

Lemma last_count_reported (chunk : option ChatResponse.t)
    (field : ChatResponse.t -> option Z) :
  last_count chunk field = reported chunk field.
Proof.
  destruct chunk as [c|]; [|reflexivity]. cbn.
  destruct (field c) as [n|]; [|reflexivity]. cbn.
  destruct (n =? 0)%Z eqn:E; [apply Z.eqb_eq in E; now subst | reflexivity].
Qed.

Lemma function_calls_of_ids (tool_id : Z) (tool_calls : list ToolCall.t) :
  Forall (fun fc => FunctionCall.id fc = str_of_int tool_id)
         (function_calls_of tool_id tool_calls).
Proof. unfold function_calls_of. apply Forall_map, Forall_forall. reflexivity. Qed.

Lemma tool_fragments_ids (tool_id : Z) (chunks : list ChatResponse.t) :
  Forall (fun fc => FunctionCall.id fc = str_of_int tool_id)
         (tool_fragments tool_id chunks).
Proof.
  unfold tool_fragments. apply Forall_flat_map, Forall_forall. intros c _.
  destruct (Message.tool_calls (ChatResponse.message c));
    [apply function_calls_of_ids | constructor].
Qed.

(** The content and the thought of the aggregated result, by the
    accumulated fragments. *)
Lemma aggregate_content (st : Loop.t) :
  let texts := Loop.content_chunks st in
  let calls := Loop.full_tool_calls st in
  CreateResult.content (aggregate st)
  = (if (0 <? List.length texts)%nat && (0 <? List.length calls)%nat
     then ContentCalls calls
     else if (1 <? List.length texts)%nat then ContentText (String.concat "" texts)
     else ContentCalls calls) /\
  CreateResult.thought (aggregate st)
  = (if (0 <? List.length texts)%nat && (0 <? List.length calls)%nat
     then Some (String.concat "" texts) else None).
Proof.
  cbn zeta. unfold aggregate.
  destruct ((0 <? List.length (Loop.content_chunks st))%nat
            && (0 <? List.length (Loop.full_tool_calls st))%nat);
    [split; reflexivity|].
  destruct (1 <? List.length (Loop.content_chunks st))%nat; split; reflexivity.
Qed.

Lemma aggregate_usage (st : Loop.t) :
  let texts := Loop.content_chunks st in
  let calls := Loop.full_tool_calls st in
  CreateResult.usage (aggregate st)
  = RequestUsage.mk
      (reported (Loop.chunk st) ChatResponse.prompt_eval_count)
      (if ((0 <? List.length texts)%nat && (0 <? List.length calls)%nat)
          || (1 <? List.length texts)%nat
       then reported (Loop.chunk st) ChatResponse.eval_count else 0%Z).
Proof.
  cbn zeta. unfold aggregate. rewrite !last_count_reported.
  destruct ((0 <? List.length (Loop.content_chunks st))%nat
            && (0 <? List.length (Loop.full_tool_calls st))%nat);
    [reflexivity|].
  destruct (1 <? List.length (Loop.content_chunks st))%nat; reflexivity.
Qed.

(** A streaming call whose stream ends with [StopAsyncIteration]
    yields the non-empty text fragments and then the aggregated
    result, and adds that result's usage to both totals. *)
Lemma create_stream_completes (self : Client) (backend : StreamBackend)
    (messages : list LLMMessage) (tools : list ToolInput) (tool_choice : ToolChoice)
    (jo : pyvalue) (extra : dict pyvalue) (stream : ChunkStream.t) :
  ask self true backend messages tools tool_choice jo extra = Ok stream ->
  ChunkStream.ending stream = None ->
  let result := aggregate (final_state self stream) in
  create_stream self backend messages tools tool_choice jo extra
  = ((map YieldText
          (filter (fun text => (0 <? String.length text)%nat)
                  (text_fragments (ChunkStream.chunks stream)))
      ++ [YieldResult result], None),
     mkClient (_model_info self) (_resolved_model self) (_create_args self)
              (_add_usage (_total_usage self) (CreateResult.usage result))
              (_add_usage (_actual_usage self) (CreateResult.usage result))
              (_tool_id self)).
Proof.
  intros Hask Hend. cbn zeta. unfold create_stream, final_state. rewrite Hask.
  pose proof (consume_yields (_tool_id self) Loop.start (ChunkStream.chunks stream)) as Hy.
  destruct (consume (_tool_id self) Loop.start (ChunkStream.chunks stream)) as [st y].
  cbn [fst snd] in *. rewrite Hend, Hy. reflexivity.
Qed.

End StreamFacts.

(** C1.  When the chunks of a streaming call that ends normally carry
    exactly one text fragment and no tool call, the final result has
    the empty tool-call list as content and no thought; the fragment
    itself was yielded as a partial output when it is not empty, and
    appears in neither field of the result. *)
Theorem C1_lone_text_fragment_not_in_result {ext : External} (self : Client)
    (backend : StreamBackend) (messages : list LLMMessage) (tools : list ToolInput)
    (tool_choice : ToolChoice) (jo : pyvalue) (extra : dict pyvalue)
    (stream : ChunkStream.t) (text : string) :
  ask self true backend messages tools tool_choice jo extra = Ok stream ->
  ChunkStream.ending stream = None ->
  text_fragments (ChunkStream.chunks stream) = [text] ->
  tool_fragments (_tool_id self) (ChunkStream.chunks stream) = [] ->
  exists result self',
    create_stream self backend messages tools tool_choice jo extra
    = (((if (0 <? String.length text)%nat then [YieldText text] else [])
        ++ [YieldResult result], None), self') /\
    CreateResult.content result = ContentCalls [] /\
    CreateResult.thought result = None.
Proof.
  intros Hask Hend Htext Htools.
  exists (aggregate (final_state self stream)). eexists.
  split; [|].
  - rewrite (create_stream_completes self backend messages tools tool_choice jo extra
               stream Hask Hend).
    rewrite Htext. cbn [filter map].
    destruct (0 <? String.length text)%nat; reflexivity.
  - pose proof (aggregate_content (final_state self stream)) as [Hc Ht].
    cbn zeta in Hc, Ht. unfold final_state in *.
    rewrite consume_content_chunks, consume_full_tool_calls in Hc, Ht.
    rewrite Htext, Htools in Hc, Ht. cbn in Hc, Ht. split; assumption.
Qed.

Lemma C1_witness :
  exists result self',
    create_stream (ext := sample_external) (sample_client [("model", PyStr "llama3")])
      (streaming [text_chunk "Hello" true (Some 3%Z) (Some 5%Z)])
      sample_messages [] (ChoiceStr "auto") PyNone []
    = (([YieldText "Hello"; YieldResult result], None), self') /\
    CreateResult.content result = ContentCalls [] /\
    CreateResult.thought result = None.
Proof.
  exact (C1_lone_text_fragment_not_in_result (ext := sample_external)
           (sample_client [("model", PyStr "llama3")])
           (streaming [text_chunk "Hello" true (Some 3%Z) (Some 5%Z)])
           sample_messages [] (ChoiceStr "auto") PyNone []
           (ChunkStream.mk [text_chunk "Hello" true (Some 3%Z) (Some 5%Z)] None)
           "Hello" eq_refl eq_refl eq_refl eq_refl).
Defined.

(** C5, as stated, fails: the only chunk reports 5 completion tokens,
    the usage of the final result has 0. *)
Lemma C5_counterexample :
  let last_chunk := text_chunk "Hello" true (Some 3%Z) (Some 5%Z) in
  ChatResponse.eval_count last_chunk = Some 5%Z /\
  fst (create_stream (ext := sample_external) (sample_client [("model", PyStr "llama3")])
         (streaming [last_chunk]) sample_messages [] (ChoiceStr "auto") PyNone [])
  = ([YieldText "Hello";
      YieldResult (CreateResult.mk finish_stop (ContentCalls [])
                                   (RequestUsage.mk 3 0) false None)], None).
Proof. vm_compute. split; reflexivity. Qed.

(** C5, amended.  For every streaming call that ends normally, the
    prompt tokens of the final result are the last chunk's
    [prompt_eval_count] (zero if absent) in every branch of the
    aggregation; the completion tokens are the last chunk's
    [eval_count] (zero if absent) in the branch with both text and
    tool calls and in the branch with more than one text fragment,
    and are zero in the remaining branch. *)
Theorem C5_stream_usage_by_branch {ext : External} (self : Client)
    (backend : StreamBackend) (messages : list LLMMessage) (tools : list ToolInput)
    (tool_choice : ToolChoice) (jo : pyvalue) (extra : dict pyvalue)
    (stream : ChunkStream.t) :
  ask self true backend messages tools tool_choice jo extra = Ok stream ->
  ChunkStream.ending stream = None ->
  let chunks := ChunkStream.chunks stream in
  let texts := text_fragments chunks in
  let calls := tool_fragments (_tool_id self) chunks in
  exists partial result self',
    create_stream self backend messages tools tool_choice jo extra
    = ((partial ++ [YieldResult result], None), self') /\
    RequestUsage.prompt_tokens (CreateResult.usage result)
    = reported (last_chunk chunks) ChatResponse.prompt_eval_count /\
    RequestUsage.completion_tokens (CreateResult.usage result)
    = if ((0 <? List.length texts)%nat && (0 <? List.length calls)%nat)
         || (1 <? List.length texts)%nat
      then reported (last_chunk chunks) ChatResponse.eval_count
      else 0%Z.
Proof.
  intros Hask Hend. cbn zeta.
  eexists. exists (aggregate (final_state self stream)). eexists.
  split.
  - apply (create_stream_completes self backend messages tools tool_choice jo extra
             stream Hask Hend).
  - rewrite (aggregate_usage (final_state self stream)). cbn zeta.
    unfold final_state.
    rewrite consume_chunk, consume_content_chunks, consume_full_tool_calls.
    cbn [Loop.start Loop.chunk Loop.content_chunks Loop.full_tool_calls app
         RequestUsage.prompt_tokens RequestUsage.completion_tokens].
    split; reflexivity.
Qed.

Lemma C5_witness :
  let chunks := [text_chunk "Hel" false None None;
                 text_chunk "lo" true (Some 3%Z) (Some 5%Z)] in
  exists partial result self',
    create_stream (ext := sample_external) (sample_client [("model", PyStr "llama3")])
      (streaming chunks) sample_messages [] (ChoiceStr "auto") PyNone []
    = ((partial ++ [YieldResult result], None), self') /\
    RequestUsage.prompt_tokens (CreateResult.usage result) = 3%Z /\
    RequestUsage.completion_tokens (CreateResult.usage result) = 5%Z.
Proof.
  intros chunks.
  exact (C5_stream_usage_by_branch (ext := sample_external)
           (sample_client [("model", PyStr "llama3")])
           (streaming chunks) sample_messages [] (ChoiceStr "auto") PyNone []
           (ChunkStream.mk chunks None) eq_refl eq_refl).
Defined.

(** ** Tool-call identifiers *)

Section IdentifierFacts.
Context {ext : External}.

(** A call of [create] that the backend answers returns the
    translated response, adds its usage to both totals and stores the
    counter that the translation hands back. *)
Lemma create_completes (self : Client) (backend : Backend)
    (messages : list LLMMessage) (tools : list ToolInput) (tool_choice : ToolChoice)
    (jo : pyvalue) (extra : dict pyvalue) (response : ChatResponse.t) :
  ask self false backend messages tools tool_choice jo extra = Ok response ->
  let result := fst (translate_response (_tool_id self) response) in
  create self backend messages tools tool_choice jo extra
  = (Ok result,
     mkClient (_model_info self) (_resolved_model self) (_create_args self)
              (_add_usage (_total_usage self) (CreateResult.usage result))
              (_add_usage (_actual_usage self) (CreateResult.usage result))
              (snd (translate_response (_tool_id self) response))).
Proof.
  intros Hask. cbn zeta. unfold create. rewrite Hask.
  destruct (translate_response (_tool_id self) response); reflexivity.
Qed.

Lemma translate_response_with_tool_calls (tool_id : Z) (response : ChatResponse.t)
    (tool_calls : list ToolCall.t) :
  Message.tool_calls (ChatResponse.message response) = Some tool_calls ->
  CreateResult.content (fst (translate_response tool_id response))
  = ContentCalls (function_calls_of tool_id tool_calls) /\
  CreateResult.finish_reason (fst (translate_response tool_id response))
  = finish_function_calls /\
  snd (translate_response tool_id response) = (tool_id + 1)%Z.
Proof. intros H; unfold translate_response; rewrite H; repeat split. Qed.

Lemma translate_response_without_tool_calls (tool_id : Z) (response : ChatResponse.t) :
  Message.tool_calls (ChatResponse.message response) = None ->
  CreateResult.content (fst (translate_response tool_id response))
  = ContentText (str_or_empty (Message.content (ChatResponse.message response))) /\
  snd (translate_response tool_id response) = tool_id.
Proof. intros H; unfold translate_response; rewrite H; repeat split. Qed.

(** No outcome of [create_stream] changes the counter. *)
Lemma create_stream_keeps_tool_id (self : Client) (backend : StreamBackend)
    (messages : list LLMMessage) (tools : list ToolInput) (tool_choice : ToolChoice)
    (jo : pyvalue) (extra : dict pyvalue) :
  _tool_id (snd (create_stream self backend messages tools tool_choice jo extra))
  = _tool_id self.
Proof.
  unfold create_stream.
  destruct (ask self true backend messages tools tool_choice jo extra) as [stream|];
    [|reflexivity].
  destruct (consume (_tool_id self) Loop.start (ChunkStream.chunks stream)).
  destruct (ChunkStream.ending stream); reflexivity.
Qed.

End IdentifierFacts.

(** C9.  The tool-call records made from one backend response all
    carry the counter of the client, rendered as a string, as their
    identifier.  [create] adds one to the counter for a response that
    has tool calls, however many, and leaves it for a response that
    has none; [create_stream] leaves the counter as it is whatever
    happens, and every tool-call record of its final result carries
    that same counter. *)
Theorem C9_tool_call_identifiers {ext : External} (self : Client)
    (messages : list LLMMessage) (tools : list ToolInput) (tool_choice : ToolChoice)
    (jo : pyvalue) (extra : dict pyvalue) :
  (forall backend response,
     ask self false backend messages tools tool_choice jo extra = Ok response ->
     exists result self',
       create self backend messages tools tool_choice jo extra = (Ok result, self') /\
       match Message.tool_calls (ChatResponse.message response) with
       | Some tool_calls =>
           exists calls,
             CreateResult.content result = ContentCalls calls /\
             List.length calls = List.length tool_calls /\
             Forall (fun fc => FunctionCall.id fc = str_of_int (_tool_id self)) calls /\
             _tool_id self' = (_tool_id self + 1)%Z
       | None => _tool_id self' = _tool_id self
       end) /\
  (forall backend,
     _tool_id (snd (create_stream self backend messages tools tool_choice jo extra))
     = _tool_id self) /\
  (forall backend stream,
     ask self true backend messages tools tool_choice jo extra = Ok stream ->
     ChunkStream.ending stream = None ->
     exists partial result self',
       create_stream self backend messages tools tool_choice jo extra
       = ((partial ++ [YieldResult result], None), self') /\
       forall calls,
         CreateResult.content result = ContentCalls calls ->
         Forall (fun fc => FunctionCall.id fc = str_of_int (_tool_id self)) calls).
Proof.
  repeat apply conj.
  - intros backend response Hask.
    eexists. eexists. split; [apply create_completes; exact Hask|].
    cbn [_tool_id].
    destruct (Message.tool_calls (ChatResponse.message response)) as [tcs|] eqn:Etc.
    + destruct (translate_response_with_tool_calls (_tool_id self) response tcs Etc)
        as (Hc & _ & Hid).
      exists (function_calls_of (_tool_id self) tcs).
      repeat split; [exact Hc | | apply function_calls_of_ids | exact Hid].
      unfold function_calls_of; apply length_map.
    + apply translate_response_without_tool_calls; exact Etc.
  - intros backend. apply create_stream_keeps_tool_id.
  - intros backend stream Hask Hend.
    eexists. exists (aggregate (final_state self stream)). eexists.
    split; [apply (create_stream_completes self backend messages tools tool_choice jo
                     extra stream Hask Hend)|].
    intros calls Hcalls.
    pose proof (aggregate_content (final_state self stream)) as [Hc _].
    cbn zeta in Hc. rewrite Hcalls in Hc.
    assert (calls = Loop.full_tool_calls (final_state self stream)) as ->.
    { destruct ((0 <? List.length (Loop.content_chunks (final_state self stream)))%nat
                && (0 <? List.length (Loop.full_tool_calls (final_state self stream)))%nat);
        [congruence|].
      destruct (1 <? List.length (Loop.content_chunks (final_state self stream)))%nat;
        congruence. }
    unfold final_state. rewrite consume_full_tool_calls. cbn [Loop.start Loop.full_tool_calls app].
    apply tool_fragments_ids.
Qed.

Lemma C9_witness :
  let self := sample_client [("model", PyStr "llama3")] in
  let two_calls := [ToolCall.mk "add" (PyDict []); ToolCall.mk "sub" (PyDict [])] in
  let response := tool_chunk two_calls (Some 3%Z) (Some 5%Z) in
  exists result self',
    create (ext := sample_external) self (answering response) sample_messages []
           (ChoiceStr "auto") PyNone []
    = (Ok result, self') /\
    exists calls,
      CreateResult.content result = ContentCalls calls /\
      List.length calls = 2%nat /\
      Forall (fun fc => FunctionCall.id fc = "0") calls /\
      _tool_id self' = 1%Z.
Proof.
  intros self two_calls response.
  exact (proj1 (C9_tool_call_identifiers (ext := sample_external) self sample_messages []
                  (ChoiceStr "auto") PyNone [])
               (answering response) response eq_refl).
Defined.

(** ** The running usage totals *)

Section UsageFacts.
Context {ext : External}.

Lemma init_totals (create_args : dict pyvalue) (caps info : option ModelInfo)
    (self : Client) :
  __init__ create_args caps info = Ok self ->
  _total_usage self = RequestUsage.mk 0 0 /\
  _actual_usage self = RequestUsage.mk 0 0 /\
  _tool_id self = 0%Z.
Proof.
  unfold __init__. intros H.
  repeat match type of H with
         | bind ?r _ = _ => destruct r; cbn [bind] in H; [|discriminate]
         end.
  injection H as <-. repeat split.
Qed.

Lemma ask_reaches_backend {R : Type} (self : Client) (stream : bool)
    (backend : ChatCall.t -> result R) (messages : list LLMMessage)
    (tools : list ToolInput) (tool_choice : ToolChoice) (jo : pyvalue)
    (extra : dict pyvalue) (r : R) :
  ask self stream backend messages tools tool_choice jo extra = Ok r ->
  exists call, backend call = Ok r.
Proof.
  unfold ask. intros H.
  destruct (_process_create_args self messages tools tool_choice jo extra);
    cbn [bind] in H; [|discriminate].
  destruct (chat_call stream a) as [call|]; cbn [bind] in H; [|discriminate].
  now exists call.
Qed.

(** One call: both totals grow by the usage of the delivered result,
    and stay as they are when no result was delivered. *)
Lemma step_totals (self : Client) (c : Call) :
  match completed_usage self c with
  | Some u =>
      _total_usage (step self c) = _add_usage (_total_usage self) u /\
      _actual_usage (step self c) = _add_usage (_actual_usage self) u
  | None =>
      _total_usage (step self c) = _total_usage self /\
      _actual_usage (step self c) = _actual_usage self
  end.
Proof.
  destruct c as [backend messages tools tool_choice jo extra
                |backend messages tools tool_choice jo extra];
    cbn [completed_usage step].
  - destruct (ask self false backend messages tools tool_choice jo extra)
      as [response|e] eqn:Hask.
    + rewrite (create_completes self backend messages tools tool_choice jo extra
                 response Hask).
      cbn. split; reflexivity.
    + unfold create. rewrite Hask. cbn. split; reflexivity.
  - destruct (ask self true backend messages tools tool_choice jo extra)
      as [stream|e] eqn:Hask.
    + destruct (ChunkStream.ending stream) as [e|] eqn:Hend.
      * unfold create_stream. rewrite Hask.
        destruct (consume (_tool_id self) Loop.start (ChunkStream.chunks stream)).
        rewrite Hend. cbn. split; reflexivity.
      * rewrite (create_stream_completes self backend messages tools tool_choice jo
                   extra stream Hask Hend).
        cbn [fst snd]. rewrite last_last. cbn. split; reflexivity.
    + unfold create_stream. rewrite Hask. cbn. split; reflexivity.
Qed.

Lemma last_chunk_nonneg (chunks : list ChatResponse.t)
    (field : ChatResponse.t -> option Z) :
  Forall (fun c => (0 <= count_or_zero (field c))%Z) chunks ->
  (0 <= reported (last_chunk chunks) field)%Z.
Proof.
  unfold last_chunk. intros H.
  assert (Hgen : forall d, (0 <= reported d field)%Z ->
                           (0 <= reported (last (map Some chunks) d) field)%Z).
  { induction H as [|c chunks Hc Hrest IH]; intros d Hd; [exact Hd|].
    cbn [map]. rewrite last_cons_default. apply IH. exact Hc. }
  apply Hgen. cbn. lia.
Qed.

(** The usage of a delivered result is not negative when the
    backend's counts are not. *)
Lemma completed_usage_nonneg (self : Client) (c : Call) (u : RequestUsage.t) :
  counts_nonneg c -> completed_usage self c = Some u ->
  usage_le (RequestUsage.mk 0 0) u.
Proof.
  destruct c as [backend messages tools tool_choice jo extra
                |backend messages tools tool_choice jo extra];
    cbn [counts_nonneg completed_usage]; intros Hwf Hu.
  - destruct (ask self false backend messages tools tool_choice jo extra)
      as [response|e] eqn:Hask.
    + rewrite (create_completes self backend messages tools tool_choice jo extra
                 response Hask) in Hu.
      cbn [fst] in Hu. injection Hu as <-.
      destruct (ask_reaches_backend _ _ _ _ _ _ _ _ _ Hask) as [call Hcall].
      destruct (Hwf call response Hcall) as [Hp He].
      unfold translate_response.
      destruct (Message.tool_calls (ChatResponse.message response));
        split; cbn; assumption.
    + unfold create in Hu. rewrite Hask in Hu. discriminate.
  - destruct (ask self true backend messages tools tool_choice jo extra)
      as [stream|e] eqn:Hask.
    + destruct (ChunkStream.ending stream) as [e|] eqn:Hend.
      * unfold create_stream in Hu. rewrite Hask in Hu.
        destruct (consume (_tool_id self) Loop.start (ChunkStream.chunks stream)).
        rewrite Hend in Hu. discriminate.
      * rewrite (create_stream_completes self backend messages tools tool_choice jo
                   extra stream Hask Hend) in Hu.
        cbn [fst] in Hu. rewrite last_last in Hu. injection Hu as <-.
        destruct (ask_reaches_backend _ _ _ _ _ _ _ _ _ Hask) as [call Hcall].
        pose proof (Hwf call stream Hcall) as Hall.
        rewrite aggregate_usage. cbn zeta. unfold final_state.
        rewrite consume_chunk. cbn [Loop.start Loop.chunk].
        fold (last_chunk (ChunkStream.chunks stream)).
        assert (Hp : (0 <= reported (last_chunk (ChunkStream.chunks stream))
                                    ChatResponse.prompt_eval_count)%Z).
        { apply last_chunk_nonneg. eapply Forall_impl; [|exact Hall].
          intros r [H _]; exact H. }
        assert (He : (0 <= reported (last_chunk (ChunkStream.chunks stream))
                                    ChatResponse.eval_count)%Z).
        { apply last_chunk_nonneg. eapply Forall_impl; [|exact Hall].
          intros r [_ H]; exact H. }
        split; cbn [RequestUsage.prompt_tokens RequestUsage.completion_tokens];
          [exact Hp|].
        match goal with |- context [if ?b then _ else _] => destruct b end;
          [exact He | lia].
    + unfold create_stream in Hu. rewrite Hask in Hu. discriminate.
Qed.

Lemma usage_le_refl (u : RequestUsage.t) : usage_le u u.
Proof. split; lia. Qed.

Lemma usage_le_trans (u v w : RequestUsage.t) :
  usage_le u v -> usage_le v w -> usage_le u w.
Proof. intros [] []; split; lia. Qed.

Lemma usage_le_add (u v : RequestUsage.t) :
  usage_le (RequestUsage.mk 0 0) v -> usage_le u (_add_usage u v).
Proof. intros [Hp Hc]; cbn in Hp, Hc; split; cbn; lia. Qed.

Lemma step_monotone (self : Client) (c : Call) :
  counts_nonneg c ->
  usage_le (_total_usage self) (_total_usage (step self c)) /\
  usage_le (_actual_usage self) (_actual_usage (step self c)).
Proof.
  intros Hwf. pose proof (step_totals self c) as H.
  destruct (completed_usage self c) as [u|] eqn:Eu; destruct H as [-> ->].
  - pose proof (completed_usage_nonneg self c u Hwf Eu).
    split; now apply usage_le_add.
  - split; apply usage_le_refl.
Qed.

Lemma run_monotone (self : Client) (calls : list Call) :
  Forall counts_nonneg calls ->
  usage_le (_total_usage self) (_total_usage (run self calls)) /\
  usage_le (_actual_usage self) (_actual_usage (run self calls)).
Proof.
  intros H; revert self. induction H as [|c calls Hc Hrest IH]; intros self.
  - split; apply usage_le_refl.
  - cbn [run fold_left]. destruct (step_monotone self c Hc) as [Ht Ha].
    destruct (IH (step self c)) as [Ht' Ha'].
    split; eapply usage_le_trans; eassumption.
Qed.

Lemma step_keeps_totals_equal (self : Client) (c : Call) :
  _actual_usage self = _total_usage self ->
  _actual_usage (step self c) = _total_usage (step self c).
Proof.
  intros Heq. pose proof (step_totals self c) as H.
  destruct (completed_usage self c); destruct H as [-> ->]; now rewrite Heq.
Qed.

Lemma run_keeps_totals_equal (self : Client) (calls : list Call) :
  _actual_usage self = _total_usage self ->
  _actual_usage (run self calls) = _total_usage (run self calls).
Proof.
  revert self; induction calls as [|c calls IH]; intros self Heq; [exact Heq|].
  cbn [run fold_left]. apply IH, step_keeps_totals_equal, Heq.
Qed.

End UsageFacts.

(** C6, amended.  A client as [__init__] leaves it has both totals
    at (0, 0).  After any sequence of [create] and [create_stream]
    calls the two totals are equal.  The next call, when it delivers
    a result, adds the prompt tokens and the completion tokens of
    that result's usage to the prompt tokens and the completion
    tokens of both totals, and when it ends with an exception it
    leaves both totals as they are.  The code adds the counts as the
    backend reports them: over any further calls whose backends
    report no negative token count, no component of either total
    decreases. *)
Theorem C6_usage_totals {ext : External} (create_args : dict pyvalue)
    (caps info : option ModelInfo) (self0 : Client) :
  __init__ create_args caps info = Ok self0 ->
  total_usage self0 = RequestUsage.mk 0 0 /\
  actual_usage self0 = RequestUsage.mk 0 0 /\
  forall calls : list Call,
    let self := run self0 calls in
    actual_usage self = total_usage self /\
    (forall c : Call,
       match completed_usage self c with
       | Some u =>
           total_usage (step self c)
           = RequestUsage.mk
               (RequestUsage.prompt_tokens (total_usage self)
                + RequestUsage.prompt_tokens u)
               (RequestUsage.completion_tokens (total_usage self)
                + RequestUsage.completion_tokens u) /\
           actual_usage (step self c)
           = RequestUsage.mk
               (RequestUsage.prompt_tokens (actual_usage self)
                + RequestUsage.prompt_tokens u)
               (RequestUsage.completion_tokens (actual_usage self)
                + RequestUsage.completion_tokens u)
       | None =>
           total_usage (step self c) = total_usage self /\
           actual_usage (step self c) = actual_usage self
       end) /\
    (forall more : list Call,
       Forall counts_nonneg more ->
       usage_le (total_usage self) (total_usage (run self more)) /\
       usage_le (actual_usage self) (actual_usage (run self more))).
Proof.
  intros Hinit. destruct (init_totals _ _ _ _ Hinit) as (Ht & Ha & _).
  unfold total_usage, actual_usage.
  split; [exact Ht|]. split; [exact Ha|]. intros calls. cbv zeta.
  split; [|split].
  - apply run_keeps_totals_equal. now rewrite Ht, Ha.
  - intros c. pose proof (step_totals (run self0 calls) c) as H.
    destruct (completed_usage (run self0 calls) c); exact H.
  - intros more Hmore. now apply run_monotone.
Qed.

Lemma answering_counts_nonneg (response : ChatResponse.t)
    (messages : list LLMMessage) (tools : list ToolInput) (tool_choice : ToolChoice)
    (jo : pyvalue) (extra : dict pyvalue) :
  response_counts_nonneg response ->
  counts_nonneg
    (CallCreate (answering response) messages tools tool_choice jo extra).
Proof. intros H call r [= <-]. exact H. Qed.

Lemma streaming_counts_nonneg (chunks : list ChatResponse.t)
    (messages : list LLMMessage) (tools : list ToolInput) (tool_choice : ToolChoice)
    (jo : pyvalue) (extra : dict pyvalue) :
  Forall response_counts_nonneg chunks ->
  counts_nonneg
    (CallCreateStream (streaming chunks) messages tools tool_choice jo extra).
Proof. intros H call r [= <-]. exact H. Qed.

(** Two completed calls with usage (10, 5) and (20, 3), and a call
    that fails in between, leave both totals at (30, 8). *)
Example totals_after_three_calls :
  let self0 := sample_client [("model", PyStr "llama3")] in
  let first :=
    CallCreate (answering (text_chunk "one" true (Some 10%Z) (Some 5%Z)))
               sample_messages [] (ChoiceStr "auto") PyNone [] in
  let failing :=
    CallCreate (answering (text_chunk "lost" true (Some 7%Z) (Some 7%Z)))
               sample_messages [] (ChoiceStr "required") PyNone [] in
  let second :=
    CallCreateStream (streaming [text_chunk "tw" false None None;
                                 text_chunk "o" true (Some 20%Z) (Some 3%Z)])
                     sample_messages [] (ChoiceStr "auto") PyNone [] in
  let self := run (ext := sample_external) self0 [first; failing; second] in
  total_usage self = RequestUsage.mk 30 8 /\ actual_usage self = RequestUsage.mk 30 8.
Proof. vm_compute. split; reflexivity. Qed.

(** C6, as stated, fails: a backend that reports a negative count
    makes a component of both totals decrease, since the counts are
    added as they come. *)
Lemma C6_counterexample :
  let self0 := sample_client [("model", PyStr "llama3")] in
  let call :=
    CallCreate (answering (text_chunk "one" true (Some 4%Z) (Some (-1)%Z)))
               sample_messages [] (ChoiceStr "auto") PyNone [] in
  __init__ (ext := sample_external) [("model", PyStr "llama3")] None (Some sample_info)
  = Ok self0 /\
  completed_usage (ext := sample_external) self0 call = Some (RequestUsage.mk 4 (-1)) /\
  total_usage (run (ext := sample_external) self0 [call]) = RequestUsage.mk 4 (-1) /\
  ~ usage_le (total_usage self0) (total_usage (run (ext := sample_external) self0 [call])).
Proof.
  repeat split; try reflexivity.
  intros [_ H]. vm_compute in H. apply H. reflexivity.
Qed.

Lemma C6_witness :
  let self0 := sample_client [("model", PyStr "llama3")] in
  let first :=
    CallCreate (answering (text_chunk "one" true (Some 10%Z) (Some 5%Z)))
               sample_messages [] (ChoiceStr "auto") PyNone [] in
  let failing :=
    CallCreate (answering (text_chunk "lost" true (Some 7%Z) (Some 7%Z)))
               sample_messages [] (ChoiceStr "required") PyNone [] in
  let second :=
    CallCreateStream (streaming [text_chunk "tw" false None None;
                                 text_chunk "o" true (Some 20%Z) (Some 3%Z)])
                     sample_messages [] (ChoiceStr "auto") PyNone [] in
  __init__ (ext := sample_external) [("model", PyStr "llama3")] None (Some sample_info)
  = Ok self0 /\
  total_usage self0 = RequestUsage.mk 0 0 /\
  actual_usage self0 = RequestUsage.mk 0 0 /\
  total_usage (step (ext := sample_external) self0 first) = RequestUsage.mk 10 5 /\
  actual_usage (step (ext := sample_external) self0 first) = RequestUsage.mk 10 5 /\
  total_usage (step (ext := sample_external)
                    (run (ext := sample_external) self0 [first]) failing)
  = RequestUsage.mk 10 5 /\
  total_usage (step (ext := sample_external)
                    (run (ext := sample_external) self0 [first; failing]) second)
  = RequestUsage.mk 30 8 /\
  actual_usage (run (ext := sample_external) self0 [first; failing; second])
  = total_usage (run (ext := sample_external) self0 [first; failing; second]) /\
  usage_le (total_usage self0)
           (total_usage (run (ext := sample_external) self0 [first; failing; second])).
Proof.
  intros self0 first failing second.
  destruct (C6_usage_totals (ext := sample_external)
              [("model", PyStr "llama3")] None (Some sample_info) self0 eq_refl)
    as (Ht & Ha & Hrest).
  split; [reflexivity|]. split; [exact Ht|]. split; [exact Ha|].
  split; [exact (proj1 (proj1 (proj2 (Hrest [])) first))|].
  split; [exact (proj2 (proj1 (proj2 (Hrest [])) first))|].
  split; [exact (proj1 (proj1 (proj2 (Hrest [first])) failing))|].
  split; [exact (proj1 (proj1 (proj2 (Hrest [first; failing])) second))|].
  split; [exact (proj1 (Hrest [first; failing; second]))|].
  refine (proj1 (proj2 (proj2 (Hrest [])) [first; failing; second] _)).
  constructor; [|constructor; [|constructor; [|constructor]]].
  - apply answering_counts_nonneg. split; cbn; lia.
  - apply answering_counts_nonneg. split; cbn; lia.
  - apply streaming_counts_nonneg. repeat constructor; cbn; lia.
Defined.

(** * Further properties of the code *)

(** ** Names *)

Section MoreNameFacts.
Import Names.

Lemma str_map_length (f : ascii -> ascii) (s : string) :
  String.length (str_map f s) = String.length s.
Proof. induction s as [|c s IH]; cbn; [reflexivity | now rewrite IH]. Qed.

Lemma str_take_length_min (n : nat) (s : string) :
  String.length (str_take n s) = Nat.min n (String.length s).
Proof.
  revert s; induction n as [|n IH]; intros [|c s]; cbn; try reflexivity.
  now rewrite IH.
Qed.

Lemma str_all_app (p : ascii -> bool) (s t : string) :
  str_all p (s ++ t)%string = str_all p s && str_all p t.
Proof.
  induction s as [|c s IH]; cbn; [reflexivity|].
  now rewrite IH, andb_assoc.
Qed.

(** Where a character sits when a string is cut in two ways, the
    second cut being just before a last character. *)
Lemma app_cut_last (s1 s2 w : string) (c d : ascii) :
  (s1 ++ String c s2)%string = (w ++ String d EmptyString)%string ->
  (s2 = EmptyString /\ c = d /\ s1 = w) \/
  (exists s2', w = (s1 ++ String c s2')%string).
Proof.
  revert w; induction s1 as [|a s1 IH]; intros w H.
  - destruct w as [|b w]; cbn in H.
    + injection H as -> ->. left; auto.
    + injection H as -> ->. right. now exists w.
  - destruct w as [|b w]; cbn in H.
    + injection H as -> H. destruct s1; discriminate.
    + injection H as -> H. apply IH in H as [(-> & -> & ->) | [s2' ->]].
      * left; auto.
      * right. now exists s2'.
Qed.

Lemma all_class_matches (s : string) :
  s <> EmptyString -> str_all name_char s = true -> re_match_name s = true.
Proof.
  intros Hne Hall. apply match_plus_dollar_iff. exists s. auto.
Qed.

End MoreNameFacts.

(** X1.  Whatever the string, [normalize_name] returns a string of
    characters of the class [[a-zA-Z0-9_-]] only, whose length is the
    smaller of 64 and the length of the argument. *)
Theorem X1_normalize_name_shape (s : string) :
  str_all Names.name_char (Names.normalize_name s) = true /\
  String.length (Names.normalize_name s) = Nat.min 64 (String.length s).
Proof.
  split; [apply normalize_name_all|].
  unfold Names.normalize_name, Names.re_sub_invalid.
  now rewrite str_take_length_min, str_map_length.
Qed.

(** X2.  [assert_valid_name] returns unchanged every string of 1 to
    64 characters of the class. *)
Theorem X2_valid_names_pass (s : string) :
  Names.spec_valid_identifier s = true -> Names.assert_valid_name s = Ok s.
Proof. apply assert_valid_name_accepts. Qed.

Lemma X2_witness :
  Names.spec_valid_identifier "tool_1-a" = true /\
  Names.assert_valid_name "tool_1-a" = Ok "tool_1-a".
Proof.
  split; [reflexivity|]. apply (X2_valid_names_pass "tool_1-a"). reflexivity.
Defined.

(** X3.  [assert_valid_name] raises the invalid-characters error for
    the empty string and for every string that has a character
    outside the class anywhere but as a final newline after at least
    one character. *)
Theorem X3_bad_character_rejected (s1 s2 : string) (c : ascii) :
  Names.assert_valid_name EmptyString = Raise (InvalidNameChars EmptyString) /\
  (Names.name_char c = false ->
   s2 <> EmptyString \/ c <> LF \/ s1 = EmptyString ->
   Names.assert_valid_name (s1 ++ String c s2)%string
   = Raise (InvalidNameChars (s1 ++ String c s2)%string)).
Proof.
  split; [reflexivity|]. intros Hc Hpos.
  unfold Names.assert_valid_name.
  destruct (Names.re_match_name (s1 ++ String c s2)%string) eqn:Hm; [|reflexivity].
  exfalso. apply match_plus_dollar_iff in Hm as (w & Hne & Hall & [Hw | Hw]).
  - rewrite <- Hw, str_all_app in Hall. cbn in Hall. rewrite Hc in Hall.
    cbn in Hall. rewrite andb_false_r in Hall. discriminate.
  - apply app_cut_last in Hw as [(-> & -> & ->) | [s2' ->]].
    + destruct Hpos as [H | [H | H]]; congruence.
    + rewrite str_all_app in Hall. cbn in Hall. rewrite Hc in Hall.
      cbn in Hall. rewrite andb_false_r in Hall. discriminate.
Qed.

Lemma X3_witness :
  Names.assert_valid_name "my tool" = Raise (InvalidNameChars "my tool").
Proof.
  apply (proj2 (X3_bad_character_rejected "my" "tool" " ")); [reflexivity|].
  left; discriminate.
Defined.

(** X4.  [assert_valid_name] raises the length error for every string
    of more than 64 characters that are all of the class. *)
Theorem X4_long_name_rejected (s : string) :
  str_all Names.name_char s = true -> (64 < String.length s)%nat ->
  Names.assert_valid_name s = Raise (InvalidNameLength s).
Proof.
  intros Hall Hlen. unfold Names.assert_valid_name.
  rewrite all_class_matches; [|intros ->; cbn in Hlen; lia | exact Hall].
  apply Nat.ltb_lt in Hlen. cbn [negb]. now rewrite Hlen.
Qed.

Lemma X4_witness :
  Names.assert_valid_name
    "aaaaaaaaaaaaaaaaaaaaaaaaaaaaaaaaaaaaaaaaaaaaaaaaaaaaaaaaaaaaaaaaa"
  = Raise (InvalidNameLength
    "aaaaaaaaaaaaaaaaaaaaaaaaaaaaaaaaaaaaaaaaaaaaaaaaaaaaaaaaaaaaaaaaa").
Proof. apply X4_long_name_rejected; [reflexivity | cbn; lia]. Defined.

(** X5.  A non-empty name, once normalized, passes validation: what
    [normalize_name] returns for it is accepted by
    [assert_valid_name] as it is. *)
Theorem X5_normalized_names_pass (s : string) :
  s <> EmptyString ->
  Names.assert_valid_name (Names.normalize_name s) = Ok (Names.normalize_name s).
Proof.
  intros Hne. apply assert_valid_name_accepts.
  apply spec_valid_identifier_iff.
  pose proof (normalize_name_all s) as Hall.
  pose proof (normalize_name_length s) as Hlen.
  repeat split; try assumption.
  unfold Names.normalize_name, Names.re_sub_invalid.
  rewrite str_take_length_min, str_map_length.
  destruct s; [congruence | cbn; lia].
Qed.

Lemma X5_witness :
  Names.assert_valid_name (Names.normalize_name "get weather!") = Ok "get_weather_".
Proof. apply (X5_normalized_names_pass "get weather!"). discriminate. Defined.

(** ** The vision-token estimate *)

Section MoreVisionFacts.
Import PyFloat Vision.
Open Scope Z_scope.

Lemma gtb_false (a b : Z) : a <= b -> (a >? b) = false.
Proof. intros H. rewrite Z.gtb_ltb. apply Z.ltb_ge. exact H. Qed.

(** A boolean property checked on 0, 1, ..., n holds on that range. *)
Lemma checked_on_range (P : Z -> bool) (n : nat) :
  forallb P (map Z.of_nat (seq 0 (S n))) = true ->
  forall z, 0 <= z <= Z.of_nat n -> P z = true.
Proof.
  intros H z Hz. rewrite forallb_forall in H. apply H.
  apply in_map_iff. exists (Z.to_nat z). split; [lia|].
  apply in_seq. lia.
Qed.

(** On the sizes that are left after resizing, the floating-point
    tile count is the exact ceiling of the division by 512. *)
Lemma tiles_along_exact (n : Z) :
  0 <= n <= 2048 -> tiles_along n = Ok ((n + 511) / 512).
Proof.
  intros Hn.
  set (P := fun n => match tiles_along n with
                     | Ok t => t =? (n + 511) / 512
                     | Raise _ => false
                     end).
  assert (H : P n = true)
    by (apply (checked_on_range P 2048); [vm_compute; reflexivity | exact Hn]).
  subst P. cbv beta in H. destruct (tiles_along n) as [t|]; [|discriminate].
  apply Z.eqb_eq in H. now subst.
Qed.

Lemma int_truediv_defined (a b : Z) :
  1 <= b <= 2048 -> exists q, int_truediv a b = Ok q.
Proof.
  intros Hb. unfold int_truediv, div.
  set (P := fun b => negb (is_zero (of_int b)) || (b =? 0)).
  assert (H : P b = true)
    by (apply (checked_on_range P 2048); [vm_compute; reflexivity | lia]).
  subst P. cbv beta in H.
  destruct (b =? 0) eqn:Eb; [apply Z.eqb_eq in Eb; lia|].
  rewrite orb_false_r in H. apply negb_true_iff in H. rewrite H. eauto.
Qed.

End MoreVisionFacts.

(** X6.  For an image of height 0 and any detail hint other than
    "low", [calculate_vision_tokens] raises [ZeroDivisionError],
    whatever the width. *)
Theorem X6_zero_height_divides_by_zero (width : Z) (base64 detail : string) :
  String.eqb detail "low" = false ->
  Vision.calculate_vision_tokens (mkImage width 0 base64) detail
  = Raise ZeroDivisionError.
Proof.
  intros Hd. unfold Vision.calculate_vision_tokens. rewrite Hd.
  cbn [image_width image_height]. unfold Vision.fit_long_edge.
  destruct ((width >? Vision.MAX_LONG_EDGE)%Z || (0 >? Vision.MAX_LONG_EDGE)%Z);
    reflexivity.
Qed.

Lemma X6_witness :
  Vision.calculate_vision_tokens (mkImage 100 0 "") "auto" = Raise ZeroDivisionError.
Proof. apply X6_zero_height_divides_by_zero. reflexivity. Defined.

(** X7.  An image whose sides are at most 2048, whose height is at
    least 1 and whose sides do not both exceed 768 is not resized:
    with a detail hint other than "low" its estimate is 85 plus 170
    for each 512 x 512 tile, the tiles counted by exact ceiling
    division of each side. *)
Theorem X7_unresized_image_tokens (width height : Z) (base64 detail : string) :
  String.eqb detail "low" = false ->
  (0 <= width <= 2048)%Z -> (1 <= height <= 2048)%Z ->
  (width <= 768 \/ height <= 768)%Z ->
  Vision.calculate_vision_tokens (mkImage width height base64) detail
  = Ok (85 + 170 * (((width + 511) / 512) * ((height + 511) / 512)))%Z.
Proof.
  intros Hd Hw Hh Hsmall. unfold Vision.calculate_vision_tokens. rewrite Hd.
  cbn [image_width image_height].
  assert (Hlong : Vision.fit_long_edge width height = Ok (width, height)).
  { unfold Vision.fit_long_edge, Vision.MAX_LONG_EDGE.
    rewrite (gtb_false width 2048), (gtb_false height 2048) by lia.
    reflexivity. }
  assert (Hshort : Vision.fit_short_edge width height = Ok (width, height)).
  { unfold Vision.fit_short_edge, Vision.MAX_SHORT_EDGE.
    destruct (int_truediv_defined width height Hh) as [q ->]. cbn [bind].
    destruct Hsmall as [H | H].
    - rewrite (gtb_false width 768) by lia. reflexivity.
    - rewrite (gtb_false height 768) by lia. now rewrite andb_false_r. }
  rewrite Hlong. cbn [bind]. rewrite Hshort. cbn [bind].
  rewrite !tiles_along_exact by lia. reflexivity.
Qed.

Lemma X7_witness :
  Vision.calculate_vision_tokens (mkImage 1024 600 "") "auto" = Ok 765%Z.
Proof.
  apply (X7_unresized_image_tokens 1024 600 "" "auto"); [reflexivity | lia | lia | lia].
Defined.

(** ** Message translation *)

Section MoreTranslateFacts.
Import Names Translate.

Lemma message_texts_app (xs ys : list Message.t) :
  message_texts (xs ++ ys) = message_texts xs ++ message_texts ys.
Proof. apply flat_map_app. Qed.

Lemma message_images_app (xs ys : list Message.t) :
  message_images (xs ++ ys) = message_images xs ++ message_images ys.
Proof. apply flat_map_app. Qed.

Lemma update_last_length {A : Type} (f : A -> A) (xs : list A) :
  List.length (update_last f xs) = List.length xs.
Proof.
  induction xs as [|x xs IH]; [reflexivity|].
  destruct xs as [|y ys]; [reflexivity|].
  change (update_last f (x :: y :: ys)) with (x :: update_last f (y :: ys)).
  cbn [List.length]. now rewrite IH.
Qed.

Lemma nonempty_last {A : Type} (xs : list A) :
  xs <> [] -> exists ys y, xs = ys ++ [y].
Proof.
  intros H. destruct (exists_last H) as (ys & y & ->). eauto.
Qed.

(** Attaching an image to the last message adds it at the end of the
    images and leaves texts and roles alone. *)
Lemma attach_to_last (img : OllamaImage.t) (acc : list Message.t) :
  acc <> [] ->
  message_texts (update_last (attach_image img) acc) = message_texts acc /\
  message_images (update_last (attach_image img) acc) = message_images acc ++ [img] /\
  map Message.role (update_last (attach_image img) acc) = map Message.role acc.
Proof.
  intros H. destruct (nonempty_last acc H) as (ys & y & ->).
  rewrite update_last_app, !message_texts_app, !message_images_app, !map_app.
  unfold attach_image.
  destruct y as [r c [imgs|] t]; cbn; rewrite ?app_nil_r, <- ?app_assoc; auto.
Qed.

(** The loop keeps every text and every image, in order, after what
    the list already held, and emits user messages only. *)
Lemma user_parts_loop_keeps (parts : list ContentPart) (acc ms : list Message.t) :
  user_parts_loop parts acc = Ok ms ->
  message_texts ms = message_texts acc ++ part_texts parts /\
  message_images ms = message_images acc ++ part_images parts /\
  (Forall (fun r => r = "user") (map Message.role acc) ->
   Forall (fun r => r = "user") (map Message.role ms)).
Proof.
  revert acc; induction parts as [|part parts IH]; intros acc H.
  - cbn in H. injection H as <-. cbn. rewrite !app_nil_r. auto.
  - destruct part as [text | image |]; cbn [user_parts_loop] in H.
    + apply IH in H as (Ht & Hi & Hr).
      rewrite message_texts_app, message_images_app in *. cbn in Ht, Hi.
      rewrite app_nil_r in Hi. rewrite <- app_assoc in Ht.
      repeat split; [exact Ht | exact Hi |].
      intros Hacc. apply Hr. rewrite map_app. apply Forall_app.
      split; [exact Hacc | repeat constructor].
    + destruct acc as [|a acc].
      * apply IH in H as (Ht & Hi & Hr). cbn in Ht, Hi.
        repeat split; [exact Ht | exact Hi |].
        intros _. apply Hr. repeat constructor.
      * apply IH in H as (Ht & Hi & Hr).
        destruct (attach_to_last (OllamaImage.mk (to_base64 image)) (a :: acc))
          as (Ht' & Hi' & Hr'); [discriminate|].
        rewrite Ht' in Ht. rewrite Hi', <- app_assoc in Hi. rewrite Hr' in Hr.
        repeat split; [exact Ht | exact Hi | exact Hr].
    + discriminate.
Qed.

(** The number of messages the loop ends with. *)
Lemma user_parts_loop_length (parts : list ContentPart) (acc ms : list Message.t) :
  user_parts_loop parts acc = Ok ms ->
  List.length ms
  = (List.length acc + List.length (part_texts parts)
     + (match acc with [] => if starts_with_image parts then 1 else 0 | _ => 0 end))%nat.
Proof.
  unfold part_texts.
  revert acc; induction parts as [|part parts IH]; intros acc H.
  - cbn in H. injection H as <-. cbn. destruct acc; cbn; lia.
  - destruct part as [text | image |]; cbn [user_parts_loop] in H.
    + apply IH in H. rewrite H, length_app.
      cbn [flat_map app List.length starts_with_image].
      destruct acc; cbn [app List.length]; lia.
    + destruct acc as [|a acc].
      * apply IH in H. rewrite H.
        cbn [flat_map app List.length starts_with_image]. lia.
      * apply IH in H. rewrite H, update_last_length.
        cbn [flat_map app].
        destruct (update_last (attach_image (OllamaImage.mk (to_base64 image))) (a :: acc))
          eqn:E.
        -- apply (f_equal (@List.length _)) in E.
           rewrite update_last_length in E. discriminate.
        -- cbn. lia.
    + discriminate.
Qed.

(** A run of images after a message goes to that message. *)
Lemma user_parts_loop_images (imgs : list Image) (m : Message.t) :
  user_parts_loop (map PartImage imgs) [m]
  = Ok [Message.set_images
          (match Message.images m, imgs with
           | None, [] => None
           | None, _ => Some (map (fun i => OllamaImage.mk (to_base64 i)) imgs)
           | Some l, _ => Some (l ++ map (fun i => OllamaImage.mk (to_base64 i)) imgs)
           end) m].
Proof.
  revert m; induction imgs as [|i imgs IH]; intros [r c l t].
  - cbn. destruct l; cbn; rewrite ?app_nil_r; reflexivity.
  - cbn [map user_parts_loop update_last]. rewrite IH.
    unfold attach_image, Message.set_images. cbn.
    destruct l as [l|]; cbn; [now rewrite <- app_assoc|].
    destruct imgs; reflexivity.
Qed.

End MoreTranslateFacts.

(** X8.  A multi-part User message loses nothing and reorders
    nothing: the texts of the backend messages, in order, are the
    texts of the parts, the images of the backend messages, in order,
    are the images of the parts, and every backend message has the
    role user. *)
Theorem X8_user_parts_preserved (parts : list ContentPart) (source : string)
    (ms : list Message.t) :
  Translate.user_message_to_ollama (UserParts parts) source = Ok ms ->
  message_texts ms = part_texts parts /\
  message_images ms = part_images parts /\
  Forall (fun m => Message.role m = "user") ms.
Proof.
  unfold Translate.user_message_to_ollama. intros H.
  destruct (Names.assert_valid_name source); cbn [bind] in H; [|discriminate].
  apply user_parts_loop_keeps in H as (Ht & Hi & Hr).
  repeat split; [exact Ht | exact Hi |].
  apply (proj1 (@Forall_map _ _ Message.role (fun r => r = "user") ms)).
      apply Hr. constructor.
Qed.

Lemma X8_witness :
  let parts := [PartText "a"; PartImage (mkImage 1 1 "QQ=="); PartText "b"] in
  let ms := [Message.mk "user" (Some "a") (Some [OllamaImage.mk "QQ=="]) None;
             Message.mk "user" (Some "b") None None] in
  Translate.user_message_to_ollama (UserParts parts) "user" = Ok ms /\
  message_texts ms = ["a"; "b"] /\
  message_images ms = [OllamaImage.mk "QQ=="] /\
  Forall (fun m => Message.role m = "user") ms.
Proof.
  intros parts ms. split; [reflexivity|].
  apply (X8_user_parts_preserved parts "user" ms). reflexivity.
Defined.

(** X9.  A multi-part User message gives one backend message per text
    part, and one more when the first part is an image. *)
Theorem X9_user_parts_message_count (parts : list ContentPart) (source : string)
    (ms : list Message.t) :
  Translate.user_message_to_ollama (UserParts parts) source = Ok ms ->
  List.length ms
  = (List.length (part_texts parts) + if starts_with_image parts then 1 else 0)%nat.
Proof.
  unfold Translate.user_message_to_ollama. intros H.
  destruct (Names.assert_valid_name source); cbn [bind] in H; [|discriminate].
  apply user_parts_loop_length in H. exact H.
Qed.

Lemma X9_witness :
  let parts := [PartImage (mkImage 1 1 "QQ=="); PartText "b"; PartImage (mkImage 2 2 "Qg==")] in
  let ms := [Message.mk "user" None (Some [OllamaImage.mk "QQ=="]) None;
             Message.mk "user" (Some "b") (Some [OllamaImage.mk "Qg=="]) None] in
  Translate.user_message_to_ollama (UserParts parts) "user" = Ok ms /\
  List.length ms = 2%nat.
Proof.
  intros parts ms. split; [reflexivity|].
  apply (X9_user_parts_message_count parts "user" ms). reflexivity.
Defined.

(** X10.  A User message made of images only, at least one, gives a
    single backend message without text that holds all the images in
    order. *)
Theorem X10_images_only_one_message (first : Image) (others : list Image)
    (source : string) :
  Names.assert_valid_name source = Ok source ->
  Translate.user_message_to_ollama (UserParts (map PartImage (first :: others))) source
  = Ok [Message.mk "user" None
          (Some (map (fun i => OllamaImage.mk (to_base64 i)) (first :: others))) None].
Proof.
  intros H. unfold Translate.user_message_to_ollama. rewrite H. cbn [bind map].
  cbn [Translate.user_parts_loop]. rewrite user_parts_loop_images. reflexivity.
Qed.

Lemma X10_witness :
  Translate.user_message_to_ollama
    (UserParts [PartImage (mkImage 1 1 "QQ=="); PartImage (mkImage 2 2 "Qg==")]) "user"
  = Ok [Message.mk "user" None (Some [OllamaImage.mk "QQ=="; OllamaImage.mk "Qg=="]) None].
Proof.
  apply (X10_images_only_one_message (mkImage 1 1 "QQ==") [mkImage 2 2 "Qg=="] "user").
  reflexivity.
Defined.

(** X11.  Every backend message that [to_ollama_type] makes from a
    message carries the role that [type_to_role] gives for it. *)
Theorem X11_roles_follow_message_type {ext : External} (message : LLMMessage)
    (ms : list Message.t) :
  Translate.to_ollama_type message = Ok ms ->
  Forall (fun m => Message.role m = Translate.type_to_role message) ms.
Proof.
  destruct message as [c | c src | c th src | c];
    cbn [Translate.to_ollama_type Translate.type_to_role]; intros H.
  - injection H as <-. repeat constructor.
  - destruct c as [text | parts].
    + unfold Translate.user_message_to_ollama in H.
      destruct (Names.assert_valid_name src); cbn [bind] in H; [|discriminate].
      injection H as <-. repeat constructor.
    + unfold Translate.user_message_to_ollama in H.
      destruct (Names.assert_valid_name src); cbn [bind] in H; [|discriminate].
      apply user_parts_loop_keeps in H as (_ & _ & Hr).
      apply (proj1 (@Forall_map _ _ Message.role (fun r => r = "user") ms)).
      apply Hr. constructor.
  - unfold Translate.assistant_message_to_ollama in H.
    destruct (Names.assert_valid_name src); cbn [bind] in H; [|discriminate].
    destruct c as [text | calls]; cbn [bind] in H.
    + injection H as <-. repeat constructor.
    + destruct (map_result Translate.func_call_to_ollama calls); cbn [bind] in H;
        [|discriminate].
      injection H as <-. repeat constructor.
  - injection H as <-. unfold Translate.tool_message_to_ollama.
    apply Forall_map, Forall_forall. reflexivity.
Qed.

Lemma X11_witness :
  let message := FunctionExecutionResultMessage
                   [FunctionExecutionResult.mk "4" "add" "0" None;
                    FunctionExecutionResult.mk "5" "add" "0" None] in
  let ms := [Message.mk "tool" (Some "4") None None;
             Message.mk "tool" (Some "5") None None] in
  Translate.to_ollama_type (ext := sample_external) message = Ok ms /\
  Forall (fun m => Message.role m = "tool") ms.
Proof.
  intros message ms. split; [reflexivity|].
  apply (X11_roles_follow_message_type (ext := sample_external) message ms).
  reflexivity.
Defined.

(** ** Tool conversion *)

Section MoreToolFacts.
Import Names Tools.

Lemma map_result_ok {A B : Type} (f : A -> result B) (xs : list A) (ys : list B) :
  map_result f xs = Ok ys -> Forall2 (fun x y => f x = Ok y) xs ys.
Proof.
  revert ys; induction xs as [|x xs IH]; intros ys H; cbn [map_result] in H.
  - injection H as <-. constructor.
  - destruct (f x) as [y|] eqn:Ex; cbn [bind] in H; [|discriminate].
    destruct (map_result f xs) as [ys'|]; cbn [bind] in H; [|discriminate].
    injection H as <-. constructor; [exact Ex | now apply IH].
Qed.

Lemma convert_tool_name (tool : ToolInput) (t : OllamaTool.t) :
  convert_tool tool = Ok t -> OllamaTool.name t = ToolSchema.name (tool_schema_of tool).
Proof.
  unfold convert_tool. intros H.
  match type of H with
  | bind ?r _ = _ => destruct r; cbn [bind] in H; [|discriminate]
  end.
  injection H as <-. reflexivity.
Qed.

(** What a successful conversion returns: as many tools, under the
    same names in the same order, every name a valid one. *)
Lemma convert_tools_ok (tools : list ToolInput) (converted : list OllamaTool.t) :
  convert_tools tools = Ok converted ->
  map OllamaTool.name converted
  = map (fun tool => ToolSchema.name (tool_schema_of tool)) tools /\
  Forall (fun t => is_ok (assert_valid_name (OllamaTool.name t)) = true) converted.
Proof.
  unfold convert_tools. intros H.
  destruct (map_result convert_tool tools) as [r|] eqn:Ec; cbn [bind] in H;
    [|discriminate].
  match type of H with
  | bind ?m _ = _ => destruct m as [vs|] eqn:Ev; cbn [bind] in H; [|discriminate]
  end.
  injection H as <-. split.
  - apply map_result_ok in Ec. clear Ev.
    induction Ec as [|x y xs ys Hxy _ IH]; [reflexivity|].
    cbn [map]. now rewrite IH, (convert_tool_name x y Hxy).
  - apply map_result_ok in Ev. clear Ec.
    induction Ev as [|x y xs ys Hxy _ IH]; constructor; [|exact IH].
    now rewrite Hxy.
Qed.

Lemma first_non_null_type_skips (nulls : list (dict pyvalue)) (opt : dict pyvalue)
    (rest : list pyvalue) :
  Forall (fun d => is_str "null" (get_or_none "type" d) = true) nulls ->
  is_str "null" (get_or_none "type" opt) = false ->
  first_non_null_type (map PyDict nulls ++ PyDict opt :: rest)
  = Ok (get_or_none "type" opt).
Proof.
  intros Hnulls Hopt. induction Hnulls as [|d nulls Hd _ IH].
  - cbn. now rewrite Hopt.
  - cbn [map app first_non_null_type]. now rewrite Hd.
Qed.

End MoreToolFacts.

(** X12.  The type of a converted property is never empty, and
    "string" is what stands in.  For a property schema whose
    description, if it has one, is a string: a type that is a
    non-empty string is kept as it is; a type that is absent, [None]
    or otherwise of false truth value is replaced by "string", when
    the schema has no "anyOf", when the type is there but false (an
    empty string, say), and when "anyOf" is there but has nothing to
    walk through (an empty list, string or dictionary).  In all
    these cases the conversion succeeds and carries the description
    over.  And for any schema, whenever the conversion succeeds, the
    type it returns has a true truth value. *)
Theorem X12_property_type_never_empty (prop_schema : dict pyvalue) :
  let schema_type := Tools.get_or_none "type" prop_schema in
  let converted t := Ok (OllamaProperty.mk t (dict_get "description" prop_schema)) in
  ((forall d, dict_get "description" prop_schema = Some d -> exists text, d = PyStr text) ->
   (forall t, schema_type = PyStr t -> t <> EmptyString ->
      Tools.convert_property prop_schema = converted (PyStr t)) /\
   (truthy schema_type = false ->
    Tools.is_none schema_type = false \/ dict_mem "anyOf" prop_schema = false ->
    Tools.convert_property prop_schema = converted (PyStr "string")) /\
   (Tools.is_none schema_type = true ->
    dict_get "anyOf" prop_schema = Some (PyList []) \/
    dict_get "anyOf" prop_schema = Some (PyStr "") \/
    dict_get "anyOf" prop_schema = Some (PyDict []) ->
    Tools.convert_property prop_schema = converted (PyStr "string"))) /\
  (forall property,
     Tools.convert_property prop_schema = Ok property ->
     truthy (OllamaProperty.type property) = true).
Proof.
  cbv zeta. unfold Tools.convert_property. split; [intros _; repeat apply conj|].
  - intros t Ht Hne. rewrite Ht. cbn [Tools.is_none andb bind truthy].
    destruct (String.eqb t "") eqn:E; [apply String.eqb_eq in E; congruence|].
    reflexivity.
  - intros Ht Hcase.
    assert (Hc : Tools.is_none (Tools.get_or_none "type" prop_schema)
                 && dict_mem "anyOf" prop_schema = false).
    { destruct Hcase as [H | H]; rewrite H; [reflexivity | apply andb_false_r]. }
    rewrite Hc. cbn [bind]. now rewrite Ht.
  - intros Hn Hany.
    assert (Hm : dict_mem "anyOf" prop_schema = true)
      by (unfold dict_mem; destruct Hany as [H | [H | H]]; now rewrite H).
    assert (Hi : Tools.iterate (Tools.get_or_none "anyOf" prop_schema) = Ok [])
      by (unfold Tools.get_or_none; destruct Hany as [H | [H | H]]; now rewrite H).
    rewrite Hn, Hm, Hi. reflexivity.
  - intros property H.
    match type of H with
    | bind ?r _ = _ => destruct r as [t|]; cbn [bind] in H; [|discriminate]
    end.
    injection H as <-. cbn.
    destruct (truthy t) eqn:Et; [exact Et | reflexivity].
Qed.

Lemma description_is_text (prop_schema : dict pyvalue) (text : string) :
  dict_get "description" prop_schema = Some (PyStr text) ->
  forall d, dict_get "description" prop_schema = Some d -> exists t, d = PyStr t.
Proof. intros H d Hd. rewrite H in Hd. injection Hd as <-. now exists text. Qed.

Lemma description_absent (prop_schema : dict pyvalue) :
  dict_get "description" prop_schema = None ->
  forall d, dict_get "description" prop_schema = Some d -> exists t, d = PyStr t.
Proof. intros H d Hd. rewrite H in Hd. discriminate. Qed.

Lemma X12_witness :
  Tools.convert_property [("type", PyStr "integer"); ("description", PyStr "how many")]
  = Ok (OllamaProperty.mk (PyStr "integer") (Some (PyStr "how many"))) /\
  Tools.convert_property [("type", PyStr ""); ("description", PyStr "a city")]
  = Ok (OllamaProperty.mk (PyStr "string") (Some (PyStr "a city"))) /\
  Tools.convert_property [("title", PyStr "City")]
  = Ok (OllamaProperty.mk (PyStr "string") None) /\
  Tools.convert_property [("anyOf", PyStr "")]
  = Ok (OllamaProperty.mk (PyStr "string") None) /\
  Tools.convert_property [("anyOf", PyDict []); ("description", PyStr "x")]
  = Ok (OllamaProperty.mk (PyStr "string") (Some (PyStr "x"))) /\
  truthy (OllamaProperty.type (OllamaProperty.mk (PyStr "string") None)) = true.
Proof.
  repeat apply conj.
  - apply (proj1 (proj1 (X12_property_type_never_empty
                           [("type", PyStr "integer"); ("description", PyStr "how many")])
                        (description_is_text
                           [("type", PyStr "integer"); ("description", PyStr "how many")]
                           "how many" eq_refl)) "integer");
      [reflexivity | discriminate].
  - apply (proj1 (proj2 (proj1 (X12_property_type_never_empty
                                  [("type", PyStr ""); ("description", PyStr "a city")])
                               (description_is_text
                                  [("type", PyStr ""); ("description", PyStr "a city")]
                                  "a city" eq_refl))));
      [reflexivity | left; reflexivity].
  - apply (proj1 (proj2 (proj1 (X12_property_type_never_empty [("title", PyStr "City")])
                               (description_absent [("title", PyStr "City")] eq_refl))));
      [reflexivity | right; reflexivity].
  - apply (proj2 (proj2 (proj1 (X12_property_type_never_empty [("anyOf", PyStr "")])
                               (description_absent [("anyOf", PyStr "")] eq_refl))));
      [reflexivity | right; left; reflexivity].
  - apply (proj2 (proj2 (proj1 (X12_property_type_never_empty
                                  [("anyOf", PyDict []); ("description", PyStr "x")])
                               (description_is_text
                                  [("anyOf", PyDict []); ("description", PyStr "x")]
                                  "x" eq_refl))));
      [reflexivity | right; right; reflexivity].
  - apply (proj2 (X12_property_type_never_empty [("anyOf", PyStr "")])).
    reflexivity.
Defined.

(** X13.  For a property without a type of its own, the type comes
    from the first alternative of [anyOf] whose type is not "null":
    that alternative's type when it has a true truth value, "string"
    when it does not, and the alternatives after it are not looked
    at.  The description is carried over as it is. *)
Theorem X13_any_of_first_non_null (prop_schema : dict pyvalue)
    (nulls : list (dict pyvalue)) (opt : dict pyvalue) (rest : list pyvalue) :
  Tools.get_or_none "type" prop_schema = PyNone ->
  dict_get "anyOf" prop_schema = Some (PyList (map PyDict nulls ++ PyDict opt :: rest)) ->
  Forall (fun d => Tools.is_str "null" (Tools.get_or_none "type" d) = true) nulls ->
  Tools.is_str "null" (Tools.get_or_none "type" opt) = false ->
  Tools.convert_property prop_schema
  = Ok (OllamaProperty.mk
          (if truthy (Tools.get_or_none "type" opt)
           then Tools.get_or_none "type" opt else PyStr "string")
          (dict_get "description" prop_schema)).
Proof.
  intros Htype Hany Hnulls Hopt. unfold Tools.convert_property.
  assert (Hmem : dict_mem "anyOf" prop_schema = true)
    by (unfold dict_mem; now rewrite Hany).
  assert (Hget : Tools.get_or_none "anyOf" prop_schema
                 = PyList (map PyDict nulls ++ PyDict opt :: rest))
    by (unfold Tools.get_or_none; now rewrite Hany).
  rewrite Htype, Hmem, Hget. cbn [Tools.is_none andb Tools.iterate bind].
  rewrite (first_non_null_type_skips nulls opt rest Hnulls Hopt). reflexivity.
Qed.

Lemma X13_witness :
  Tools.convert_property
    [("anyOf", PyList [PyDict [("type", PyStr "null")];
                       PyDict [("type", PyStr "integer")];
                       PyInt 7]);
     ("description", PyStr "how many")]
  = Ok (OllamaProperty.mk (PyStr "integer") (Some (PyStr "how many"))).
Proof.
  refine (X13_any_of_first_non_null
            [("anyOf", PyList [PyDict [("type", PyStr "null")];
                               PyDict [("type", PyStr "integer")];
                               PyInt 7]);
             ("description", PyStr "how many")]
            [[("type", PyStr "null")]] [("type", PyStr "integer")] [PyInt 7]
            eq_refl eq_refl _ eq_refl).
  constructor; [reflexivity | constructor].
Defined.

(** X14.  A successful [convert_tools] returns as many tools as it
    was given, under the same names and in the same order. *)
Theorem X14_convert_tools_keeps_names (tools : list ToolInput)
    (converted : list OllamaTool.t) :
  Tools.convert_tools tools = Ok converted ->
  map OllamaTool.name converted
  = map (fun tool => ToolSchema.name (Tools.tool_schema_of tool)) tools.
Proof. intros H. apply (convert_tools_ok tools converted H). Qed.

Lemma X14_witness :
  let tools := [IsSchema (ToolSchema.mk "add" None None);
                IsTool (ToolSchema.mk "sub" (Some "subtract") None)] in
  let converted := [OllamaTool.mk "add" "" None None;
                    OllamaTool.mk "sub" "subtract" None None] in
  Tools.convert_tools tools = Ok converted /\
  map OllamaTool.name converted = ["add"; "sub"].
Proof.
  intros tools converted. split; [reflexivity|].
  apply (X14_convert_tools_keeps_names tools converted). reflexivity.
Defined.

(** X15.  [convert_tools] fails closed on names: one tool whose name
    does not pass [assert_valid_name] makes the whole conversion
    raise, whatever the other tools are. *)
Theorem X15_invalid_tool_name_fails_all (tools : list ToolInput) (tool : ToolInput) :
  In tool tools ->
  is_ok (Names.assert_valid_name (ToolSchema.name (Tools.tool_schema_of tool))) = false ->
  is_ok (Tools.convert_tools tools) = false.
Proof.
  intros Hin Hbad.
  destruct (Tools.convert_tools tools) as [converted|] eqn:Hc; [|reflexivity].
  exfalso. destruct (convert_tools_ok tools converted Hc) as [Hnames Hvalid].
  apply (in_map (fun tool => ToolSchema.name (Tools.tool_schema_of tool))) in Hin.
  rewrite <- Hnames in Hin. apply in_map_iff in Hin as (t & Ht & Hin).
  rewrite Forall_forall in Hvalid. specialize (Hvalid t Hin).
  rewrite Ht in Hvalid. congruence.
Qed.

Lemma X15_witness :
  is_ok (Tools.convert_tools [IsSchema (ToolSchema.mk "add" None None);
                              IsSchema (ToolSchema.mk "get weather" None None)]) = false.
Proof.
  apply (X15_invalid_tool_name_fails_all _ (IsSchema (ToolSchema.mk "get weather" None None)));
    [right; left; reflexivity | reflexivity].
Defined.

(** ** Stop reasons *)

Lemma lower_char_idempotent (c : ascii) : lower_char (lower_char c) = lower_char c.
Proof. destruct c as [[] [] [] [] [] [] [] []]; reflexivity. Qed.

Lemma str_lower_idempotent (s : string) : str_lower (str_lower s) = str_lower s.
Proof.
  unfold str_lower. induction s as [|c s IH]; cbn [str_map]; [reflexivity|].
  now rewrite lower_char_idempotent, IH.
Qed.

(** X16.  [normalize_stop_reason] only ever answers stop,
    function_calls or unknown, and it does not look at letter case: a
    reason and its lower-case form get the same answer. *)
Theorem X16_stop_reason_range_and_case (stop_reason : option string) :
  (normalize_stop_reason stop_reason = finish_stop \/
   normalize_stop_reason stop_reason = finish_function_calls \/
   normalize_stop_reason stop_reason = finish_unknown) /\
  normalize_stop_reason (option_map str_lower stop_reason)
  = normalize_stop_reason stop_reason.
Proof.
  destruct stop_reason as [s|]; cbn [option_map]; [|split; auto].
  unfold normalize_stop_reason. rewrite str_lower_idempotent.
  split; [|reflexivity].
  unfold KNOWN_STOP_MAPPINGS. cbn [dict_get].
  repeat match goal with |- context [if ?b then _ else _] => destruct b end; auto.
Qed.

(** ** Create arguments *)

Section CreateArgsFacts.
Context {ext : External}.

Lemma dict_set_keys_in {V : Type} (k k' : string) (v : V) (d : dict V) :
  In k' (map fst (dict_set k v d)) <-> k' = k \/ In k' (map fst d).
Proof.
  induction d as [|[k0 v0] d IH]; cbn [dict_set map fst In].
  - intuition.
  - destruct (String.eqb k k0) eqn:E; cbn [map fst In].
    + apply String.eqb_eq in E; subst k0. intuition.
    + rewrite IH. intuition.
Qed.

Lemma dict_set_absent {V : Type} (k : string) (v : V) (d : dict V) :
  ~ In k (map fst d) -> dict_set k v d = d ++ [(k, v)].
Proof.
  induction d as [|[k0 v0] d IH]; cbn [dict_set map fst In app]; intros H;
    [reflexivity|].
  destruct (String.eqb k k0) eqn:E.
  - apply String.eqb_eq in E. subst. exfalso; apply H; now left.
  - f_equal. apply IH. intros Hin; apply H; now right.
Qed.

Lemma dict_set_nodup {V : Type} (k : string) (v : V) (d : dict V) :
  NoDup (map fst d) -> NoDup (map fst (dict_set k v d)).
Proof.
  induction d as [|[k0 v0] d IH]; cbn [dict_set map fst]; intros H.
  - repeat constructor. intros [].
  - inversion H as [|? ? Hnotin Hrest]; subst.
    destruct (String.eqb k k0) eqn:E; cbn [map fst].
    + apply String.eqb_eq in E; subst k0. now constructor.
    + constructor; [|now apply IH].
      rewrite dict_set_keys_in. intros [-> | Hin]; [|contradiction].
      rewrite String.eqb_refl in E. discriminate.
Qed.

Lemma dict_set_same {V : Type} (k : string) (v : V) (d : dict V) :
  dict_get k d = Some v -> dict_set k v d = d.
Proof.
  induction d as [|[k0 v0] d IH]; cbn [dict_get dict_set]; [discriminate|].
  destruct (String.eqb k k0) eqn:E.
  - apply String.eqb_eq in E; subst k0. now intros [= ->].
  - intros H. now rewrite IH.
Qed.

Lemma dict_get_set_same {V : Type} (k : string) (v : V) (d : dict V) :
  dict_get k (dict_set k v d) = Some v.
Proof.
  induction d as [|[k0 v0] d IH]; cbn [dict_get dict_set].
  - now rewrite String.eqb_refl.
  - destruct (String.eqb k k0) eqn:E; cbn [dict_get]; rewrite ?String.eqb_refl, ?E; auto.
Qed.

Lemma dict_get_set_other {V : Type} (k k' : string) (v : V) (d : dict V) :
  k' <> k -> dict_get k' (dict_set k v d) = dict_get k' d.
Proof.
  intros Hne. induction d as [|[k0 v0] d IH]; cbn [dict_get dict_set].
  - destruct (String.eqb k' k) eqn:E; [apply String.eqb_eq in E; congruence | reflexivity].
  - destruct (String.eqb k k0) eqn:E; cbn [dict_get].
    + apply String.eqb_eq in E; subst k0.
      destruct (String.eqb k' k) eqn:E'; [apply String.eqb_eq in E'; congruence | reflexivity].
    + destruct (String.eqb k' k0); [reflexivity | exact IH].
Qed.

Lemma dict_get_in_keys {V : Type} (k : string) (d : dict V) :
  dict_get k d = None <-> ~ In k (map fst d).
Proof.
  induction d as [|[k0 v0] d IH]; cbn [dict_get map fst In]; [intuition|].
  destruct (String.eqb k k0) eqn:E.
  - apply String.eqb_eq in E; subst. split; [discriminate | intros H; exfalso; auto].
  - rewrite IH. apply String.eqb_neq in E. intuition.
Qed.

(** With no key twice, a deleted key is gone. *)
Lemma dict_del_removes {V : Type} (k : string) (d : dict V) :
  NoDup (map fst d) -> dict_get k (dict_del k d) = None.
Proof.
  induction d as [|[k0 v0] d IH]; cbn [dict_del map fst]; intros H; [reflexivity|].
  inversion H as [|? ? Hnotin Hrest]; subst.
  destruct (String.eqb k k0) eqn:E.
  - apply String.eqb_eq in E; subst k0. now apply dict_get_in_keys.
  - cbn [dict_get]. rewrite E. now apply IH.
Qed.

Lemma options_is_valid_key :
  str_lower "options" = "options" /\
  str_mem "options" OLLAMA_VALID_CREATE_KWARGS_KEYS = true.
Proof.
  split; [reflexivity|].
  unfold str_mem, OLLAMA_VALID_CREATE_KWARGS_KEYS. rewrite existsb_app.
  apply orb_true_iff. right. reflexivity.
Qed.

Lemma normalized_args_set (k : string) (v : pyvalue) (args : dict pyvalue) :
  str_lower k = k -> str_mem k OLLAMA_VALID_CREATE_KWARGS_KEYS = true ->
  normalized_args args -> normalized_args (dict_set k v args).
Proof.
  intros Hl Hv [Hnd Hall]. split; [now apply dict_set_nodup|].
  rewrite Forall_forall in *. intros k' Hin.
  apply dict_set_keys_in in Hin as [-> | Hin]; auto.
Qed.

Lemma create_args_step_normalized (acc : dict pyvalue * dict pyvalue)
    (kv : string * pyvalue) :
  normalized_args (fst acc) -> normalized_args (fst (_create_args_step acc kv)).
Proof.
  destruct acc as [ca od]. unfold _create_args_step. cbn [fst]. intros H.
  destruct (str_mem (str_lower (fst kv)) OLLAMA_VALID_CREATE_KWARGS_KEYS) eqn:Hv.
  - cbn [fst]. apply normalized_args_set; auto using str_lower_idempotent.
  - destruct (str_mem (str_lower (fst kv)) LLM_CONTROL_PARAMS); exact H.
Qed.

Lemma create_args_fold_normalized (config : dict pyvalue)
    (acc : dict pyvalue * dict pyvalue) :
  normalized_args (fst acc) ->
  normalized_args (fst (fold_left _create_args_step config acc)).
Proof.
  revert acc; induction config as [|kv config IH]; intros acc H; [exact H|].
  cbn [fold_left]. apply IH. now apply create_args_step_normalized.
Qed.

Lemma create_args_from_config_normalized (config : dict pyvalue) :
  normalized_args (_create_args_from_config config).
Proof.
  unfold _create_args_from_config.
  match goal with
  | |- context [fold_left _create_args_step config ?a] =>
      pose proof (create_args_fold_normalized config a) as H;
      destruct (fold_left _create_args_step config a) as [ca od]
  end.
  cbn [fst] in H.
  assert (Hca : normalized_args ca) by (apply H; split; constructor).
  destruct od; [exact Hca|].
  apply normalized_args_set; [apply options_is_valid_key.. | exact Hca].
Qed.

(** On normalized arguments the loop copies every entry and leaves
    the options alone. *)
Lemma create_args_fold_copies (args acc od : dict pyvalue) :
  Forall (fun k => str_lower k = k /\
                   str_mem k OLLAMA_VALID_CREATE_KWARGS_KEYS = true) (map fst args) ->
  NoDup (map fst acc ++ map fst args) ->
  fold_left _create_args_step args (acc, od) = (acc ++ args, od).
Proof.
  revert acc; induction args as [|[k v] args IH]; intros acc Hall Hnd.
  - cbn. now rewrite app_nil_r.
  - cbn [fold_left map fst] in *. inversion Hall as [|? ? [Hl Hv] Hrest]; subst.
    unfold _create_args_step at 2. cbn [fst snd]. rewrite Hl, Hv.
    rewrite dict_set_absent.
    + rewrite IH; [now rewrite <- app_assoc | exact Hrest |].
      rewrite map_app, <- app_assoc. exact Hnd.
    + apply NoDup_remove_2 in Hnd. intros Hin. apply Hnd, in_or_app. now left.
Qed.

(** Normalized arguments are a fixed point of the sorting. *)
Lemma create_args_from_config_fixed (args : dict pyvalue) :
  normalized_args args -> _create_args_from_config args = args.
Proof.
  intros [Hnd Hall]. unfold _create_args_from_config.
  rewrite create_args_fold_copies; [|exact Hall | exact Hnd]. cbn [app].
  destruct (dict_get "options" args) as [[]|] eqn:Ho; try reflexivity.
  destruct items; [reflexivity|]. now apply dict_set_same.
Qed.

End CreateArgsFacts.

(** X17.  Whatever the configuration, [_create_args_from_config]
    returns a dictionary whose keys are all in lower case and all
    recognised request fields, none of them twice. *)
Theorem X17_create_args_keys_recognised {ext : External} (config : dict pyvalue) :
  normalized_args (_create_args_from_config config).
Proof. apply create_args_from_config_normalized. Qed.

(** X18.  [_create_args_from_config] is idempotent: sorting its own
    result again, as every call does with the arguments that the
    constructor stored, changes nothing. *)
Theorem X18_create_args_idempotent {ext : External} (config : dict pyvalue) :
  _create_args_from_config (_create_args_from_config config)
  = _create_args_from_config config.
Proof.
  apply create_args_from_config_fixed, create_args_from_config_normalized.
Qed.

Section MoreCreateArgsFacts.
Context {ext : External}.

Lemma dict_get_app {V : Type} (k : string) (a b : dict V) :
  dict_get k (a ++ b)
  = match dict_get k a with Some v => Some v | None => dict_get k b end.
Proof.
  induction a as [|[k0 v0] a IH]; cbn [app dict_get]; [reflexivity|].
  destruct (String.eqb k k0); [reflexivity | exact IH].
Qed.

(** The loop round for a key that is neither a request field nor a
    control parameter does nothing. *)
Lemma create_args_step_unrecognised (acc : dict pyvalue * dict pyvalue)
    (k : string) (v : pyvalue) :
  str_mem (str_lower k) OLLAMA_VALID_CREATE_KWARGS_KEYS = false ->
  str_mem (str_lower k) LLM_CONTROL_PARAMS = false ->
  _create_args_step acc (k, v) = acc.
Proof.
  intros Hv Hc. destruct acc as [ca od]. unfold _create_args_step.
  cbn [fst snd]. now rewrite Hv, Hc.
Qed.

(** Later rounds do not touch an option unless a key of theirs lowers
    to its name. *)
Lemma create_args_fold_keeps_option (config : dict pyvalue) (name : string)
    (v : pyvalue) (ca od : dict pyvalue) :
  Forall (fun kv => str_lower (fst kv) <> name) config ->
  dict_get name od = Some v ->
  dict_get name (snd (fold_left _create_args_step config (ca, od))) = Some v.
Proof.
  intros Hall; revert ca od.
  induction Hall as [|kv config Hkv _ IH]; intros ca od Hget; [exact Hget|].
  cbn [fold_left]. unfold _create_args_step at 2.
  destruct (str_mem (str_lower (fst kv)) OLLAMA_VALID_CREATE_KWARGS_KEYS);
    [now apply IH|].
  destruct (str_mem (str_lower (fst kv)) LLM_CONTROL_PARAMS); [|now apply IH].
  apply IH. rewrite dict_get_set_other; [exact Hget | congruence].
Qed.

(** A key that is in the accumulated arguments stays in them. *)
Lemma create_args_fold_keeps_key (config : dict pyvalue) (k : string)
    (ca od : dict pyvalue) :
  In k (map fst ca) ->
  In k (map fst (fst (fold_left _create_args_step config (ca, od)))).
Proof.
  revert ca od; induction config as [|kv config IH]; intros ca od Hin; [exact Hin|].
  cbn [fold_left]. unfold _create_args_step at 2.
  destruct (str_mem (str_lower (fst kv)) OLLAMA_VALID_CREATE_KWARGS_KEYS).
  - apply IH. apply dict_set_keys_in. now right.
  - destruct (str_mem (str_lower (fst kv)) LLM_CONTROL_PARAMS); now apply IH.
Qed.

(** A recognised key that the configuration has in lower case is a
    key of the result. *)
Lemma create_args_fold_gets_key (config : dict pyvalue) (k : string)
    (acc : dict pyvalue * dict pyvalue) :
  str_lower k = k -> str_mem k OLLAMA_VALID_CREATE_KWARGS_KEYS = true ->
  In k (map fst config) ->
  In k (map fst (fst (fold_left _create_args_step config acc))).
Proof.
  intros Hl Hv. revert acc; induction config as [|[k0 v0] config IH];
    intros [ca od] Hin; [destruct Hin|].
  cbn [map fst In] in Hin. cbn [fold_left].
  destruct Hin as [-> | Hin].
  - unfold _create_args_step at 2. cbn [fst snd]. rewrite Hl, Hv.
    apply create_args_fold_keeps_key. apply dict_set_keys_in. now left.
  - now apply IH.
Qed.

Lemma create_args_from_config_gets_key (config : dict pyvalue) (k : string) :
  str_lower k = k -> str_mem k OLLAMA_VALID_CREATE_KWARGS_KEYS = true ->
  In k (map fst config) ->
  In k (map fst (_create_args_from_config config)).
Proof.
  intros Hl Hv Hin. unfold _create_args_from_config.
  match goal with
  | |- context [fold_left _create_args_step config ?a] =>
      pose proof (create_args_fold_gets_key config k a Hl Hv Hin) as H;
      destruct (fold_left _create_args_step config a) as [ca od]
  end.
  cbn [fst] in H. destruct od; [exact H|].
  apply dict_set_keys_in. now right.
Qed.

Lemma model_is_valid_key :
  str_lower "model" = "model" /\
  str_mem "model" OLLAMA_VALID_CREATE_KWARGS_KEYS = true.
Proof.
  split; [reflexivity|].
  unfold str_mem, OLLAMA_VALID_CREATE_KWARGS_KEYS. rewrite existsb_app.
  apply orb_true_iff. right. reflexivity.
Qed.

Lemma init_keeps_create_args (create_args : dict pyvalue) (caps info : option ModelInfo)
    (self : Client) :
  __init__ create_args caps info = Ok self -> _create_args self = create_args.
Proof.
  unfold __init__. intros H.
  repeat match type of H with
         | bind ?r _ = _ => destruct r; cbn [bind] in H; [|discriminate]
         end.
  injection H as <-. reflexivity.
Qed.

Lemma init_key_error (create_args : dict pyvalue) (caps info : option ModelInfo) :
  __init__ create_args caps info = Raise (KeyError "model") ->
  dict_get "model" create_args = None.
Proof.
  unfold __init__. intros H.
  destruct (dict_get "model" create_args) as [m|]; [|reflexivity].
  exfalso. cbn [bind] in H.
  match type of H with
  | bind ?r _ = _ => destruct r as [i|e] eqn:Ei; cbn [bind] in H
  end.
  - match type of H with
    | bind ?r _ = _ => destruct r eqn:Ej; cbn [bind] in H; [discriminate|]
    end.
    injection H as ->.
    destruct (negb (json_output i)); [|discriminate].
    destruct (dict_get "response_format" create_args) as [[]|]; try discriminate.
    destruct (dict_get "type" items); [|discriminate].
    destruct (Tools.is_str "json_object" p); discriminate.
  - injection H as ->.
    destruct caps, info; try discriminate.
    destruct m; try discriminate.
    destruct (get_info s); discriminate.
Qed.

End MoreCreateArgsFacts.

(** X19.  [_create_args_from_config] fails open: an entry whose
    lower-cased key is neither a request field nor a control
    parameter is dropped, and the result is the one that the
    configuration without the entry gives. *)
Theorem X19_unrecognised_key_dropped {ext : External} (before after : dict pyvalue)
    (k : string) (v : pyvalue) :
  str_mem (str_lower k) OLLAMA_VALID_CREATE_KWARGS_KEYS = false ->
  str_mem (str_lower k) LLM_CONTROL_PARAMS = false ->
  _create_args_from_config (before ++ (k, v) :: after)
  = _create_args_from_config (before ++ after).
Proof.
  intros Hv Hc.
  assert (Hne : String.eqb "options" k = false).
  { destruct (String.eqb "options" k) eqn:E; [|reflexivity].
    apply String.eqb_eq in E; subst k.
    destruct options_is_valid_key as [Hl Ho]. rewrite Hl in Hv. congruence. }
  unfold _create_args_from_config.
  rewrite !dict_get_app. cbn [dict_get]. rewrite Hne.
  rewrite !fold_left_app. cbn [fold_left].
  now rewrite create_args_step_unrecognised.
Qed.

Lemma X19_witness :
  _create_args_from_config (ext := sample_external)
    [("model", PyStr "llama3"); ("host", PyStr "http://localhost:11434");
     ("keep_alive", PyInt 5)]
  = _create_args_from_config (ext := sample_external)
      [("model", PyStr "llama3"); ("keep_alive", PyInt 5)].
Proof.
  apply (X19_unrecognised_key_dropped (ext := sample_external)
           [("model", PyStr "llama3")] [("keep_alive", PyInt 5)] "host"
           (PyStr "http://localhost:11434")); reflexivity.
Defined.

(** X20.  A control parameter that is not a request field ends up
    under "options": when no later key of the configuration lowers
    to the same name, the result has a dictionary under "options"
    that maps the lower-cased name to the given value. *)
Theorem X20_control_parameter_moved_to_options {ext : External}
    (before after : dict pyvalue) (k : string) (v : pyvalue) :
  str_mem (str_lower k) OLLAMA_VALID_CREATE_KWARGS_KEYS = false ->
  str_mem (str_lower k) LLM_CONTROL_PARAMS = true ->
  Forall (fun kv => str_lower (fst kv) <> str_lower k) after ->
  exists options,
    dict_get "options" (_create_args_from_config (before ++ (k, v) :: after))
    = Some (PyDict options) /\
    dict_get (str_lower k) options = Some v.
Proof.
  intros Hv Hc Hafter. unfold _create_args_from_config.
  rewrite fold_left_app. cbn [fold_left].
  match goal with
  | |- context [fold_left _create_args_step before ?a] =>
      destruct (fold_left _create_args_step before a) as [ca1 od1]
  end.
  unfold _create_args_step at 2. cbn [fst snd]. rewrite Hv, Hc.
  pose proof (create_args_fold_keeps_option after (str_lower k) v ca1
                (dict_set (str_lower k) v od1) Hafter (dict_get_set_same _ _ _)) as Hk.
  destruct (fold_left _create_args_step after (ca1, dict_set (str_lower k) v od1))
    as [ca od].
  cbn [snd] in Hk. destruct od as [|o od]; [discriminate|].
  exists (o :: od). split; [apply dict_get_set_same | exact Hk].
Qed.

Lemma X20_witness :
  exists options,
    dict_get "options"
      (_create_args_from_config (ext := sample_external)
         [("model", PyStr "llama3"); ("Temperature", PyInt 0); ("seed", PyInt 42)])
    = Some (PyDict options) /\
    dict_get "temperature" options = Some (PyInt 0).
Proof.
  refine (X20_control_parameter_moved_to_options (ext := sample_external)
            [("model", PyStr "llama3")] [("seed", PyInt 42)] "Temperature" (PyInt 0)
            eq_refl eq_refl _).
  constructor; [discriminate | constructor].
Defined.

(** X21.  A client that [OllamaChatCompletionClient.__init__] builds
    holds normalized create arguments, so that a call without extra
    arguments works on exactly the stored ones; its totals are zero;
    and the constructor never raises the [KeyError] for a missing
    "model", since it has asked for the key itself. *)
Theorem X21_derived_client_arguments {ext : External} (copied_args : dict pyvalue)
    (caps info : option ModelInfo) :
  (forall self,
     OllamaChatCompletionClient_init copied_args caps info = inl self ->
     _create_args self = _create_args_from_config copied_args /\
     normalized_args (_create_args self) /\
     merged_create_args self [] = _create_args self /\
     total_usage self = RequestUsage.mk 0 0 /\
     actual_usage self = RequestUsage.mk 0 0) /\
  OllamaChatCompletionClient_init copied_args caps info
  <> inr (BaseInitError (KeyError "model")) /\
  (dict_mem "model" copied_args = false ->
   OllamaChatCompletionClient_init copied_args caps info = inr ModelRequired).
Proof.
  unfold OllamaChatCompletionClient_init. repeat apply conj.
  - intros self H.
    destruct (negb (dict_mem "model" copied_args)); [discriminate|].
    destruct (__init__ (_create_args_from_config copied_args) caps info) as [c|] eqn:Hi;
      [|discriminate].
    injection H as <-.
    pose proof (init_keeps_create_args _ _ _ _ Hi) as Hargs.
    destruct (init_totals _ _ _ _ Hi) as (Ht & Ha & _).
    split; [exact Hargs|].
    split; [rewrite Hargs; apply create_args_from_config_normalized|].
    split; [|split; assumption].
    unfold merged_create_args. cbn [dict_update fold_left]. rewrite Hargs.
    apply create_args_from_config_fixed, create_args_from_config_normalized.
  - destruct (dict_mem "model" copied_args) eqn:Hm; cbn [negb]; [|discriminate].
    destruct (__init__ (_create_args_from_config copied_args) caps info) as [c|e] eqn:Hi;
      [discriminate|].
    intros [= ->]. apply init_key_error in Hi.
    apply dict_get_in_keys in Hi. apply Hi.
    destruct model_is_valid_key as [Hl Hv].
    apply create_args_from_config_gets_key; [exact Hl | exact Hv |].
    apply dict_mem_get in Hm as [v Hv'].
    destruct (in_dec string_dec "model" (map fst copied_args)) as [H | H]; [exact H|].
    apply dict_get_in_keys in H. congruence.
  - intros ->. reflexivity.
Qed.

Lemma X21_witness :
  exists self,
    OllamaChatCompletionClient_init (ext := sample_external)
      [("model", PyStr "llama3"); ("host", PyStr "h"); ("temperature", PyInt 0)]
      None (Some sample_info) = inl self /\
    _create_args self
    = [("model", PyStr "llama3"); ("options", PyDict [("temperature", PyInt 0)])] /\
    merged_create_args (ext := sample_external) self [] = _create_args self.
Proof.
  eexists. split; [reflexivity|]. split; [reflexivity|].
  refine (proj1 (proj2 (proj2 (proj1 (X21_derived_client_arguments (ext := sample_external)
            [("model", PyStr "llama3"); ("host", PyStr "h"); ("temperature", PyInt 0)]
            None (Some sample_info)) _ eq_refl)))).
Defined.

(** ** Request building *)

Section MoreBuilderFacts.
Context {ext : External}.
Import Tools Translate.

Lemma dict_del_keys_in {V : Type} (k k' : string) (d : dict V) :
  In k' (map fst (dict_del k d)) -> In k' (map fst d).
Proof.
  induction d as [|[k0 v0] d IH]; cbn [dict_del map fst In]; [auto|].
  destruct (String.eqb k k0); cbn [map fst In]; intuition.
Qed.

Lemma dict_del_nodup {V : Type} (k : string) (d : dict V) :
  NoDup (map fst d) -> NoDup (map fst (dict_del k d)).
Proof.
  induction d as [|[k0 v0] d IH]; cbn [dict_del map fst]; intros H; [exact H|].
  inversion H as [|? ? Hnotin Hrest]; subst.
  destruct (String.eqb k k0); [exact Hrest|].
  cbn [map fst]. constructor; [|now apply IH].
  intros Hin. apply Hnotin. eapply dict_del_keys_in; exact Hin.
Qed.

(** The directive part hands on create arguments that hold neither
    directive key. *)
Lemma resolve_directive_removes (self : Client) (jo : pyvalue) (args a : dict pyvalue)
    (v : pyvalue) :
  NoDup (map fst args) ->
  resolve_directive self jo args = Ok (v, a) ->
  dict_get "format" a = None /\ dict_get "response_format" a = None.
Proof.
  intros Hnd H. unfold resolve_directive in H.
  destruct (resolve_response_format args) as [[v1 a1]|] eqn:E1; cbn [bind] in H;
    [|discriminate].
  assert (H1 : dict_get "response_format" a1 = None /\ NoDup (map fst a1)).
  { unfold resolve_response_format in E1.
    destruct (dict_get "response_format" args) as [[]|] eqn:Erf; try discriminate;
      injection E1 as <- <-.
    - split; [now apply dict_del_removes | now apply dict_del_nodup].
    - split; [exact Erf | exact Hnd]. }
  destruct H1 as [Hrf Hnd1].
  destruct (resolve_json_output self jo v1) as [v2|]; cbn [bind] in H; [|discriminate].
  unfold resolve_format in H.
  destruct (dict_get "format" a1) eqn:Ef.
  - destruct (negb (is_none jo)); [discriminate|].
    destruct (negb (is_none v2)); [discriminate|].
    injection H as <- <-. split; [now apply dict_del_removes|].
    rewrite dict_get_del_other by discriminate. exact Hrf.
  - injection H as <- <-. split; assumption.
Qed.

Lemma process_create_args_ok (self : Client) (messages : list LLMMessage)
    (tools : list ToolInput) (tool_choice : ToolChoice) (jo : pyvalue)
    (extra : dict pyvalue) (p : CreateParams.t) :
  _process_create_args self messages tools tool_choice jo extra = Ok p ->
  resolve_directive self jo (merged_create_args self extra)
  = Ok (CreateParams.format p, CreateParams.create_args p) /\
  translate_and_convert self messages tools tool_choice jo
  = Ok (CreateParams.messages p, CreateParams.tools p).
Proof.
  unfold _process_create_args. intros H.
  destruct (resolve_directive self jo (merged_create_args self extra)) as [[v a]|];
    cbn [bind] in H; [|discriminate].
  destruct (translate_and_convert self messages tools tool_choice jo) as [[m t]|];
    cbn [bind] in H; [|discriminate].
  injection H as <-. split; reflexivity.
Qed.

Lemma part_images_none (parts : list ContentPart) :
  existsb (fun x => match x with PartImage _ => true | _ => false end) parts = false ->
  part_images parts = [].
Proof.
  induction parts as [|part parts IH]; [reflexivity|].
  cbn [existsb]. intros H. apply orb_false_iff in H as [Hp Hrest].
  unfold part_images. cbn [flat_map]. fold (part_images parts). rewrite IH by exact Hrest.
  destruct part; [reflexivity | discriminate | reflexivity].
Qed.

(** A message without an image part translates to messages without
    images. *)
Lemma to_ollama_type_no_image (message : LLMMessage) (ms : list Message.t) :
  to_ollama_type message = Ok ms -> has_image message = false ->
  message_images ms = [].
Proof.
  destruct message as [c | c src | c th src | c]; cbn [to_ollama_type has_image];
    intros H Himg.
  - injection H as <-. reflexivity.
  - unfold user_message_to_ollama in H.
    destruct (Names.assert_valid_name src); cbn [bind] in H; [|discriminate].
    destruct c as [text | parts].
    + injection H as <-. reflexivity.
    + apply user_parts_loop_keeps in H as (_ & Hi & _).
      rewrite Hi. cbn [message_images flat_map app]. now apply part_images_none.
  - unfold assistant_message_to_ollama in H.
    destruct (Names.assert_valid_name src); cbn [bind] in H; [|discriminate].
    destruct c as [text | calls]; cbn [bind] in H.
    + injection H as <-. reflexivity.
    + destruct (map_result func_call_to_ollama calls); cbn [bind] in H; [|discriminate].
      injection H as <-. reflexivity.
  - injection H as <-. unfold tool_message_to_ollama, message_images.
    induction c as [|x c IH]; [reflexivity | exact IH].
Qed.

Lemma translate_all_no_image (messages : list LLMMessage)
    (nested : list (list Message.t)) :
  map_result to_ollama_type messages = Ok nested ->
  existsb has_image messages = false ->
  message_images (List.concat nested) = [].
Proof.
  intros H. apply map_result_ok in H.
  induction H as [|m ms messages nested Hm _ IH]; [reflexivity|].
  cbn [existsb List.concat]. intros Himg.
  apply orb_false_iff in Himg as [H1 H2].
  rewrite message_images_app, (to_ollama_type_no_image m ms Hm H1). now apply IH.
Qed.

End MoreBuilderFacts.

(** X22.  A request that was built holds neither "format" nor
    "response_format" among its create arguments, so that the
    directive is given to the backend once, as the [format] argument,
    and the backend call never fails on a repeated [format]. *)
Theorem X22_directive_keys_removed {ext : External} (self : Client)
    (messages : list LLMMessage) (tools : list ToolInput) (tool_choice : ToolChoice)
    (jo : pyvalue) (extra : dict pyvalue) (p : CreateParams.t) :
  _process_create_args self messages tools tool_choice jo extra = Ok p ->
  dict_mem "format" (CreateParams.create_args p) = false /\
  dict_mem "response_format" (CreateParams.create_args p) = false /\
  forall stream, chat_call stream p <> Raise (DuplicateKeyword "format").
Proof.
  intros H. apply process_create_args_ok in H as [Hd _].
  apply resolve_directive_removes in Hd as [Hf Hrf];
    [|apply create_args_from_config_normalized].
  assert (Hmf : dict_mem "format" (CreateParams.create_args p) = false)
    by (unfold dict_mem; now rewrite Hf).
  split; [exact Hmf|]. split; [unfold dict_mem; now rewrite Hrf|].
  intros stream. unfold chat_call. cbn [find]. rewrite Hmf.
  repeat match goal with
         | |- context [if ?b then _ else _] => destruct b
         end; discriminate.
Qed.

Lemma X22_witness :
  let self := sample_client [("model", PyStr "llama3")] in
  let p := CreateParams.mk [] [] (PyStr "json") [("model", PyStr "llama3")] in
  _process_create_args (ext := sample_external) self [] [] (ChoiceStr "auto") PyNone
    [("format", PyStr "json")] = Ok p /\
  dict_mem "format" (CreateParams.create_args p) = false.
Proof.
  intros self p. split; [reflexivity|].
  apply (X22_directive_keys_removed (ext := sample_external) self [] []
           (ChoiceStr "auto") PyNone [("format", PyStr "json")] p).
  reflexivity.
Defined.

(** X23.  A model without vision is never sent an image: when the
    model info says no vision and the request was built, no backend
    message of the request holds an image. *)
Theorem X23_no_image_without_vision {ext : External} (self : Client)
    (messages : list LLMMessage) (tools : list ToolInput) (tool_choice : ToolChoice)
    (jo : pyvalue) (extra : dict pyvalue) (p : CreateParams.t) :
  vision (_model_info self) = false ->
  _process_create_args self messages tools tool_choice jo extra = Ok p ->
  message_images (CreateParams.messages p) = [].
Proof.
  intros Hv H. apply process_create_args_ok in H as [_ Ht].
  unfold translate_and_convert in Ht. rewrite Hv in Ht. cbn [negb andb] in Ht.
  destruct (existsb has_image messages) eqn:Himg; cbn [bind] in Ht; [discriminate|].
  match type of Ht with
  | bind ?r _ = _ => destruct r; cbn [bind] in Ht; [|discriminate]
  end.
  destruct (map_result Translate.to_ollama_type messages) as [nested|] eqn:Em;
    cbn [bind] in Ht; [|discriminate].
  match type of Ht with
  | bind ?r _ = _ => destruct r; cbn [bind] in Ht; [|discriminate]
  end.
  destruct (resolve_tool_choice tools tool_choice); cbn [bind] in Ht; [|discriminate].
  injection Ht as <- _. exact (translate_all_no_image messages nested Em Himg).
Qed.

Lemma X23_witness :
  let self := mkClient (mkModelInfo false true true "unknown") None
                       [("model", PyStr "llama3")]
                       (RequestUsage.mk 0 0) (RequestUsage.mk 0 0) 0 in
  let p := CreateParams.mk [Message.mk "user" (Some "hello") None None] [] PyNone
                           [("model", PyStr "llama3")] in
  _process_create_args (ext := sample_external) self
    [UserMessage (UserParts [PartText "hello"]) "user"] [] (ChoiceStr "auto") PyNone []
  = Ok p /\
  message_images (CreateParams.messages p) = [].
Proof.
  intros self p. split; [reflexivity|].
  apply (X23_no_image_without_vision (ext := sample_external) self
           [UserMessage (UserParts [PartText "hello"]) "user"] [] (ChoiceStr "auto")
           PyNone [] p); reflexivity.
Defined.

(** X24.  A model without function calling is sent no tools when
    [tool_choice] is one of the strings: when the model info says no
    function calling and the request was built, its tool list is
    empty. *)
Theorem X24_no_tools_without_function_calling {ext : External} (self : Client)
    (messages : list LLMMessage) (tools : list ToolInput) (choice : string)
    (jo : pyvalue) (extra : dict pyvalue) (p : CreateParams.t) :
  function_calling (_model_info self) = false ->
  _process_create_args self messages tools (ChoiceStr choice) jo extra = Ok p ->
  CreateParams.tools p = [].
Proof.
  intros Hf H. apply process_create_args_ok in H as [_ Ht].
  unfold translate_and_convert in Ht. rewrite Hf in Ht. cbn [negb andb] in Ht.
  repeat match type of Ht with
         | bind (if ?b then _ else _) _ = _ =>
             destruct b eqn:?; cbn [bind] in Ht; [discriminate|]
         | bind (map_result ?f ?l) _ = _ =>
             destruct (map_result f l); cbn [bind] in Ht; [|discriminate]
         end.
  destruct tools as [|t tools]; [|discriminate].
  cbn [resolve_tool_choice] in Ht.
  destruct (String.eqb choice "none"); cbn [bind] in Ht; [now injection Ht as _ <-|].
  destruct (String.eqb choice "required"); cbn in Ht; [discriminate|].
  now injection Ht as _ <-.
Qed.

Lemma X24_witness :
  let self := mkClient (mkModelInfo true false true "unknown") None
                       [("model", PyStr "llama3")]
                       (RequestUsage.mk 0 0) (RequestUsage.mk 0 0) 0 in
  let p := CreateParams.mk [Message.mk "user" (Some "hello") None None] [] PyNone
                           [("model", PyStr "llama3")] in
  _process_create_args (ext := sample_external) self sample_messages []
    (ChoiceStr "none") PyNone [] = Ok p /\
  CreateParams.tools p = [].
Proof.
  intros self p. split; [reflexivity|].
  apply (X24_no_tools_without_function_calling (ext := sample_external) self
           sample_messages [] "none" PyNone [] p); reflexivity.
Defined.

(** ** The two orchestrators *)

Section MoreOrchestratorFacts.
Context {ext : External}.

Lemma append_empty_r (s : string) : (s ++ "")%string = s.
Proof. induction s as [|c s IH]; cbn; [reflexivity | now rewrite IH]. Qed.

Lemma concat_empty_cons (x : string) (xs : list string) :
  String.concat "" (x :: xs) = (x ++ String.concat "" xs)%string.
Proof. destruct xs; cbn; [now rewrite append_empty_r | reflexivity]. Qed.

(** Joining with the empty separator does not see empty strings. *)
Lemma concat_skips_empty (xs : list string) :
  String.concat "" (filter (fun text => (0 <? String.length text)%nat) xs)
  = String.concat "" xs.
Proof.
  induction xs as [|x xs IH]; [reflexivity|].
  cbn [filter]. rewrite (concat_empty_cons x xs).
  destruct (0 <? String.length x)%nat eqn:E.
  - rewrite concat_empty_cons. now rewrite IH.
  - apply Nat.ltb_ge in E. destruct x as [|c x]; [exact IH | cbn in E; lia].
Qed.

Lemma yielded_texts_of_run (texts : list string) (result : CreateResult.t) :
  yielded_texts (map YieldText texts ++ [YieldResult result]) = texts.
Proof.
  unfold yielded_texts. rewrite flat_map_app. cbn. rewrite app_nil_r.
  induction texts as [|t texts IH]; [reflexivity|]. cbn. now rewrite IH.
Qed.

(** The stop reason of the loop: the one it had, or else the first
    [done_reason] of a chunk that is done. *)
Lemma consume_stop_reason (tool_id : Z) (st : Loop.t) (chunks : list ChatResponse.t) :
  Loop.stop_reason (fst (consume tool_id st chunks))
  = match Loop.stop_reason st with
    | Some reason => Some reason
    | None => first_done_reason chunks
    end.
Proof.
  revert st; induction chunks as [|c chunks IH]; intros st.
  - cbn. destruct (Loop.stop_reason st); reflexivity.
  - cbn [consume first_done_reason].
    destruct (on_chunk tool_id st c) as [st1 y1] eqn:E1.
    specialize (IH st1).
    destruct (consume tool_id st1 chunks) as [st2 y2]; cbn [fst] in *.
    rewrite IH.
    assert (Loop.stop_reason st1
            = match ChatResponse.done c, Loop.stop_reason st with
              | Some true, None => ChatResponse.done_reason c
              | _, _ => Loop.stop_reason st
              end) as ->.
    { unfold on_chunk in E1.
      destruct (Message.content (ChatResponse.message c)); injection E1 as <- _;
        reflexivity. }
    destruct (Loop.stop_reason st) as [r|]; [destruct (ChatResponse.done c) as [[]|]; reflexivity|].
    destruct (ChatResponse.done c) as [[]|]; reflexivity.
Qed.

Lemma normalize_name_valid_chars (tool_id : Z) (tool_calls : list ToolCall.t) :
  Forall (fun fc => str_all Names.name_char (FunctionCall.name fc) = true /\
                    (String.length (FunctionCall.name fc) <= 64)%nat)
         (function_calls_of tool_id tool_calls).
Proof.
  unfold function_calls_of. apply Forall_map, Forall_forall. intros x _. cbn.
  split; [apply normalize_name_all | apply normalize_name_length].
Qed.

End MoreOrchestratorFacts.

(** X25.  A call of [create] that the backend answers returns a
    result whose usage is what the backend reports, an absent count
    as zero, whether the response has tool calls or not.  A response
    with tool calls gives the finish reason function_calls whatever
    its [done_reason], tool-call names of at most 64 characters of
    the class [[a-zA-Z0-9_-]], and its text as thought when it is not
    empty; a response without tool calls gives its text as content
    and no thought. *)
Theorem X25_create_result {ext : External} (self : Client) (backend : Backend)
    (messages : list LLMMessage) (tools : list ToolInput) (tool_choice : ToolChoice)
    (jo : pyvalue) (extra : dict pyvalue) (response : ChatResponse.t) :
  ask self false backend messages tools tool_choice jo extra = Ok response ->
  exists result self',
    create self backend messages tools tool_choice jo extra = (Ok result, self') /\
    CreateResult.usage result
    = RequestUsage.mk (count_or_zero (ChatResponse.prompt_eval_count response))
                      (count_or_zero (ChatResponse.eval_count response)) /\
    match Message.tool_calls (ChatResponse.message response) with
    | Some tool_calls =>
        CreateResult.finish_reason result = finish_function_calls /\
        (exists calls,
           CreateResult.content result = ContentCalls calls /\
           Forall (fun fc => str_all Names.name_char (FunctionCall.name fc) = true /\
                             (String.length (FunctionCall.name fc) <= 64)%nat) calls) /\
        CreateResult.thought result
        = match Message.content (ChatResponse.message response) with
          | Some text => if String.eqb text "" then None else Some text
          | None => None
          end
    | None =>
        CreateResult.content result
        = ContentText (str_or_empty (Message.content (ChatResponse.message response))) /\
        CreateResult.thought result = None
    end.
Proof.
  intros Hask. eexists. eexists.
  split; [apply create_completes; exact Hask|].
  unfold translate_response.
  destruct (Message.tool_calls (ChatResponse.message response)) as [tcs|];
    cbn [fst CreateResult.usage CreateResult.finish_reason CreateResult.content
         CreateResult.thought].
  - split; [reflexivity|]. split; [reflexivity|]. split.
    + eexists. split; [reflexivity | apply normalize_name_valid_chars].
    + destruct (Message.content (ChatResponse.message response)) as [text|];
        [|reflexivity].
      destruct (String.eqb text ""); reflexivity.
  - repeat split.
Qed.

Lemma X25_witness :
  let self := sample_client [("model", PyStr "llama3")] in
  let response :=
    ChatResponse.mk (Some "llama3") (Some true) (Some "stop") (Some 7%Z) None
      (Message.mk "assistant" (Some "let me look") None
                  (Some [ToolCall.mk "get weather" (PyDict [])])) in
  exists result self',
    create (ext := sample_external) self (answering response) sample_messages []
           (ChoiceStr "auto") PyNone [] = (Ok result, self') /\
    CreateResult.usage result = RequestUsage.mk 7 0 /\
    CreateResult.finish_reason result = finish_function_calls /\
    CreateResult.thought result = Some "let me look".
Proof.
  intros self response.
  destruct (X25_create_result (ext := sample_external) self (answering response)
              sample_messages [] (ChoiceStr "auto") PyNone [] response eq_refl)
    as (result & self' & Hc & Hu & Hf & _ & Ht).
  exists result, self'. repeat split; assumption.
Defined.

(** X26.  A call that ends with an exception leaves the client as it
    was, counter and totals alike: [create] that raises, and
    [create_stream] whose generator raises, before or after partial
    outputs. *)
Theorem X26_failed_call_changes_nothing {ext : External} (self : Client)
    (messages : list LLMMessage) (tools : list ToolInput) (tool_choice : ToolChoice)
    (jo : pyvalue) (extra : dict pyvalue) :
  (forall backend e self',
     create self backend messages tools tool_choice jo extra = (Raise e, self') ->
     self' = self) /\
  (forall backend items e self',
     create_stream self backend messages tools tool_choice jo extra
     = ((items, Some e), self') ->
     self' = self).
Proof.
  split.
  - intros backend e self'. unfold create.
    destruct (ask self false backend messages tools tool_choice jo extra) as [r|e'].
    + destruct (translate_response (_tool_id self) r). discriminate.
    + now intros [= _ <-].
  - intros backend items e self'. unfold create_stream.
    destruct (ask self true backend messages tools tool_choice jo extra) as [stream|e'].
    + destruct (consume (_tool_id self) Loop.start (ChunkStream.chunks stream)).
      destruct (ChunkStream.ending stream); [now intros [= _ _ <-] | discriminate].
    + now intros [= _ _ <-].
Qed.

Lemma X26_witness :
  let self := sample_client [("model", PyStr "llama3")] in
  create (ext := sample_external) self (fun _ => Raise (BackendError "connection refused"))
         sample_messages [] (ChoiceStr "auto") PyNone []
  = (Raise (BackendError "connection refused"), self).
Proof.
  intros self.
  assert (H : exists self',
             create (ext := sample_external) self
                    (fun _ => Raise (BackendError "connection refused"))
                    sample_messages [] (ChoiceStr "auto") PyNone []
             = (Raise (BackendError "connection refused"), self'))
    by (eexists; reflexivity).
  destruct H as [self' H].
  rewrite H. f_equal.
  exact (proj1 (X26_failed_call_changes_nothing (ext := sample_external) self
                  sample_messages [] (ChoiceStr "auto") PyNone [])
               _ _ _ H).
Defined.

(** X27.  A stream that ends with an exception, a cancellation
    included, after some chunks: the consumer has seen the non-empty
    text fragments of those chunks, in order, then gets the
    exception; there is no final result, and the client is as it
    was. *)
Theorem X27_interrupted_stream {ext : External} (self : Client)
    (backend : StreamBackend) (messages : list LLMMessage) (tools : list ToolInput)
    (tool_choice : ToolChoice) (jo : pyvalue) (extra : dict pyvalue)
    (stream : ChunkStream.t) (e : error) :
  ask self true backend messages tools tool_choice jo extra = Ok stream ->
  ChunkStream.ending stream = Some e ->
  create_stream self backend messages tools tool_choice jo extra
  = ((map YieldText
          (filter (fun text => (0 <? String.length text)%nat)
                  (text_fragments (ChunkStream.chunks stream))),
      Some e), self).
Proof.
  intros Hask Hend. unfold create_stream. rewrite Hask.
  pose proof (consume_yields (_tool_id self) Loop.start (ChunkStream.chunks stream)) as Hy.
  destruct (consume (_tool_id self) Loop.start (ChunkStream.chunks stream)) as [st y].
  cbn [snd] in Hy. rewrite Hend, Hy. reflexivity.
Qed.

Lemma X27_witness :
  let self := sample_client [("model", PyStr "llama3")] in
  let cancelled : StreamBackend :=
    fun _ => Ok (ChunkStream.mk [text_chunk "Hel" false None None]
                                (Some (BackendError "cancelled"))) in
  create_stream (ext := sample_external) self cancelled sample_messages []
                (ChoiceStr "auto") PyNone []
  = (([YieldText "Hel"], Some (BackendError "cancelled")), self).
Proof.
  intros self cancelled.
  exact (X27_interrupted_stream (ext := sample_external) self cancelled sample_messages []
           (ChoiceStr "auto") PyNone []
           (ChunkStream.mk [text_chunk "Hel" false None None]
                           (Some (BackendError "cancelled")))
           (BackendError "cancelled") eq_refl eq_refl).
Defined.

(** X28.  When a stream that ends normally carried at least two text
    fragments and no tool call, the content of the final result is
    the text that the consumer got piece by piece: the partial
    outputs, joined. *)
Theorem X28_streamed_text_is_final_text {ext : External} (self : Client)
    (backend : StreamBackend) (messages : list LLMMessage) (tools : list ToolInput)
    (tool_choice : ToolChoice) (jo : pyvalue) (extra : dict pyvalue)
    (stream : ChunkStream.t) :
  ask self true backend messages tools tool_choice jo extra = Ok stream ->
  ChunkStream.ending stream = None ->
  (2 <= List.length (text_fragments (ChunkStream.chunks stream)))%nat ->
  tool_fragments (_tool_id self) (ChunkStream.chunks stream) = [] ->
  exists items result self',
    create_stream self backend messages tools tool_choice jo extra
    = ((items, None), self') /\
    last items (YieldText "") = YieldResult result /\
    CreateResult.content result = ContentText (String.concat "" (yielded_texts items)) /\
    CreateResult.thought result = None.
Proof.
  intros Hask Hend Hlen Htools.
  eexists. exists (aggregate (final_state self stream)). eexists.
  split; [apply (create_stream_completes self backend messages tools tool_choice jo
                   extra stream Hask Hend)|].
  split; [apply last_last|].
  rewrite yielded_texts_of_run, concat_skips_empty.
  pose proof (aggregate_content (final_state self stream)) as [Hc Ht].
  cbn zeta in Hc, Ht. unfold final_state in *.
  rewrite consume_content_chunks, consume_full_tool_calls in Hc, Ht.
  rewrite Htools in Hc, Ht.
  cbn [Loop.start Loop.content_chunks Loop.full_tool_calls app] in Hc, Ht.
  destruct (text_fragments (ChunkStream.chunks stream)) as [|a [|b rest]];
    cbn [List.length] in Hlen; try lia.
  split; [exact Hc | exact Ht].
Qed.

Lemma X28_witness :
  let self := sample_client [("model", PyStr "llama3")] in
  let chunks := [text_chunk "Hel" false None None; text_chunk "lo" false None None;
                 text_chunk "" true (Some 3%Z) (Some 5%Z)] in
  exists items result self',
    create_stream (ext := sample_external) self (streaming chunks) sample_messages []
                  (ChoiceStr "auto") PyNone []
    = ((items, None), self') /\
    last items (YieldText "") = YieldResult result /\
    CreateResult.content result = ContentText (String.concat "" (yielded_texts items)) /\
    CreateResult.thought result = None.
Proof.
  intros self chunks.
  refine (X28_streamed_text_is_final_text (ext := sample_external) self
            (streaming chunks) sample_messages [] (ChoiceStr "auto") PyNone []
            (ChunkStream.mk chunks None) eq_refl eq_refl _ eq_refl).
  cbn. lia.
Defined.

(** X29.  The finish reason of a streaming call that ends normally
    comes from the first chunk that is done and has a [done_reason];
    what later chunks say is not looked at, and without such a chunk
    the finish reason is unknown. *)
Theorem X29_first_done_reason_wins {ext : External} (self : Client)
    (backend : StreamBackend) (messages : list LLMMessage) (tools : list ToolInput)
    (tool_choice : ToolChoice) (jo : pyvalue) (extra : dict pyvalue)
    (stream : ChunkStream.t) :
  ask self true backend messages tools tool_choice jo extra = Ok stream ->
  ChunkStream.ending stream = None ->
  exists partial result self',
    create_stream self backend messages tools tool_choice jo extra
    = ((partial ++ [YieldResult result], None), self') /\
    CreateResult.finish_reason result
    = normalize_stop_reason (first_done_reason (ChunkStream.chunks stream)).
Proof.
  intros Hask Hend.
  eexists. exists (aggregate (final_state self stream)). eexists.
  split; [apply (create_stream_completes self backend messages tools tool_choice jo
                   extra stream Hask Hend)|].
  unfold aggregate, final_state.
  rewrite consume_stop_reason. cbn [Loop.start Loop.stop_reason].
  match goal with
  | |- context [if ?b then _ else _] => destruct b; [reflexivity|]
  end.
  match goal with
  | |- context [if ?b then _ else _] => destruct b; reflexivity
  end.
Qed.

Lemma X29_witness :
  let self := sample_client [("model", PyStr "llama3")] in
  let chunks :=
    [text_chunk "a" false None None;
     ChatResponse.mk None (Some true) (Some "STOP") None None
                     (Message.mk "assistant" (Some "b") None None);
     ChatResponse.mk None (Some true) (Some "tool_calls") None None
                     (Message.mk "assistant" (Some "") None None)] in
  exists partial result self',
    create_stream (ext := sample_external) self (streaming chunks) sample_messages []
                  (ChoiceStr "auto") PyNone []
    = ((partial ++ [YieldResult result], None), self') /\
    CreateResult.finish_reason result = finish_stop.
Proof.
  intros self chunks.
  exact (X29_first_done_reason_wins (ext := sample_external) self (streaming chunks)
           sample_messages [] (ChoiceStr "auto") PyNone []
           (ChunkStream.mk chunks None) eq_refl eq_refl).
Defined.
